(** * BannerWeb: the enrollment engine

    A shallow embedding of [student.py], [course.py] and the registry
    operations of [enrollment_system.py], with the properties of the
    enrollment engine proved over it.

    Conventions.
    - A Python [str] is a [string]; each [ascii] stands for one code point
      below 256.  The whitespace and digit classes below are those of
      CPython on that range.
    - A Python [set] of strings is a [gset string], a [dict] keyed by
      strings a [gmap string _].
    - A Python [int] is a [Z].
    - An exception is a value of [exn]; code that may raise returns a
      [result]. *)

From Stdlib Require Import ZArith Ascii String List Decimal DecimalString DecimalZ.
From stdpp Require Import base option gmap strings list fin_maps fin_sets sorting.

Set Warnings "-clear-no-such-hyp".

Local Open Scope string_scope.
Local Open Scope Z_scope.

(** ** Exceptions *)

Inductive exn : Type :=
| ValueError.

Inductive result (A : Type) : Type :=
| Ok (a : A)
| Raise (e : exn).
Arguments Ok {A} a.
Arguments Raise {A} e.

#[global] Instance result_ret : MRet result := λ A a, Ok a.
#[global] Instance result_bind : MBind result := λ A B k r,
  match r with
  | Ok a => k a
  | Raise e => Raise e
  end.

(** [try: body except: handler] with a bare [except:], which catches
    whatever [body] raises. *)
Definition try_except {A : Type} (body : result A) (handler : A) : A :=
  match body with
  | Ok a => a
  | Raise _ => handler
  end.

(** ** Built-ins of the language used by [course.py] *)

Module Py.

Definition code (c : ascii) : nat := nat_of_ascii c.

(** [str.isspace] of one character, which is what [str.strip()] removes:
    TAB, LF, VT, FF, CR, the separators FS, GS, RS, US, the space,
    NEL and the no-break space. *)
Definition is_space (c : ascii) : bool :=
  let n := code c in
  ((9 <=? n) && (n <=? 13))%nat || ((28 <=? n) && (n <=? 32))%nat
  || (n =? 133)%nat || (n =? 160)%nat.

(** The blanks [int()] skips around a literal: the C-locale blanks, and
    the two non-ASCII whitespace characters, which are turned into a
    space before the literal is read. *)
Definition is_int_space (c : ascii) : bool :=
  let n := code c in
  ((9 <=? n) && (n <=? 13))%nat || (n =? 32)%nat
  || (n =? 133)%nat || (n =? 160)%nat.

Fixpoint lstrip (sp : ascii → bool) (s : string) : string :=
  match s with
  | EmptyString => EmptyString
  | String c r => if sp c then lstrip sp r else s
  end.

(** Trailing blanks: a blank is dropped when everything after it has
    been dropped. *)
Fixpoint rstrip (sp : ascii → bool) (s : string) : string :=
  match s with
  | EmptyString => EmptyString
  | String c r =>
      match rstrip sp r with
      | EmptyString => if sp c then EmptyString else String c EmptyString
      | r' => String c r'
      end
  end.

(** [s.strip()] *)
Definition strip (s : string) : string := rstrip is_space (lstrip is_space s).

(** [s.split(sep)] for a one-character separator: never empty. *)
Fixpoint split (sep : ascii) (s : string) : list string :=
  match s with
  | EmptyString => [EmptyString]
  | String c r =>
      if Ascii.eqb c sep then EmptyString :: split sep r
      else match split sep r with
           | h :: t => String c h :: t
           | [] => [String c EmptyString]
           end
  end.

Definition digit_value (c : ascii) : option Z :=
  let n := code c in
  if ((48 <=? n) && (n <=? 57))%nat then Some (Z.of_nat (n - 48)) else None.

(** The longest run of digits [int()] converts, the default of the
    interpreter ([sys.int_info.default_max_str_digits]). *)
Definition max_str_digits : Z := 4300.

(** The digits of a decimal literal.  [prev] tells what was read last:
    nothing yet, a digit, or an underscore.  An underscore may only
    stand between two digits.  [count] is the number of digits read. *)
Inductive prev_char : Type := PStart | PDigit | PUnderscore.

Fixpoint digits (prev : prev_char) (acc count : Z) (s : string) : option Z :=
  match s with
  | EmptyString =>
      match prev with
      | PDigit => if max_str_digits <? count then None else Some acc
      | _ => None
      end
  | String c r =>
      match digit_value c with
      | Some d => digits PDigit (acc * 10 + d) (count + 1) r
      | None =>
          if Ascii.eqb c "_"%char then
            match prev with
            | PDigit => digits PUnderscore acc count r
            | _ => None
            end
          else None
      end
  end.

(** [int(s)] for a string, base ten: blanks, an optional sign, digits. *)
Definition int_of_str (s : string) : result Z :=
  let body := rstrip is_int_space (lstrip is_int_space s) in
  let r :=
    match body with
    | String "+"%char r => digits PStart 0 0 r
    | String "-"%char r => Z.opp <$> digits PStart 0 0 r
    | _ => digits PStart 0 0 body
    end in
  match r with
  | Some z => Ok z
  | None => Raise ValueError
  end.

(** [set(s)]: the set of the characters of a string. *)
Fixpoint char_set (s : string) : gset ascii :=
  match s with
  | EmptyString => ∅
  | String c r => {[ c ]} ∪ char_set r
  end.

(** Truth value of a string: [not s] holds of the empty string only. *)
Definition is_empty (s : string) : bool :=
  match s with
  | EmptyString => true
  | _ => false
  end.

End Py.

(** ** [student.py] *)

Module Student.

Record t : Type := mk {
  student_id : string;
  name : string;
  registered_courses : gset string
}.

(** [Student(student_id, name)] *)
Definition init (student_id name : string) : t :=
  {| student_id := student_id; name := name; registered_courses := ∅ |}.

Definition add_course (self : t) (course_id : string) : t :=
  {| student_id := student_id self; name := name self;
     registered_courses := registered_courses self ∪ {[ course_id ]} |}.

(** [set.discard]: no error when the id is absent. *)
Definition remove_course (self : t) (course_id : string) : t :=
  {| student_id := student_id self; name := name self;
     registered_courses := registered_courses self ∖ {[ course_id ]} |}.

Definition get_course_count (self : t) : Z :=
  Z.of_nat (size (registered_courses self)).

Definition is_enrolled_in (self : t) (course_id : string) : bool :=
  bool_decide (course_id ∈ registered_courses self).

End Student.

(** ** [course.py] *)

Module Course.

Record t : Type := mk {
  course_id : string;
  name : string;
  instructor : string;
  enrolled_students : gset string;
  max_students : Z;
  days : string;
  time : string;
  location : string
}.

(** [Course(course_id, name, instructor, max_students, days, time, location)] *)
Definition init (course_id name instructor : string) (max_students : Z)
    (days time location : string) : t :=
  {| course_id := course_id; name := name; instructor := instructor;
     enrolled_students := ∅; max_students := max_students;
     days := days; time := time; location := location |}.

Definition set_enrolled (self : t) (e : gset string) : t :=
  {| course_id := course_id self; name := name self;
     instructor := instructor self; enrolled_students := e;
     max_students := max_students self; days := days self;
     time := time self; location := location self |}.

(** Returns the flag and the course as the call leaves it. *)
Definition add_student (self : t) (student_id : string) : bool * t :=
  if Z.of_nat (size (enrolled_students self)) >=? max_students self
  then (false, self)
  else (true, set_enrolled self (enrolled_students self ∪ {[ student_id ]})).

Definition remove_student (self : t) (student_id : string) : t :=
  set_enrolled self (enrolled_students self ∖ {[ student_id ]}).

Definition is_full (self : t) : bool :=
  Z.of_nat (size (enrolled_students self)) >=? max_students self.

Definition get_available_seats (self : t) : Z :=
  max_students self - Z.of_nat (size (enrolled_students self)).

Definition get_enrollment_count (self : t) : Z :=
  Z.of_nat (size (enrolled_students self)).

Definition is_student_enrolled (self : t) (student_id : string) : bool :=
  bool_decide (student_id ∈ enrolled_students self).

(** [hour, minute = map(int, time_str.split(':'))]: the unpacking raises
    [ValueError] unless there are exactly two parts, and so does [int]
    on a part that is no literal. *)
Definition _time_to_minutes (time_str : string) : result Z :=
  match Py.split ":" time_str with
  | [h; m] =>
      hour ← Py.int_of_str h;
      minute ← Py.int_of_str m;
      Ok (hour * 60 + minute)
  | _ => Raise ValueError
  end.

Definition _parse_time_range (time_range : string) : result (Z * Z) :=
  match Py.split "-" time_range with
  | [start_str; end_str] =>
      start_minutes ← _time_to_minutes (Py.strip start_str);
      end_minutes ← _time_to_minutes (Py.strip end_str);
      Ok (start_minutes, end_minutes)
  | _ => Raise ValueError
  end.

Definition _times_overlap (time1 time2 : string) : bool :=
  try_except
    (r1 ← _parse_time_range time1;
     r2 ← _parse_time_range time2;
     Ok ((r1.1 <? r2.2) && (r2.1 <? r1.2)))
    false.

Definition _has_common_days (self : t) (other_days : string) : bool :=
  let self_days := Py.char_set (days self) in
  let other_days_set := Py.char_set other_days in
  bool_decide (0 < size (self_days ∩ other_days_set))%nat.

Definition has_schedule_conflict (self other_course : t) : bool :=
  if Py.is_empty (days self) || Py.is_empty (time self)
     || Py.is_empty (days other_course) || Py.is_empty (time other_course)
  then false
  else if negb (_has_common_days self (days other_course)) then false
  else _times_overlap (time self) (time other_course).

End Course.

(** ** [enrollment_system.py] *)

(** The second component of what an operation returns.  Each constructor
    is one of the message templates of the source and carries the values
    interpolated into it. *)
Inductive message : Type :=
| MsgStudentFieldsEmpty
    (* "Student ID and name cannot be empty." *)
| MsgStudentExists (student_id : string)
    (* "Student ID {student_id} already exists." *)
| MsgStudentRegistered (name student_id : string)
    (* "Student {name} registered successfully with ID {student_id}." *)
| MsgCourseFieldsEmpty
    (* "Course ID, name, and instructor cannot be empty." *)
| MsgCourseExists (course_id : string)
    (* "Course ID {course_id} already exists." *)
| MsgMaxNotPositive
    (* "Maximum students must be a positive number." *)
| MsgMaxNotNumber
    (* "Maximum students must be a valid number." *)
| MsgCourseAdded (name course_id : string)
    (* "Course {name} added successfully with ID {course_id}." *)
| MsgStudentNotFound (student_id : string)
    (* "Student ID {student_id} not found." *)
| MsgCourseNotFound (course_id : string)
    (* "Course ID {course_id} not found." *)
| MsgAlreadyEnrolled (course_name : string)
    (* "Student is already enrolled in {course.name}." *)
| MsgCourseFull (course_name : string)
    (* "Course {course.name} is full. No seats available." *)
| MsgScheduleConflict (course enrolled_course : Course.t)
    (* "SCHEDULE CONFLICT: {course.name} ({course.days} {course.time})
       conflicts with {enrolled_course.name} ({enrolled_course.days}
       {enrolled_course.time}). You cannot register for courses that meet
       at the same time." *)
| MsgEnrolled (student_name course_name : string)
    (* "Student {student.name} successfully enrolled in {course.name}." *)
| MsgNotEnrolled (course_name : string)
    (* "Student is not enrolled in {course.name}." *)
| MsgDropped (student_name course_name : string)
    (* "Student {student.name} successfully dropped {course.name}." *).

(** What a caller may pass as [max_students]: the annotated [int], or the
    text of an entry field. *)
Inductive int_arg : Type :=
| IntArg (z : Z)
| StrArg (s : string).

(** [int(max_students)] *)
Definition py_int (v : int_arg) : result Z :=
  match v with
  | IntArg z => Ok z
  | StrArg s => Py.int_of_str s
  end.

(** The order in which a [for] loop visits a set of strings.  The language
    leaves it open; any enumeration of the set, each element once, is
    admitted. *)
Class SetIteration : Type := {
  iterate : gset string → list string;
  iterate_perm : ∀ X : gset string, iterate X ≡ₚ elements X
}.

Module EnrollmentSystem.

Record t : Type := mk {
  data_directory : string;
  students : gmap string Student.t;
  courses : gmap string Course.t
}.

(** The registry as the constructor leaves it when the data directory
    holds no file: [load_data] finds nothing to read. *)
Definition init (data_directory : string) : t :=
  {| data_directory := data_directory; students := ∅; courses := ∅ |}.

Definition set_students (self : t) (m : gmap string Student.t) : t :=
  {| data_directory := data_directory self; students := m;
     courses := courses self |}.

Definition set_courses (self : t) (m : gmap string Course.t) : t :=
  {| data_directory := data_directory self; students := students self;
     courses := m |}.

(** [save_data] writes the three files and catches every error of its
    own; the dictionaries in memory are not touched. *)
Definition save_data (self : t) : t := self.

Definition register_student (self : t) (student_id name : string)
  : (bool * message) * t :=
  if Py.is_empty student_id || Py.is_empty name
  then ((false, MsgStudentFieldsEmpty), self)
  else if bool_decide (student_id ∈ dom (students self))
  then ((false, MsgStudentExists student_id), self)
  else
    let self := set_students self
                  (<[student_id := Student.init student_id name]> (students self)) in
    let self := save_data self in
    ((true, MsgStudentRegistered name student_id), self).

Definition add_course (self : t) (course_id name instructor : string)
    (max_students : int_arg) : (bool * message) * t :=
  if Py.is_empty course_id || Py.is_empty name || Py.is_empty instructor
  then ((false, MsgCourseFieldsEmpty), self)
  else if bool_decide (course_id ∈ dom (courses self))
  then ((false, MsgCourseExists course_id), self)
  else
    match py_int max_students with
    | Raise ValueError => ((false, MsgMaxNotNumber), self)
    | Ok max_students =>
        if max_students <=? 0
        then ((false, MsgMaxNotPositive), self)
        else
          let self := set_courses self
                        (<[course_id := Course.init course_id name instructor
                                          max_students "" "" ""]> (courses self)) in
          let self := save_data self in
          ((true, MsgCourseAdded name course_id), self)
    end.

(** The loop over the courses the student holds: the first one, in the
    order of the iteration, that is in the dictionary and conflicts. *)
Fixpoint first_conflict (courses : gmap string Course.t) (course : Course.t)
    (ids : list string) : option Course.t :=
  match ids with
  | [] => None
  | enrolled_course_id :: rest =>
      match courses !! enrolled_course_id with
      | Some enrolled_course =>
          if Course.has_schedule_conflict course enrolled_course
          then Some enrolled_course
          else first_conflict courses course rest
      | None => first_conflict courses course rest
      end
  end.

Definition enroll_student `{SetIteration} (self : t) (student_id course_id : string)
  : (bool * message) * t :=
  match students self !! student_id with
  | None => ((false, MsgStudentNotFound student_id), self)
  | Some student =>
      match courses self !! course_id with
      | None => ((false, MsgCourseNotFound course_id), self)
      | Some course =>
          if bool_decide (course_id ∈ Student.registered_courses student)
          then ((false, MsgAlreadyEnrolled (Course.name course)), self)
          else if Course.is_full course
          then ((false, MsgCourseFull (Course.name course)), self)
          else
            match first_conflict (courses self) course
                    (iterate (Student.registered_courses student)) with
            | Some enrolled_course =>
                ((false, MsgScheduleConflict course enrolled_course), self)
            | None =>
                let student' := Student.add_course student course_id in
                let course' := (Course.add_student course student_id).2 in
                let self := set_students self (<[student_id := student']> (students self)) in
                let self := set_courses self (<[course_id := course']> (courses self)) in
                let self := save_data self in
                ((true, MsgEnrolled (Student.name student) (Course.name course)), self)
            end
      end
  end.

Definition drop_course (self : t) (student_id course_id : string)
  : (bool * message) * t :=
  match students self !! student_id with
  | None => ((false, MsgStudentNotFound student_id), self)
  | Some student =>
      match courses self !! course_id with
      | None => ((false, MsgCourseNotFound course_id), self)
      | Some course =>
          if negb (bool_decide (course_id ∈ Student.registered_courses student))
          then ((false, MsgNotEnrolled (Course.name course)), self)
          else
            let student' := Student.remove_course student course_id in
            let course' := Course.remove_student course student_id in
            let self := set_students self (<[student_id := student']> (students self)) in
            let self := set_courses self (<[course_id := course']> (courses self)) in
            let self := save_data self in
            ((true, MsgDropped (Student.name student) (Course.name course)), self)
      end
  end.

End EnrollmentSystem.

(** ** The day buckets of [get_formatted_schedule] *)

(** ['Th' in days] *)
Fixpoint contains_th (days : string) : bool :=
  match days with
  | EmptyString => false
  | String c r =>
      match c, r with
      | "T"%char, String "h"%char _ => true
      | _, _ => contains_th r
      end
  end.

(** [days.replace('Th', '')]: occurrences are removed from left to right. *)
Fixpoint remove_th (days : string) : string :=
  match days with
  | EmptyString => EmptyString
  | String "T"%char (String "h"%char r) => remove_th r
  | String c r => String c (remove_th r)
  end.

(** The keys of [schedule_by_day] a course is appended to, in the order
    of the appends: "Th" first when the day string contains it, then one
    key for each remaining character that is a key. *)
Definition day_buckets (days : string) : list string :=
  let th := contains_th days in
  let days := if th then remove_th days else days in
  (if th then ["Th"] else [])
  ++ flat_map
       (λ day : ascii,
          if bool_decide (String day EmptyString ∈ ["M"; "T"; "W"; "Th"; "F"])
          then [String day EmptyString] else [])
       (list_ascii_of_string days).

(** ** Runs of the registry *)

Import EnrollmentSystem.

(** One call of a mutating operation of the registry. *)
Inductive op : Type :=
| Register (student_id name : string)
| AddCourse (course_id name instructor : string) (max_students : int_arg)
| Enroll (student_id course_id : string)
| Drop (student_id course_id : string).

Definition exec `{SetIteration} (o : op) (self : t) : (bool * message) * t :=
  match o with
  | Register student_id name => register_student self student_id name
  | AddCourse course_id name instructor max_students =>
      add_course self course_id name instructor max_students
  | Enroll student_id course_id => enroll_student self student_id course_id
  | Drop student_id course_id => drop_course self student_id course_id
  end.

(** The states a registry passes through when it starts with no data. *)
Inductive reachable `{SetIteration} : t → Prop :=
| reachable_init (data_directory : string) :
    reachable (init data_directory)
| reachable_exec (st : t) (o : op) :
    reachable st → reachable (exec o st).2.

(** Runs a list of calls, first call first. *)
Definition run `{SetIteration} (ops : list op) (self : t) : t :=
  foldl (λ st o, (exec o st).2) self ops.

(** ** Invariants *)

(** Each object is stored under its own id. *)
Definition keyed (st : t) : Prop :=
  (∀ k s, students st !! k = Some s → Student.student_id s = k) ∧
  (∀ k c, courses st !! k = Some c → Course.course_id c = k).

(** A student holds a course exactly when the course lists the student. *)
Definition bidirectional (st : t) : Prop :=
  ∀ sk s ck c,
    students st !! sk = Some s → courses st !! ck = Some c →
    (Course.course_id c ∈ Student.registered_courses s
     ↔ Student.student_id s ∈ Course.enrolled_students c).

(** Every id held on one side names an object of the other side. *)
Definition closed (st : t) : Prop :=
  (∀ sk s cid, students st !! sk = Some s →
     cid ∈ Student.registered_courses s → is_Some (courses st !! cid)) ∧
  (∀ ck c sid, courses st !! ck = Some c →
     sid ∈ Course.enrolled_students c → is_Some (students st !! sid)).

Definition registry_inv (st : t) : Prop :=
  keyed st ∧ bidirectional st ∧ closed st.

Definition capacity (st : t) : Prop :=
  ∀ ck c, courses st !! ck = Some c →
    Z.of_nat (size (Course.enrolled_students c)) ≤ Course.max_students c.

(** What one call does to the two sides of an enrollment: [enroll_student]
    and [drop_course] either leave the registry as it was or change the
    student's set and the course's set in the same call; the other two
    operations change no object that was there. *)
Definition both_or_neither (o : op) (st st' : t) : Prop :=
  match o with
  | Enroll sid cid =>
      st' = st ∨
      ∃ s c, students st !! sid = Some s ∧ courses st !! cid = Some c ∧
        students st' = <[sid := Student.add_course s cid]> (students st) ∧
        courses st' =
          <[cid := Course.set_enrolled c (Course.enrolled_students c ∪ {[ sid ]})]>
            (courses st)
  | Drop sid cid =>
      st' = st ∨
      ∃ s c, students st !! sid = Some s ∧ courses st !! cid = Some c ∧
        students st' = <[sid := Student.remove_course s cid]> (students st) ∧
        courses st' =
          <[cid := Course.set_enrolled c (Course.enrolled_students c ∖ {[ sid ]})]>
            (courses st)
  | _ =>
      (∀ k s, students st !! k = Some s → students st' !! k = Some s) ∧
      (∀ k c, courses st !! k = Some c → courses st' !! k = Some c)
  end.

(** A course the student holds, present in the dictionary, that conflicts
    with the course asked for. *)
Definition conflicting (st : t) (s : Student.t) (c ec : Course.t) : Prop :=
  ∃ e, e ∈ Student.registered_courses s ∧ courses st !! e = Some ec ∧
       Course.has_schedule_conflict c ec = true.

(** The registry after a successful [enroll_student] and after a
    successful [drop_course]. *)
Definition enrolled_state (st : t) (sid cid : string) (s : Student.t) (c : Course.t) : t :=
  {| data_directory := data_directory st;
     students := <[sid := Student.add_course s cid]> (students st);
     courses :=
       <[cid := Course.set_enrolled c (Course.enrolled_students c ∪ {[ sid ]})]>
         (courses st) |}.

Definition dropped_state (st : t) (sid cid : string) (s : Student.t) (c : Course.t) : t :=
  {| data_directory := data_directory st;
     students := <[sid := Student.remove_course s cid]> (students st);
     courses :=
       <[cid := Course.set_enrolled c (Course.enrolled_students c ∖ {[ sid ]})]>
         (courses st) |}.

(** The six ways out of [enroll_student], in the order of the source. *)
Inductive enroll_outcome (st : t) (sid cid : string) : (bool * message) * t → Prop :=
| enroll_student_missing :
    students st !! sid = None →
    enroll_outcome st sid cid ((false, MsgStudentNotFound sid), st)
| enroll_course_missing s :
    students st !! sid = Some s →
    courses st !! cid = None →
    enroll_outcome st sid cid ((false, MsgCourseNotFound cid), st)
| enroll_already s c :
    students st !! sid = Some s →
    courses st !! cid = Some c →
    cid ∈ Student.registered_courses s →
    enroll_outcome st sid cid ((false, MsgAlreadyEnrolled (Course.name c)), st)
| enroll_full s c :
    students st !! sid = Some s →
    courses st !! cid = Some c →
    cid ∉ Student.registered_courses s →
    Course.is_full c = true →
    enroll_outcome st sid cid ((false, MsgCourseFull (Course.name c)), st)
| enroll_conflict s c ec :
    students st !! sid = Some s →
    courses st !! cid = Some c →
    cid ∉ Student.registered_courses s →
    Course.is_full c = false →
    conflicting st s c ec →
    enroll_outcome st sid cid ((false, MsgScheduleConflict c ec), st)
| enroll_done s c :
    students st !! sid = Some s →
    courses st !! cid = Some c →
    cid ∉ Student.registered_courses s →
    Course.is_full c = false →
    (∀ ec, ¬ conflicting st s c ec) →
    enroll_outcome st sid cid
      ((true, MsgEnrolled (Student.name s) (Course.name c)),
       enrolled_state st sid cid s c).

(** ** Well-formed time strings *)

(** The strings the documentation of [course.py] gives for [time]:
    hours, a colon, minutes, a dash, and the same again, as in
    "9:00-10:15".  These definitions describe inputs; the program does
    not contain them. *)

Fixpoint str_forall (p : ascii → bool) (s : string) : bool :=
  match s with
  | EmptyString => true
  | String c r => p c && str_forall p r
  end.

Definition is_digit (c : ascii) : bool :=
  match Py.digit_value c with
  | Some _ => true
  | None => false
  end.

(** A non-empty run of decimal digits, short enough to be converted. *)
Definition numeral (s : string) : Prop :=
  Py.is_empty s = false ∧ str_forall is_digit s = true ∧
  Z.of_nat (String.length s) ≤ Py.max_str_digits.

(** The number a run of digits writes. *)
Fixpoint decimal (acc : Z) (s : string) : Z :=
  match s with
  | EmptyString => acc
  | String c r => decimal (acc * 10 + default 0 (Py.digit_value c)) r
  end.

Definition clock (h m : string) : string := h ++ ":" ++ m.

Definition clock_range (h1 m1 h2 m2 : string) : string :=
  clock h1 m1 ++ "-" ++ clock h2 m2.

Definition minutes (h m : string) : Z := decimal 0 h * 60 + decimal 0 m.

(** A time range read as clock texts: the two sides of the dash, each
    an hour text and a minute text around the colon, which [int] reads
    as the four numbers. *)
Definition clock_texts (time_range : string) (hour1 minute1 hour2 minute2 : Z)
  : Prop :=
  ∃ x y h1 m1 h2 m2,
    Py.split "-" time_range = [x; y] ∧
    Py.split ":" (Py.strip x) = [h1; m1] ∧
    Py.split ":" (Py.strip y) = [h2; m2] ∧
    Py.int_of_str h1 = Ok hour1 ∧ Py.int_of_str m1 = Ok minute1 ∧
    Py.int_of_str h2 = Ok hour2 ∧ Py.int_of_str m2 = Ok minute2.

(** ** Sample data *)

(** The iteration that visits a set in the order of [elements]. *)
Definition elements_iteration : SetIteration :=
  {| iterate := elements; iterate_perm := λ X, reflexivity (elements X) |}.

Definition thursday_course : Course.t :=
  Course.init "CS101" "Introduction to Programming" "Dr. Smith" 30
    "Th" "9:00-10:15" "Engineering 201".

Definition tuesday_course : Course.t :=
  Course.init "CS236" "Data Structures and Algorithms" "Dr. Johnson" 30
    "T" "9:00-10:15" "Engineering 202".

Definition early_course : Course.t :=
  Course.init "MATH201" "Calculus I" "Prof. Williams" 30
    "MWF" "9:00-10:15" "Science 1".

Definition late_course : Course.t :=
  Course.init "PHY101" "Physics I" "Prof. Davis" 30
    "MW" "10:15-11:30" "Science 2".

Definition untimed_course : Course.t :=
  Course.init "ENG101" "English Composition" "Dr. Brown" 25
    "MWF" "morning" "Hall 3".

(** A course of one seat, taken by S001. *)
Definition full_course : Course.t :=
  Course.set_enrolled (Course.init "CS301" "Database Systems" "Dr. Garcia" 1 "" "" "")
    {[ "S001" ]}.

(** A course of two seats, one taken by S001. *)
Definition open_course : Course.t :=
  Course.set_enrolled (Course.init "CS301" "Database Systems" "Dr. Garcia" 2 "" "" "")
    {[ "S001" ]}.

(** One student and one course, nobody enrolled. *)
Definition sample_ops : list op :=
  [ Register "S001" "student";
    AddCourse "CS101" "Introduction to Programming" "Dr. Smith" (IntArg 30) ].

Definition sample_registry : t :=
  run (H := elements_iteration) sample_ops (init ".").

(** The same registry once S001 has enrolled in CS101. *)
Definition enrolled_registry : t :=
  run (H := elements_iteration) (sample_ops ++ [Enroll "S001" "CS101"]) (init ".").

(** Two students and a course of one seat, taken by S001. *)
Definition tight_registry : t :=
  run (H := elements_iteration)
    [ Register "S001" "student"; Register "S002" "other";
      AddCourse "CS301" "Database Systems" "Dr. Garcia" (StrArg "1");
      Enroll "S001" "CS301" ]
    (init ".").

Definition seminar_course : Course.t :=
  Course.init "CS236" "Data Structures and Algorithms" "Dr. Johnson" 30
    "MW" "10:00-11:00" "Engineering 202".

(** A registry as [load_data] builds it from files that carry schedules:
    S001 holds MATH201, which meets MWF 9:00-10:15. *)
Definition loaded_registry : t :=
  {| data_directory := ".";
     students :=
       {[ "S001" := Student.add_course (Student.init "S001" "student") "MATH201" ]};
     courses :=
       {[ "MATH201" := Course.set_enrolled early_course {[ "S001" ]};
          "CS236" := seminar_course;
          "PHY101" := late_course ]} |}.

(** A character other than the dash. *)
Definition no_dash (c : ascii) : bool := negb (Ascii.eqb c "-").

(** ** Further predicates on registries *)

(** No course carries a schedule. *)
Definition unscheduled (st : t) : Prop :=
  ∀ k c, courses st !! k = Some c →
    Course.days c = "" ∧ Course.time c = "" ∧ Course.location c = "".

(** Two versions of a student agree on everything but the courses held. *)
Definition same_student (s s' : Student.t) : Prop :=
  Student.student_id s' = Student.student_id s ∧
  Student.name s' = Student.name s.

(** Two versions of a course agree on everything but the students listed. *)
Definition same_course (c c' : Course.t) : Prop :=
  Course.course_id c' = Course.course_id c ∧
  Course.name c' = Course.name c ∧
  Course.instructor c' = Course.instructor c ∧
  Course.max_students c' = Course.max_students c ∧
  Course.days c' = Course.days c ∧
  Course.time c' = Course.time c ∧
  Course.location c' = Course.location c.

(** ** [auth.py] *)

Inductive UserRole : Type :=
| STUDENT
| ADMIN.

#[global] Instance UserRole_eq_dec : EqDecision UserRole.
Proof. solve_decision. Defined.

(** [hashlib.sha256(password.encode()).hexdigest()], a function of the
    password text that the library supplies. *)
Class PasswordHash : Type := _hash_password : string → string.

(** Truth value of an [Optional[str]]: [None] and the empty string are
    false. *)
Definition truthy (o : option string) : bool :=
  match o with
  | Some s => negb (Py.is_empty s)
  | None => false
  end.

Module User.

Record t : Type := mk {
  username : string;
  password_hash : string;
  role : UserRole;
  student_id : option string
}.

Definition check_password `{PasswordHash} (self : t) (password : string) : bool :=
  bool_decide (password_hash self = _hash_password password).

Definition set_password_hash (self : t) (h : string) : t :=
  {| username := username self; password_hash := h;
     role := role self; student_id := student_id self |}.

End User.

(** The messages of the authentication system. *)
Inductive auth_message : Type :=
| MsgCredentialsEmpty
    (* "Username and password cannot be empty." *)
| MsgInvalidLogin
    (* "Invalid username or password." *)
| MsgWelcome (username : string)
    (* "Welcome, {username}!" *)
| MsgUsernameExists
    (* "Username already exists." *)
| MsgStudentIdRequired
    (* "Student ID is required for student accounts." *)
| MsgPasswordShort
    (* "Password must be at least 6 characters long." *)
| MsgStudentIdTaken (student_id : option string)
    (* "Student ID {student_id} is already registered to another account." *)
| MsgUserRegistered (username : string)
    (* "User {username} registered successfully." *)
| MsgUserNotFound
    (* "User not found." *)
| MsgOldPasswordWrong
    (* "Current password is incorrect." *)
| MsgNewPasswordShort
    (* "New password must be at least 6 characters long." *)
| MsgPasswordChanged
    (* "Password changed successfully." *).

Module AuthenticationSystem.

(** [current_user] refers to an object of [users]: [login] sets it to
    [users[username]], and an object stored under a name is never replaced
    by another.  It is kept as the name under which the object is
    stored, so that a change made to the object through [users] is the
    change seen through [current_user]. *)
Record t : Type := mk {
  data_directory : string;
  users : gmap string User.t;
  current_user : option string
}.

Definition set_users (self : t) (m : gmap string User.t) : t :=
  {| data_directory := data_directory self; users := m;
     current_user := current_user self |}.

Definition set_current_user (self : t) (u : option string) : t :=
  {| data_directory := data_directory self; users := users self;
     current_user := u |}.

(** [save_users] writes the file and catches every error of its own. *)
Definition save_users (self : t) : t := self.

Definition _create_default_accounts `{PasswordHash} (self : t) : t :=
  let admin := User.mk "admin" (_hash_password "admin123") ADMIN None in
  let self := set_users self (<["admin" := admin]> (users self)) in
  let student := User.mk "student" (_hash_password "student123") STUDENT (Some "S001") in
  let self := set_users self (<["student" := student]> (users self)) in
  save_users self.

(** The system as the constructor leaves it when the data directory
    holds no file of users: nothing is loaded and the default accounts
    are created. *)
Definition init `{PasswordHash} (data_directory : string) : t :=
  let self := {| data_directory := data_directory; users := ∅;
                 current_user := None |} in
  if bool_decide (users self = ∅) then _create_default_accounts self else self.

Definition get_current_user (self : t) : option User.t :=
  u ← current_user self; users self !! u.

Definition is_logged_in (self : t) : bool :=
  bool_decide (is_Some (current_user self)).

Definition is_admin (self : t) : bool :=
  match get_current_user self with
  | Some u => bool_decide (User.role u = ADMIN)
  | None => false
  end.

Definition is_student (self : t) : bool :=
  match get_current_user self with
  | Some u => bool_decide (User.role u = STUDENT)
  | None => false
  end.

Definition login `{PasswordHash} (self : t) (username password : string)
  : (bool * auth_message * option User.t) * t :=
  if Py.is_empty username || Py.is_empty password
  then ((false, MsgCredentialsEmpty, None), self)
  else
    match users self !! username with
    | None => ((false, MsgInvalidLogin, None), self)
    | Some user =>
        if negb (User.check_password user password)
        then ((false, MsgInvalidLogin, None), self)
        else
          let self := set_current_user self (Some username) in
          ((true, MsgWelcome username, Some user), self)
    end.

Definition logout (self : t) : t := set_current_user self None.

(** The loop over [users.values()] that looks for the student id: every
    hit returns the same answer, so the order of the visit does not
    show. *)
Definition student_id_taken (users : gmap string User.t)
    (student_id : option string) : bool :=
  existsb (λ existing_user, bool_decide (User.student_id existing_user = student_id))
    (map_to_list users).*2.

Definition register_user `{PasswordHash} (self : t) (username password : string)
    (role : UserRole) (student_id : option string) : (bool * auth_message) * t :=
  if Py.is_empty username || Py.is_empty password
  then ((false, MsgCredentialsEmpty), self)
  else if bool_decide (username ∈ dom (users self))
  then ((false, MsgUsernameExists), self)
  else if bool_decide (role = STUDENT) && negb (truthy student_id)
  then ((false, MsgStudentIdRequired), self)
  else if (String.length password <? 6)%nat
  then ((false, MsgPasswordShort), self)
  else if truthy student_id && student_id_taken (users self) student_id
  then ((false, MsgStudentIdTaken student_id), self)
  else
    let user := User.mk username (_hash_password password) role student_id in
    let self := set_users self (<[username := user]> (users self)) in
    let self := save_users self in
    ((true, MsgUserRegistered username), self).

Definition change_password `{PasswordHash} (self : t)
    (username old_password new_password : string) : (bool * auth_message) * t :=
  match users self !! username with
  | None => ((false, MsgUserNotFound), self)
  | Some user =>
      if negb (User.check_password user old_password)
      then ((false, MsgOldPasswordWrong), self)
      else if (String.length new_password <? 6)%nat
      then ((false, MsgNewPasswordShort), self)
      else
        let user := User.set_password_hash user (_hash_password new_password) in
        let self := set_users self (<[username := user]> (users self)) in
        let self := save_users self in
        ((true, MsgPasswordChanged), self)
  end.

End AuthenticationSystem.

(** One call of an operation of the authentication system. *)
Inductive auth_op : Type :=
| RegisterUser (username password : string) (role : UserRole)
    (student_id : option string)
| Login (username password : string)
| Logout
| ChangePassword (username old_password new_password : string).

Definition auth_exec `{PasswordHash} (o : auth_op) (self : AuthenticationSystem.t)
  : AuthenticationSystem.t :=
  match o with
  | RegisterUser u p r sid => (AuthenticationSystem.register_user self u p r sid).2
  | Login u p => (AuthenticationSystem.login self u p).2
  | Logout => AuthenticationSystem.logout self
  | ChangePassword u old new => (AuthenticationSystem.change_password self u old new).2
  end.

(** The states the authentication system passes through when it starts
    with no file of users. *)
Inductive auth_reachable `{PasswordHash} : AuthenticationSystem.t → Prop :=
| auth_reachable_init (data_directory : string) :
    auth_reachable (AuthenticationSystem.init data_directory)
| auth_reachable_exec (a : AuthenticationSystem.t) (o : auth_op) :
    auth_reachable a → auth_reachable (auth_exec o a).

(** Every account is stored under its own name, no student id that counts
    as given belongs to two accounts, every student account has one, and
    the user logged in has an account. *)
Definition auth_inv (a : AuthenticationSystem.t) : Prop :=
  (∀ k u, AuthenticationSystem.users a !! k = Some u → User.username u = k) ∧
  (∀ k1 u1 k2 u2,
     AuthenticationSystem.users a !! k1 = Some u1 →
     AuthenticationSystem.users a !! k2 = Some u2 →
     truthy (User.student_id u1) = true →
     User.student_id u1 = User.student_id u2 → k1 = k2) ∧
  (∀ k u, AuthenticationSystem.users a !! k = Some u →
     User.role u = STUDENT → truthy (User.student_id u) = true) ∧
  (∀ k, AuthenticationSystem.current_user a = Some k →
     is_Some (AuthenticationSystem.users a !! k)).

(** A hash function to run the examples with. *)
Definition toy_hash : PasswordHash := λ password, String "#" password.

Definition sample_auth : AuthenticationSystem.t :=
  (AuthenticationSystem.register_user (H := toy_hash)
     (AuthenticationSystem.init (H := toy_hash) ".")
     "ada" "lovelace" STUDENT (Some "S002")).2.

(** ** The rows of [save_data] and [load_data] *)

(** The two functions go through the [csv] module.  A row is what
    [save_data] hands to [writer.writerow] once every cell is text, and
    what the reader of [load_data] yields for it: a cell comes back as the
    text that was written. *)

(** [sep.join(parts)] *)
Fixpoint py_join (sep : string) (parts : list string) : string :=
  match parts with
  | [] => ""
  | [x] => x
  | x :: rest => x ++ sep ++ py_join sep rest
  end.

(** [str(n)] for an integer, as the writer applies it to a cell that is
    no text; it raises beyond [max_str_digits] digits. *)
Definition py_str (n : Z) : result string :=
  let d := Z.to_int n in
  let digits := match d with Pos u | Neg u => u end in
  if Py.max_str_digits <? Z.of_nat (nb_digits digits)
  then Raise ValueError
  else Ok (NilZero.string_of_int d).

Record course_row : Type := CourseRow {
  row_course_id : string;
  row_name : string;
  row_instructor : string;
  row_max_students : string;
  row_enrolled_students : string;
  row_days : string;
  row_time : string;
  row_location : string
}.

Record student_row : Type := StudentRow {
  row_student_id : string;
  row_student_name : string;
  row_registered_courses : string
}.

(** The row written for one course. *)
Definition course_to_row `{SetIteration} (course : Course.t) : result course_row :=
  max_students ← py_str (Course.max_students course);
  Ok {| row_course_id := Course.course_id course;
        row_name := Course.name course;
        row_instructor := Course.instructor course;
        row_max_students := max_students;
        row_enrolled_students :=
          py_join ";" (iterate (Course.enrolled_students course));
        row_days := Course.days course;
        row_time := Course.time course;
        row_location := Course.location course |}.

(** The rows of the courses file for the courses in the order the
    dictionary yields them: an error stops the loop and leaves the rows
    written so far. *)
Fixpoint save_courses `{SetIteration} (values : list Course.t) : list course_row :=
  match values with
  | [] => []
  | course :: rest =>
      match course_to_row course with
      | Ok row => row :: save_courses rest
      | Raise _ => []
      end
  end.

Definition student_to_row `{SetIteration} (student : Student.t) : student_row :=
  {| row_student_id := Student.student_id student;
     row_student_name := Student.name student;
     row_registered_courses :=
       py_join ";" (iterate (Student.registered_courses student)) |}.

Definition save_students `{SetIteration} (values : list Student.t) : list student_row :=
  student_to_row <$> values.

(** The pairs of the enrollments file. *)
Definition save_enrollments `{SetIteration} (values : list Student.t)
  : list (string * string) :=
  flat_map
    (λ student,
       (λ course_id, (Student.student_id student, course_id))
         <$> iterate (Student.registered_courses student))
    values.

(** [set(field.split(';'))] when the field is not empty. *)
Definition ids_of_field (field : string) : gset string :=
  if Py.is_empty field then ∅ else list_to_set (Py.split ";" field).

(** The course [load_data] builds from one row. *)
Definition course_of_row (row : course_row) : result Course.t :=
  max_students ← Py.int_of_str (row_max_students row);
  let course :=
    Course.init (row_course_id row) (row_name row) (row_instructor row)
      max_students (row_days row) (row_time row) (row_location row) in
  let enrolled := row_enrolled_students row in
  Ok (if Py.is_empty enrolled then course
      else Course.set_enrolled course (list_to_set (Py.split ";" enrolled))).

(** The loop over the rows of the courses file: an error stops it and
    keeps the courses stored so far. *)
Fixpoint load_courses (rows : list course_row) (courses : gmap string Course.t)
  : gmap string Course.t :=
  match rows with
  | [] => courses
  | row :: rest =>
      match course_of_row row with
      | Ok course => load_courses rest (<[Course.course_id course := course]> courses)
      | Raise _ => courses
      end
  end.

Definition student_of_row (row : student_row) : Student.t :=
  let student := Student.init (row_student_id row) (row_student_name row) in
  let courses := row_registered_courses row in
  if Py.is_empty courses then student
  else Student.mk (Student.student_id student) (Student.name student)
         (list_to_set (Py.split ";" courses)).

Fixpoint load_students (rows : list student_row) (students : gmap string Student.t)
  : gmap string Student.t :=
  match rows with
  | [] => students
  | row :: rest =>
      let student := student_of_row row in
      load_students rest (<[Student.student_id student := student]> students)
  end.

(** A character other than the one that separates the ids of a list. *)
Definition no_semicolon (c : ascii) : bool := negb (Ascii.eqb c ";").

(** An id that can be written in a list and read back: not empty, and
    without the separator. *)
Definition plain_id (id : string) : Prop :=
  Py.is_empty id = false ∧ str_forall no_semicolon id = true.

(** A registry written with no error and read back: the values of the two
    dictionaries are given in the order the dictionaries yield them. *)
Definition reload `{SetIteration} (st : t)
    (student_values : list Student.t) (course_values : list Course.t) : t :=
  {| data_directory := data_directory st;
     students := load_students (save_students student_values) ∅;
     courses := load_courses (save_courses course_values) ∅ |}.

(** A registry whose ids can all be written in a list and whose capacities
    can all be written as text. *)
Definition writable (st : t) : Prop :=
  (∀ k s x, students st !! k = Some s →
     x ∈ Student.registered_courses s → plain_id x) ∧
  (∀ k c x, courses st !! k = Some c →
     x ∈ Course.enrolled_students c → plain_id x) ∧
  (∀ k c, courses st !! k = Some c →
     py_str (Course.max_students c) ≠ Raise ValueError).

(** ** The weekly view of [get_formatted_schedule] *)

(** [a < b] on strings: the first character that differs decides, and a
    proper prefix comes first. *)
Fixpoint str_lt (a b : string) : bool :=
  match a, b with
  | _, EmptyString => false
  | EmptyString, String _ _ => true
  | String x a', String y b' =>
      if (Py.code x <? Py.code y)%nat then true
      else if (Py.code y <? Py.code x)%nat then false
      else str_lt a' b'
  end.

(** [sorted(courses, key=lambda c: c.time)].  The sort is stable: a
    course goes behind the courses whose key is not greater than its
    own. *)
Fixpoint insert_by_time (course : Course.t) (sorted : list Course.t)
  : list Course.t :=
  match sorted with
  | [] => [course]
  | other :: rest =>
      if str_lt (Course.time course) (Course.time other)
      then course :: other :: rest
      else other :: insert_by_time course rest
  end.

Definition sorted_by_time (courses : list Course.t) : list Course.t :=
  foldl (λ sorted course, insert_by_time course sorted) [] courses.

(** The courses of the student that are in the dictionary and have both
    days and time, in the order the student's set yields their ids. *)
Definition scheduled_courses `{SetIteration} (self : t) (student : Student.t)
  : list Course.t :=
  flat_map
    (λ course_id,
       match courses self !! course_id with
       | Some course =>
           if negb (Py.is_empty (Course.days course))
              && negb (Py.is_empty (Course.time course))
           then [course] else []
       | None => []
       end)
    (iterate (Student.registered_courses student)).

(** [schedule_by_day[day]] after the loop over the scheduled courses:
    each course once for every time [day] is among its keys. *)
Definition schedule_by_day (scheduled : list Course.t) (day : string)
  : list Course.t :=
  flat_map
    (λ course,
       flat_map (λ key, if String.eqb key day then [course] else [])
         (day_buckets (Course.days course)))
    scheduled.

Definition day_order : list string := ["M"; "T"; "W"; "Th"; "F"].

(** What [get_formatted_schedule] returns: one of its three short
    answers, or the weekly schedule.  Of the schedule the values that
    are printed are kept (the name and id of the student, the number of
    courses, and for each day in order the courses in the order of their
    rows), not the layout of the text. *)
Inductive schedule : Type :=
| ScheduleAnswer (text : string)
| ScheduleWeek (student_name student_id : string) (total : nat)
    (week : list (string * list Course.t)).

Definition get_formatted_schedule `{SetIteration} (self : t) (student_id : string)
  : schedule :=
  match students self !! student_id with
  | None => ScheduleAnswer "Student not found."
  | Some student =>
      if bool_decide (Student.registered_courses student = ∅)
      then ScheduleAnswer "No courses enrolled."
      else
        let scheduled := scheduled_courses self student in
        match scheduled with
        | [] => ScheduleAnswer "No courses with schedule information."
        | _ =>
            ScheduleWeek (Student.name student) student_id (length scheduled)
              ((λ day_abbr,
                  (day_abbr, sorted_by_time (schedule_by_day scheduled day_abbr)))
                 <$> day_order)
        end
  end.

(** The order of the rows of a day: the time text of the first course is
    not greater than the time text of the second. *)
Definition time_le (c1 c2 : Course.t) : Prop :=
  str_lt (Course.time c2) (Course.time c1) = false.

(** S001 holds three courses with schedules. *)
Definition busy_registry : t :=
  {| data_directory := ".";
     students :=
       {[ "S001" := Student.mk "S001" "student" {[ "MATH201"; "CS236"; "CS101" ]} ]};
     courses :=
       {[ "MATH201" := Course.set_enrolled early_course {[ "S001" ]};
          "CS236" := Course.set_enrolled seminar_course {[ "S001" ]};
          "CS101" := Course.set_enrolled thursday_course {[ "S001" ]};
          "ENG101" := untimed_course ]} |}.

(** ** The rows of [save_users] and [load_users] *)

Record user_row : Type := UserRow {
  row_username : string;
  row_password_hash : string;
  row_role : string;
  row_user_student_id : string
}.

(** [role.value] *)
Definition role_value (role : UserRole) : string :=
  match role with
  | STUDENT => "student"
  | ADMIN => "admin"
  end.

(** The row written for one account. *)
Definition user_to_row (user : User.t) : user_row :=
  {| row_username := User.username user;
     row_password_hash := User.password_hash user;
     row_role := role_value (User.role user);
     row_user_student_id :=
       if truthy (User.student_id user)
       then default "" (User.student_id user) else "" |}.

(** The account [load_users] builds from one row. *)
Definition user_of_row (row : user_row) : User.t :=
  let role := if String.eqb (row_role row) "student" then STUDENT else ADMIN in
  let student_id :=
    if negb (Py.is_empty (row_user_student_id row))
    then Some (row_user_student_id row) else None in
  User.mk (row_username row) (row_password_hash row) role student_id.

Fixpoint load_users (rows : list user_row) (users : gmap string User.t)
  : gmap string User.t :=
  match rows with
  | [] => users
  | row :: rest =>
      let user := user_of_row row in
      load_users rest (<[User.username user := user]> users)
  end.

(** An account with a student id that counts as none given as [None]. *)
Definition without_empty_id (user : User.t) : User.t :=
  User.mk (User.username user) (User.password_hash user) (User.role user)
    (if truthy (User.student_id user) then User.student_id user else None).

(** The registry [load_data] builds from the rows of the two files. *)
Definition load_data (data_directory : string)
    (course_rows : list course_row) (student_rows : list student_row) : t :=
  {| data_directory := data_directory;
     students := load_students student_rows ∅;
     courses := load_courses course_rows ∅ |}.

(** * Properties *)

(** ** The built-ins on examples *)

Example int_plain : Py.int_of_str "10" = Ok 10.
Proof. reflexivity. Qed.

Example int_blanks : Py.int_of_str "  -5 " = Ok (-5).
Proof. reflexivity. Qed.

Example int_underscore : Py.int_of_str "1_0" = Ok 10.
Proof. reflexivity. Qed.

Example int_bad_underscore : Py.int_of_str "1__0" = Raise ValueError.
Proof. reflexivity. Qed.

Example int_sign_blank : Py.int_of_str "- 5" = Raise ValueError.
Proof. reflexivity. Qed.

Example int_empty : Py.int_of_str "" = Raise ValueError.
Proof. reflexivity. Qed.

Example split_two : Py.split "-" "9:00-10:15" = ["9:00"; "10:15"].
Proof. reflexivity. Qed.

Example split_none : Py.split "-" "" = [""].
Proof. reflexivity. Qed.

Example strip_both : Py.strip "  a b " = "a b".
Proof. reflexivity. Qed.

Example parse_morning : Course._parse_time_range "9:00-10:15" = Ok (540, 615).
Proof. reflexivity. Qed.

Example parse_spaced : Course._parse_time_range " 9 : 00 - 10:15 " = Ok (540, 615).
Proof. reflexivity. Qed.

Example parse_word : Course._parse_time_range "morning" = Raise ValueError.
Proof. reflexivity. Qed.

Example parse_three_parts : Course._parse_time_range "9:00-10:15-11:00" = Raise ValueError.
Proof. reflexivity. Qed.

Example buckets_tth : day_buckets "TTh" = ["Th"; "T"].
Proof. by vm_compute. Qed.

Example buckets_mwf : day_buckets "MWF" = ["M"; "W"; "F"].
Proof. by vm_compute. Qed.

Example int_long : Py.int_of_str (String.concat "" (replicate 4301 "1")) = Raise ValueError.
Proof. by vm_compute. Qed.

Example enroll_when_full :
  enroll_student (H := elements_iteration) tight_registry "S002" "CS301"
  = ((false, MsgCourseFull "Database Systems"), tight_registry).
Proof. by vm_compute. Qed.

Example enroll_overlapping :
  enroll_student (H := elements_iteration) loaded_registry "S001" "CS236"
  = ((false, MsgScheduleConflict seminar_course
               (Course.set_enrolled early_course {[ "S001" ]})),
     loaded_registry).
Proof. by vm_compute. Qed.

Example enroll_adjacent :
  (enroll_student (H := elements_iteration) loaded_registry "S001" "PHY101").1
  = (true, MsgEnrolled "student" "Physics I").
Proof. by vm_compute. Qed.

(** ** Schedule conflicts *)

Section Conflict.

Implicit Types a b : Course.t.

Lemma char_set_nonempty (s : string) (ch : ascii) :
  ch ∈ Py.char_set s → Py.is_empty s = false.
Proof. destruct s; simpl; [set_solver | done]. Qed.

Lemma parse_empty_raises : Course._parse_time_range "" = Raise ValueError.
Proof. reflexivity. Qed.

Lemma parse_ok_nonempty (s : string) (r : Z * Z) :
  Course._parse_time_range s = Ok r → Py.is_empty s = false.
Proof. destruct s; [rewrite parse_empty_raises; discriminate | done]. Qed.

Lemma common_days_intro a (other_days : string) (ch : ascii) :
  ch ∈ Py.char_set (Course.days a) → ch ∈ Py.char_set other_days →
  Course._has_common_days a other_days = true.
Proof.
  intros Ha Hb. unfold Course._has_common_days. apply bool_decide_eq_true.
  assert (Hne : Py.char_set (Course.days a) ∩ Py.char_set other_days ≢ ∅)
    by set_solver.
  apply size_non_empty_iff in Hne. lia.
Qed.

Lemma common_days_sym a b :
  Course._has_common_days a (Course.days b)
  = Course._has_common_days b (Course.days a).
Proof.
  unfold Course._has_common_days.
  by rewrite (comm_L (∩) (Py.char_set (Course.days a))).
Qed.

Lemma times_overlap_ok (t1 t2 : string) (s1 e1 s2 e2 : Z) :
  Course._parse_time_range t1 = Ok (s1, e1) →
  Course._parse_time_range t2 = Ok (s2, e2) →
  Course._times_overlap t1 t2 = (s1 <? e2) && (s2 <? e1).
Proof. intros H1 H2. unfold Course._times_overlap. by rewrite H1, H2. Qed.

Lemma times_overlap_raise_l (t1 t2 : string) (e : exn) :
  Course._parse_time_range t1 = Raise e → Course._times_overlap t1 t2 = false.
Proof. intros H1. unfold Course._times_overlap. by rewrite H1. Qed.

Lemma times_overlap_raise_r (t1 t2 : string) (e : exn) :
  Course._parse_time_range t2 = Raise e → Course._times_overlap t1 t2 = false.
Proof.
  intros H2. unfold Course._times_overlap. rewrite H2.
  by destruct (Course._parse_time_range t1).
Qed.

Lemma times_overlap_sym (t1 t2 : string) :
  Course._times_overlap t1 t2 = Course._times_overlap t2 t1.
Proof.
  unfold Course._times_overlap.
  destruct (Course._parse_time_range t1) as [[s1 e1]|x1],
           (Course._parse_time_range t2) as [[s2 e2]|x2]; simpl; try done.
  apply andb_comm.
Qed.

(** Past the two guards the answer is the one of the time test. *)
Lemma conflict_reaches_times a b (ch : ascii) :
  Py.is_empty (Course.time a) = false → Py.is_empty (Course.time b) = false →
  ch ∈ Py.char_set (Course.days a) → ch ∈ Py.char_set (Course.days b) →
  Course.has_schedule_conflict a b
  = Course._times_overlap (Course.time a) (Course.time b).
Proof.
  intros Hta Htb Ha Hb. unfold Course.has_schedule_conflict.
  rewrite (char_set_nonempty _ _ Ha), (char_set_nonempty _ _ Hb), Hta, Htb.
  simpl. by rewrite (common_days_intro a _ ch Ha Hb).
Qed.

Lemma conflict_parsed a b (ch : ascii) (s1 e1 s2 e2 : Z) :
  ch ∈ Py.char_set (Course.days a) → ch ∈ Py.char_set (Course.days b) →
  Course._parse_time_range (Course.time a) = Ok (s1, e1) →
  Course._parse_time_range (Course.time b) = Ok (s2, e2) →
  Course.has_schedule_conflict a b = (s1 <? e2) && (s2 <? e1).
Proof.
  intros Ha Hb H1 H2.
  rewrite (conflict_reaches_times a b ch);
    eauto using parse_ok_nonempty, times_overlap_ok.
Qed.

End Conflict.

(** ** Time strings of the documented shape *)

Section TimeFormat.

Lemma str_forall_app (p : ascii → bool) (a b : string) :
  str_forall p (a ++ b) = str_forall p a && str_forall p b.
Proof. induction a as [|c a IH]; simpl; [done|]. by rewrite IH, andb_assoc. Qed.

Lemma str_forall_impl (p q : ascii → bool) (s : string) :
  (∀ c, p c = true → q c = true) →
  str_forall p s = true → str_forall q s = true.
Proof.
  intros Hpq. induction s as [|c s IH]; simpl; [done|].
  rewrite !andb_true_iff. intros [? ?]. auto.
Qed.

(** What a digit is not. *)
Lemma digit_plain (c : ascii) :
  is_digit c = true →
  Py.is_space c = false ∧ Py.is_int_space c = false ∧
  Ascii.eqb c ":" = false ∧ Ascii.eqb c "-" = false ∧
  Ascii.eqb c "+" = false ∧ Ascii.eqb c "_" = false.
Proof.
  destruct c as [[] [] [] [] [] [] [] []]; vm_compute; intros; done.
Qed.

Lemma lstrip_keeps (sp : ascii → bool) (s : string) :
  str_forall (λ c, negb (sp c)) s = true → Py.lstrip sp s = s.
Proof.
  destruct s as [|c s]; simpl; [done|].
  rewrite andb_true_iff, negb_true_iff. by intros [-> _].
Qed.

Lemma rstrip_keeps (sp : ascii → bool) (s : string) :
  str_forall (λ c, negb (sp c)) s = true → Py.rstrip sp s = s.
Proof.
  induction s as [|c s IH]; simpl; [done|].
  rewrite andb_true_iff, negb_true_iff. intros [Hc Hs].
  rewrite (IH Hs), Hc. by destruct s.
Qed.

Lemma split_plain (sep : ascii) (s : string) :
  str_forall (λ c, negb (Ascii.eqb c sep)) s = true → Py.split sep s = [s].
Proof.
  induction s as [|c s IH]; simpl; [done|].
  rewrite andb_true_iff, negb_true_iff. intros [-> Hs]. by rewrite (IH Hs).
Qed.

Lemma split_at (sep : ascii) (a b : string) :
  str_forall (λ c, negb (Ascii.eqb c sep)) a = true →
  Py.split sep (a ++ String sep b) = a :: Py.split sep b.
Proof.
  induction a as [|c a IH]; simpl.
  - intros _. by rewrite Ascii.eqb_refl.
  - rewrite andb_true_iff, negb_true_iff. intros [-> Ha]. by rewrite (IH Ha).
Qed.

Lemma digits_run (s : string) (acc count : Z) :
  str_forall is_digit s = true →
  Py.digits Py.PDigit acc count s
  = if Py.max_str_digits <? count + Z.of_nat (String.length s)
    then None else Some (decimal acc s).
Proof.
  revert acc count. induction s as [|c s IH]; intros acc count; simpl.
  - intros _. by rewrite Z.add_0_r.
  - rewrite andb_true_iff. unfold is_digit at 1. intros [Hc Hs].
    destruct (Py.digit_value c) as [d|]; [|done]. simpl.
    rewrite (IH _ _ Hs). by replace (count + 1 + Z.of_nat (String.length s))
      with (count + Z.pos (Pos.of_succ_nat (String.length s))) by lia.
Qed.

Lemma int_of_numeral (s : string) :
  numeral s → Py.int_of_str s = Ok (decimal 0 s).
Proof.
  intros (Hne & Hall & Hlen). unfold Py.int_of_str.
  assert (Hnosp : str_forall (λ c, negb (Py.is_int_space c)) s = true).
  { eapply str_forall_impl; [|done]. intros c Hc.
    apply digit_plain in Hc as (_ & -> & _). done. }
  rewrite (lstrip_keeps _ _ Hnosp), (rstrip_keeps _ _ Hnosp).
  destruct s as [|c s]; [done|]. clear Hne Hnosp.
  assert (Hrun : Py.digits Py.PStart 0 0 (String c s) = Some (decimal 0 (String c s))).
  { simpl in Hall. apply andb_true_iff in Hall as [Hc Hs].
    simpl. unfold is_digit in Hc.
    destruct (Py.digit_value c) as [d|]; [|done]. simpl.
    rewrite (digits_run _ _ _ Hs).
    simpl in Hlen. rewrite (proj2 (Z.ltb_ge _ _)); [done|lia]. }
  simpl in Hall. apply andb_true_iff in Hall as [Hc _].
  apply digit_plain in Hc as (_ & _ & _ & Hminus & Hplus & _).
  apply Ascii.eqb_neq in Hminus, Hplus.
  destruct c as [[] [] [] [] [] [] [] []]; try done; by rewrite Hrun.
Qed.

Lemma numeral_chars (p : ascii → bool) (s : string) :
  (∀ c, is_digit c = true → p c = true) → numeral s → str_forall p s = true.
Proof. intros Hp (_ & Hall & _). by eapply str_forall_impl. Qed.

Lemma time_to_minutes_clock (h m : string) :
  numeral h → numeral m →
  Course._time_to_minutes (clock h m) = Ok (minutes h m).
Proof.
  intros Hh Hm. unfold Course._time_to_minutes, clock.
  change (":" ++ m)%string with (String ":"%char m).
  rewrite split_at, split_plain.
  - by rewrite (int_of_numeral h Hh), (int_of_numeral m Hm).
  - apply numeral_chars; [|done]. intros c Hc.
    by apply digit_plain in Hc as (_ & _ & -> & _).
  - apply numeral_chars; [|done]. intros c Hc.
    by apply digit_plain in Hc as (_ & _ & -> & _).
Qed.

Lemma clock_chars (p : ascii → bool) (h m : string) :
  (∀ c, is_digit c = true → p c = true) → p ":"%char = true →
  numeral h → numeral m → str_forall p (clock h m) = true.
Proof.
  intros Hp Hcolon Hh Hm. unfold clock.
  rewrite str_forall_app. change (":" ++ m)%string with (String ":"%char m). simpl.
  by rewrite (numeral_chars p h), Hcolon, (numeral_chars p m).
Qed.

Lemma strip_clock (h m : string) :
  numeral h → numeral m → Py.strip (clock h m) = clock h m.
Proof.
  intros Hh Hm.
  assert (Hnosp : str_forall (λ c, negb (Py.is_space c)) (clock h m) = true).
  { apply clock_chars; [|done..]. intros c Hc.
    by apply digit_plain in Hc as (-> & _). }
  unfold Py.strip. by rewrite (lstrip_keeps _ _ Hnosp), (rstrip_keeps _ _ Hnosp).
Qed.

(** A time string of the documented shape parses to the two clock times
    in minutes since midnight. *)
Lemma parse_clock_range (h1 m1 h2 m2 : string) :
  numeral h1 → numeral m1 → numeral h2 → numeral m2 →
  Course._parse_time_range (clock_range h1 m1 h2 m2)
  = Ok (minutes h1 m1, minutes h2 m2).
Proof.
  intros H1 M1 H2 M2. unfold Course._parse_time_range, clock_range.
  change ("-" ++ clock h2 m2)%string with (String "-"%char (clock h2 m2)).
  assert (Hdash : ∀ h m, numeral h → numeral m →
            str_forall (λ c, negb (Ascii.eqb c "-")) (clock h m) = true).
  { intros h m Hh Hm. apply clock_chars; [|done..]. intros c Hc.
    by apply digit_plain in Hc as (_ & _ & _ & -> & _). }
  rewrite split_at, split_plain by auto.
  rewrite !strip_clock by done.
  by rewrite !time_to_minutes_clock by done.
Qed.

End TimeFormat.

(** Two courses that share a day character and carry time strings of the
    documented shape conflict exactly when each starts before the other
    ends. *)
Lemma conflict_clock_ranges (a b : Course.t) (ch : ascii)
    (h1 m1 h2 m2 h3 m3 h4 m4 : string) :
  ch ∈ Py.char_set (Course.days a) → ch ∈ Py.char_set (Course.days b) →
  numeral h1 → numeral m1 → numeral h2 → numeral m2 →
  numeral h3 → numeral m3 → numeral h4 → numeral m4 →
  Course.time a = clock_range h1 m1 h2 m2 →
  Course.time b = clock_range h3 m3 h4 m4 →
  Course.has_schedule_conflict a b = true
  ↔ minutes h1 m1 < minutes h4 m4 ∧ minutes h3 m3 < minutes h2 m2.
Proof.
  intros Ha Hb ? ? ? ? ? ? ? ? Hta Htb.
  rewrite (conflict_parsed a b ch (minutes h1 m1) (minutes h2 m2)
             (minutes h3 m3) (minutes h4 m4)); try done.
  - by rewrite andb_true_iff, !Z.ltb_lt.
  - rewrite Hta. by apply parse_clock_range.
  - rewrite Htb. by apply parse_clock_range.
Qed.

Section MinutesSinceMidnight.

(** What [_time_to_minutes] answers is sixty times the hour plus the
    minute, the two being what [int] reads on either side of the colon. *)
Lemma time_to_minutes_reads (time_str : string) (z : Z) :
  Course._time_to_minutes time_str = Ok z →
  ∃ h m hour minute,
    Py.split ":" time_str = [h; m] ∧
    Py.int_of_str h = Ok hour ∧ Py.int_of_str m = Ok minute ∧
    z = hour * 60 + minute.
Proof.
  unfold Course._time_to_minutes.
  destruct (Py.split ":" time_str) as [|h [|m [|]]]; try done.
  destruct (Py.int_of_str h) as [hour|] eqn:Hh; [|done].
  destruct (Py.int_of_str m) as [minute|] eqn:Hm; [|done].
  intros [= <-]. by exists h, m, hour, minute.
Qed.

Lemma parse_reads_clock_texts (time_range : string) (s e : Z) :
  Course._parse_time_range time_range = Ok (s, e) →
  ∃ hour1 minute1 hour2 minute2,
    clock_texts time_range hour1 minute1 hour2 minute2 ∧
    s = hour1 * 60 + minute1 ∧ e = hour2 * 60 + minute2.
Proof.
  unfold Course._parse_time_range.
  destruct (Py.split "-" time_range) as [|x [|y [|]]] eqn:Hsplit; try done.
  destruct (Course._time_to_minutes (Py.strip x)) as [sm|] eqn:Hs; [|done].
  destruct (Course._time_to_minutes (Py.strip y)) as [em|] eqn:He; [|done].
  intros [= <- <-].
  apply time_to_minutes_reads in Hs as (h1 & m1 & hour1 & minute1 & ? & ? & ? & ->).
  apply time_to_minutes_reads in He as (h2 & m2 & hour2 & minute2 & ? & ? & ? & ->).
  exists hour1, minute1, hour2, minute2. split; [|done].
  by exists x, y, h1, m1, h2, m2.
Qed.

End MinutesSinceMidnight.

(** C4. Two courses that share a day character and whose time strings
    both parse conflict exactly when [start1 < end2] and [start2 < end1],
    so a course that ends at 10:15 and one that starts at 10:15 on a
    shared day do not conflict.  The bounds are minutes since midnight:
    each is sixty times the hour plus the minute that [int] reads in the
    time string, and for a time string written as digits, a colon,
    digits, a dash and the same again they are sixty times the number
    the hour digits write plus the number the minute digits write. *)
Theorem half_open_overlap (a b : Course.t) (ch : ascii) (s1 e1 s2 e2 : Z) :
  ch ∈ Py.char_set (Course.days a) →
  ch ∈ Py.char_set (Course.days b) →
  Course._parse_time_range (Course.time a) = Ok (s1, e1) →
  Course._parse_time_range (Course.time b) = Ok (s2, e2) →
  (Course.has_schedule_conflict a b = true ↔ s1 < e2 ∧ s2 < e1) ∧
  (e1 = s2 → Course.has_schedule_conflict a b = false) ∧
  (∃ hour1 minute1 hour2 minute2,
     clock_texts (Course.time a) hour1 minute1 hour2 minute2 ∧
     s1 = hour1 * 60 + minute1 ∧ e1 = hour2 * 60 + minute2) ∧
  (∃ hour1 minute1 hour2 minute2,
     clock_texts (Course.time b) hour1 minute1 hour2 minute2 ∧
     s2 = hour1 * 60 + minute1 ∧ e2 = hour2 * 60 + minute2) ∧
  (∀ h1 m1 h2 m2,
     numeral h1 → numeral m1 → numeral h2 → numeral m2 →
     Course.time a = clock_range h1 m1 h2 m2 →
     s1 = minutes h1 m1 ∧ e1 = minutes h2 m2) ∧
  (∀ h1 m1 h2 m2,
     numeral h1 → numeral m1 → numeral h2 → numeral m2 →
     Course.time b = clock_range h1 m1 h2 m2 →
     s2 = minutes h1 m1 ∧ e2 = minutes h2 m2).
Proof.
  intros Ha Hb H1 H2.
  assert (Hshape : ∀ t s e h1 m1 h2 m2,
            Course._parse_time_range t = Ok (s, e) →
            numeral h1 → numeral m1 → numeral h2 → numeral m2 →
            t = clock_range h1 m1 h2 m2 →
            s = minutes h1 m1 ∧ e = minutes h2 m2).
  { intros t s e h1 m1 h2 m2 Hparse ? ? ? ? ->.
    rewrite parse_clock_range in Hparse by done. by injection Hparse as <- <-. }
  rewrite (conflict_parsed a b ch s1 e1 s2 e2) by done. split_and!.
  - rewrite andb_true_iff, !Z.ltb_lt. tauto.
  - intros ->. rewrite Z.ltb_irrefl. apply andb_false_r.
  - by apply parse_reads_clock_texts.
  - by apply parse_reads_clock_texts.
  - intros h1 m1 h2 m2. by apply Hshape.
  - intros h1 m1 h2 m2. by apply Hshape.
Qed.

Lemma half_open_overlap_witness :
  (Course.has_schedule_conflict early_course late_course = true
   ↔ 540 < 690 ∧ 615 < 615) ∧
  Course.has_schedule_conflict early_course late_course = false ∧
  (540 = minutes "9" "00" ∧ 615 = minutes "10" "15") ∧
  (615 = minutes "10" "15" ∧ 690 = minutes "11" "30").
Proof.
  destruct (half_open_overlap early_course late_course "M"%char 540 615 615 690)
    as (Hiff & Hadj & _ & _ & Hearly & Hlate).
  - vm_compute. set_solver.
  - vm_compute. set_solver.
  - reflexivity.
  - reflexivity.
  - split; [exact Hiff|]. split; [apply Hadj; reflexivity|]. split.
    + apply (Hearly "9" "00" "10" "15"); try (by split_and!); reflexivity.
    + apply (Hlate "10" "15" "11" "30"); try (by split_and!); reflexivity.
Defined.

(** C5. The day test intersects the characters of the two day strings.
    A Thursday-only course (days "Th") and a Tuesday-only course (days
    "T") have the character T in common, so the day test lets them through
    and, their times being the same, they are reported to conflict.  The
    weekly schedule of the same registry reads "Th" as one key and files
    the two courses under different days. *)
Theorem thursday_tuesday_conflict :
  Course._has_common_days thursday_course (Course.days tuesday_course) = true ∧
  Course.has_schedule_conflict thursday_course tuesday_course = true ∧
  Course.has_schedule_conflict tuesday_course thursday_course = true ∧
  day_buckets (Course.days thursday_course) = ["Th"] ∧
  day_buckets (Course.days tuesday_course) = ["T"].
Proof. by vm_compute. Qed.

(** C7. When the time string of either course does not parse, the time
    test answers [false] and so does [has_schedule_conflict]: the error
    of the parser is caught and never reaches the caller. *)
Theorem fail_open_parsing (a b : Course.t) :
  (∃ e, Course._parse_time_range (Course.time a) = Raise e) ∨
  (∃ e, Course._parse_time_range (Course.time b) = Raise e) →
  Course._times_overlap (Course.time a) (Course.time b) = false ∧
  Course.has_schedule_conflict a b = false.
Proof.
  intros Hbad.
  assert (Hov : Course._times_overlap (Course.time a) (Course.time b) = false).
  { destruct Hbad as [[e He]|[e He]];
      eauto using times_overlap_raise_l, times_overlap_raise_r. }
  split; [done|]. unfold Course.has_schedule_conflict.
  rewrite Hov. by repeat case_match.
Qed.

Lemma fail_open_parsing_witness :
  Course._times_overlap (Course.time early_course) (Course.time untimed_course) = false ∧
  Course.has_schedule_conflict early_course untimed_course = false.
Proof.
  apply (fail_open_parsing early_course untimed_course).
  right. exists ValueError. reflexivity.
Defined.

(** C10. [has_schedule_conflict] gives the same answer whichever of the
    two courses it is called on. *)
Theorem conflict_symmetric (a b : Course.t) :
  Course.has_schedule_conflict a b = Course.has_schedule_conflict b a.
Proof.
  unfold Course.has_schedule_conflict.
  rewrite (common_days_sym a b),
    (times_overlap_sym (Course.time a) (Course.time b)).
  destruct (Py.is_empty (Course.days a)), (Py.is_empty (Course.time a)),
    (Py.is_empty (Course.days b)), (Py.is_empty (Course.time b)); done.
Qed.

(** ** Seats *)

Section Seats.

Implicit Types c : Course.t.

Lemma set_enrolled_same c : Course.set_enrolled c (Course.enrolled_students c) = c.
Proof. by destruct c. Qed.

Lemma add_student_full c (sid : string) :
  Course.is_full c = true → Course.add_student c sid = (false, c).
Proof. unfold Course.is_full, Course.add_student. by intros ->. Qed.

Lemma add_student_open c (sid : string) :
  Course.is_full c = false →
  Course.add_student c sid
  = (true, Course.set_enrolled c (Course.enrolled_students c ∪ {[ sid ]})).
Proof. unfold Course.is_full, Course.add_student. by intros ->. Qed.

Lemma is_full_false c :
  Course.is_full c = false ↔
  Z.of_nat (size (Course.enrolled_students c)) < Course.max_students c.
Proof. unfold Course.is_full. rewrite Z.geb_leb, Z.leb_gt. done. Qed.

Lemma is_full_true c :
  Course.is_full c = true ↔
  Course.max_students c ≤ Z.of_nat (size (Course.enrolled_students c)).
Proof. unfold Course.is_full. rewrite Z.geb_leb, Z.leb_le. done. Qed.

End Seats.

(** C8, as the code has it.  Adding an id the course already holds leaves
    the set as it is; the call answers [true] when the course has a free
    seat and [false] when it is full, the capacity test coming first. *)
Theorem add_student_again (c : Course.t) (student_id : string) :
  student_id ∈ Course.enrolled_students c →
  (Course.add_student c student_id).2 = c ∧
  (Course.is_full c = false → Course.add_student c student_id = (true, c)) ∧
  (Course.is_full c = true → Course.add_student c student_id = (false, c)).
Proof.
  intros Hin.
  assert (Hsame : Course.enrolled_students c ∪ {[ student_id ]}
                  = Course.enrolled_students c) by set_solver.
  assert (Hopen : Course.is_full c = false →
                  Course.add_student c student_id = (true, c)).
  { intros Hf. by rewrite add_student_open, Hsame, set_enrolled_same. }
  split_and!; [|done|apply add_student_full].
  destruct (Course.is_full c) eqn:Hf.
  - by rewrite add_student_full.
  - by rewrite Hopen.
Qed.

Lemma add_student_again_witness :
  (Course.add_student open_course "S001").2 = open_course ∧
  (Course.is_full open_course = false →
   Course.add_student open_course "S001" = (true, open_course)) ∧
  (Course.is_full open_course = true →
   Course.add_student open_course "S001" = (false, open_course)).
Proof.
  apply (add_student_again open_course "S001").
  vm_compute. set_solver.
Defined.

(** C8 does not hold of a full course: S001 holds the one seat of the
    course, and adding S001 again answers [false]. *)
Lemma add_student_again_full :
  "S001" ∈ Course.enrolled_students full_course ∧
  Course.add_student full_course "S001" = (false, full_course) ∧
  (Course.add_student full_course "S001").1 ≠ true.
Proof.
  split_and!.
  - vm_compute. set_solver.
  - by vm_compute.
  - by vm_compute.
Qed.

(** ** The registry operations, branch by branch *)

Section Outcomes.

Context `{SetIteration}.
Implicit Types st : t.

Lemma elem_of_iterate (X : gset string) (x : string) : x ∈ iterate X ↔ x ∈ X.
Proof. by rewrite (iterate_perm X), elem_of_elements. Qed.

Lemma first_conflict_some (cs : gmap string Course.t) (c ec : Course.t)
    (ids : list string) :
  first_conflict cs c ids = Some ec →
  ∃ e, e ∈ ids ∧ cs !! e = Some ec ∧ Course.has_schedule_conflict c ec = true.
Proof.
  induction ids as [|e ids IH]; simpl; [done|].
  destruct (cs !! e) as [ec'|] eqn:He.
  - destruct (Course.has_schedule_conflict c ec') eqn:Hc.
    + intros [= <-]. exists e. split_and!; [left|done|done].
    + intros Hf. destruct (IH Hf) as (e' & ? & ? & ?).
      exists e'. split_and!; [by right|done|done].
  - intros Hf. destruct (IH Hf) as (e' & ? & ? & ?).
    exists e'. split_and!; [by right|done|done].
Qed.

Lemma first_conflict_none (cs : gmap string Course.t) (c : Course.t)
    (ids : list string) :
  first_conflict cs c ids = None →
  ∀ e ec, e ∈ ids → cs !! e = Some ec →
          Course.has_schedule_conflict c ec = false.
Proof.
  induction ids as [|e0 ids IH]; simpl; intros Hf e ec Hin He.
  - by apply elem_of_nil in Hin.
  - apply elem_of_cons in Hin as [->|Hin].
    + rewrite He in Hf. by destruct (Course.has_schedule_conflict c ec).
    + destruct (cs !! e0) as [ec0|]; [|by eapply IH].
      destruct (Course.has_schedule_conflict c ec0); [done|by eapply IH].
Qed.

Lemma enroll_student_outcome st (sid cid : string) :
  enroll_outcome st sid cid (enroll_student st sid cid).
Proof.
  unfold enroll_student.
  destruct (students st !! sid) as [s|] eqn:Hs; [|by constructor].
  destruct (courses st !! cid) as [c|] eqn:Hc; [|by econstructor].
  case_bool_decide as Hreg; [by econstructor|].
  destruct (Course.is_full c) eqn:Hfull; [by econstructor|].
  destruct (first_conflict _ _ _) as [ec|] eqn:Hfc.
  - apply first_conflict_some in Hfc as (e & Hin & He & Hcf).
    apply elem_of_iterate in Hin.
    eapply enroll_conflict; eauto. by exists e.
  - rewrite add_student_open by done. simpl.
    eapply (enroll_done st sid cid s c); eauto.
    intros ec (e & Hin & He & Hcf).
    apply elem_of_iterate in Hin.
    by rewrite (first_conflict_none _ _ _ Hfc e ec Hin He) in Hcf.
Qed.

Lemma drop_course_cases st (sid cid : string) :
  drop_course st sid cid = 
    match students st !! sid, courses st !! cid with
    | None, _ => ((false, MsgStudentNotFound sid), st)
    | Some _, None => ((false, MsgCourseNotFound cid), st)
    | Some s, Some c =>
        if bool_decide (cid ∈ Student.registered_courses s)
        then ((true, MsgDropped (Student.name s) (Course.name c)),
              dropped_state st sid cid s c)
        else ((false, MsgNotEnrolled (Course.name c)), st)
    end.
Proof.
  unfold drop_course.
  destruct (students st !! sid), (courses st !! cid); try done.
  by case_bool_decide.
Qed.

End Outcomes.

(** ** Preservation of the invariants *)

Section Invariants.

Context `{SetIteration}.
Implicit Types st : t.

Lemma inv_init (d : string) : registry_inv (init d).
Proof.
  repeat split; simpl; intros *; rewrite ?lookup_empty; done.
Qed.

Lemma inv_enrolled st (sid cid : string) (s : Student.t) (c : Course.t) :
  registry_inv st →
  students st !! sid = Some s → courses st !! cid = Some c →
  registry_inv (enrolled_state st sid cid s c).
Proof.
  intros ([Hks Hkc] & Hbi & [Hcs Hcc]) Hs Hc.
  pose proof (Hks _ _ Hs) as Hsid. pose proof (Hkc _ _ Hc) as Hcid.
  unfold registry_inv, keyed, bidirectional, closed. simpl. split_and!.
  - intros k s' Hl. apply lookup_insert_Some in Hl as [[<- <-]|[? Hl]]; eauto.
  - intros k c' Hl. apply lookup_insert_Some in Hl as [[<- <-]|[? Hl]]; eauto.
  - intros sk s' ck c' Hl Hl'.
    apply lookup_insert_Some in Hl as [[<- <-]|[Hne Hl]];
      apply lookup_insert_Some in Hl' as [[<- <-]|[Hne' Hl']]; simpl.
    + set_solver.
    + pose proof (Hkc _ _ Hl') as Hck. pose proof (Hbi _ _ _ _ Hs Hl').
      set_solver.
    + pose proof (Hks _ _ Hl) as Hsk. pose proof (Hbi _ _ _ _ Hl Hc).
      set_solver.
    + by eapply Hbi.
  - intros sk s' cid' Hl Hin. rewrite lookup_insert_is_Some'.
    apply lookup_insert_Some in Hl as [[<- <-]|[? Hl]]; simpl in Hin.
    + apply elem_of_union in Hin as [Hin|Hin]; [right; eauto|].
      apply elem_of_singleton in Hin. by left.
    + right. eauto.
  - intros ck c' sid' Hl Hin. rewrite lookup_insert_is_Some'.
    apply lookup_insert_Some in Hl as [[<- <-]|[? Hl]]; simpl in Hin.
    + apply elem_of_union in Hin as [Hin|Hin]; [right; eauto|].
      apply elem_of_singleton in Hin. by left.
    + right. eauto.
Qed.

Lemma inv_dropped st (sid cid : string) (s : Student.t) (c : Course.t) :
  registry_inv st →
  students st !! sid = Some s → courses st !! cid = Some c →
  registry_inv (dropped_state st sid cid s c).
Proof.
  intros ([Hks Hkc] & Hbi & [Hcs Hcc]) Hs Hc.
  pose proof (Hks _ _ Hs) as Hsid. pose proof (Hkc _ _ Hc) as Hcid.
  unfold registry_inv, keyed, bidirectional, closed. simpl. split_and!.
  - intros k s' Hl. apply lookup_insert_Some in Hl as [[<- <-]|[? Hl]]; eauto.
  - intros k c' Hl. apply lookup_insert_Some in Hl as [[<- <-]|[? Hl]]; eauto.
  - intros sk s' ck c' Hl Hl'.
    apply lookup_insert_Some in Hl as [[<- <-]|[Hne Hl]];
      apply lookup_insert_Some in Hl' as [[<- <-]|[Hne' Hl']]; simpl.
    + set_solver.
    + pose proof (Hkc _ _ Hl') as Hck. pose proof (Hbi _ _ _ _ Hs Hl').
      set_solver.
    + pose proof (Hks _ _ Hl) as Hsk. pose proof (Hbi _ _ _ _ Hl Hc).
      set_solver.
    + by eapply Hbi.
  - intros sk s' cid' Hl Hin. rewrite lookup_insert_is_Some'. right.
    apply lookup_insert_Some in Hl as [[<- <-]|[? Hl]]; simpl in Hin.
    + apply elem_of_difference in Hin as [Hin _]. eauto.
    + eauto.
  - intros ck c' sid' Hl Hin. rewrite lookup_insert_is_Some'. right.
    apply lookup_insert_Some in Hl as [[<- <-]|[? Hl]]; simpl in Hin.
    + apply elem_of_difference in Hin as [Hin _]. eauto.
    + eauto.
Qed.

(** A new student holds no course; no course lists the new id, since
    every listed id is the id of a registered student. *)
Lemma inv_registered st (sid name : string) :
  registry_inv st → students st !! sid = None →
  registry_inv (set_students st (<[sid := Student.init sid name]> (students st))).
Proof.
  intros ([Hks Hkc] & Hbi & [Hcs Hcc]) Hs.
  unfold registry_inv, keyed, bidirectional, closed. simpl. split_and!.
  - intros k s' Hl. apply lookup_insert_Some in Hl as [[<- <-]|[? Hl]]; eauto.
  - done.
  - intros sk s' ck c' Hl Hl'.
    apply lookup_insert_Some in Hl as [[<- <-]|[Hne Hl]]; simpl; [|by eapply Hbi].
    split; [set_solver|]. intros Hin.
    destruct (Hcc _ _ _ Hl' Hin) as [? ?]. congruence.
  - intros sk s' cid' Hl Hin.
    apply lookup_insert_Some in Hl as [[<- <-]|[? Hl]]; simpl in Hin;
      [set_solver|eauto].
  - intros ck c' sid' Hl Hin. rewrite lookup_insert_is_Some'. right. eauto.
Qed.

Lemma inv_course_added st (cid name instructor : string) (n : Z) :
  registry_inv st → courses st !! cid = None →
  registry_inv
    (set_courses st
       (<[cid := Course.init cid name instructor n "" "" ""]> (courses st))).
Proof.
  intros ([Hks Hkc] & Hbi & [Hcs Hcc]) Hc.
  unfold registry_inv, keyed, bidirectional, closed. simpl. split_and!.
  - done.
  - intros k c' Hl. apply lookup_insert_Some in Hl as [[<- <-]|[? Hl]]; eauto.
  - intros sk s' ck c' Hl Hl'.
    apply lookup_insert_Some in Hl' as [[<- <-]|[Hne Hl']]; simpl; [|by eapply Hbi].
    split; [|set_solver]. intros Hin.
    destruct (Hcs _ _ _ Hl Hin) as [? ?]. congruence.
  - intros sk s' cid' Hl Hin. rewrite lookup_insert_is_Some'. right. eauto.
  - intros ck c' sid' Hl Hin.
    apply lookup_insert_Some in Hl as [[<- <-]|[? Hl]]; simpl in Hin;
      [set_solver|eauto].
Qed.

Lemma register_student_cases st (sid name : string) :
  register_student st sid name = ((false, MsgStudentFieldsEmpty), st) ∨
  register_student st sid name = ((false, MsgStudentExists sid), st) ∨
  (students st !! sid = None ∧
   register_student st sid name
   = ((true, MsgStudentRegistered name sid),
      set_students st (<[sid := Student.init sid name]> (students st)))).
Proof.
  unfold register_student.
  destruct (Py.is_empty sid || Py.is_empty name); [by left|].
  case_bool_decide as Hin; [by right; left|].
  right; right. split; [|done]. by apply not_elem_of_dom.
Qed.

Lemma add_course_cases st (cid name instructor : string) (v : int_arg) :
  (∃ m, add_course st cid name instructor v = ((false, m), st)) ∨
  (∃ n, courses st !! cid = None ∧ py_int v = Ok n ∧ 0 < n ∧
     add_course st cid name instructor v
     = ((true, MsgCourseAdded name cid),
        set_courses st
          (<[cid := Course.init cid name instructor n "" "" ""]> (courses st)))).
Proof.
  unfold add_course.
  destruct (Py.is_empty cid || Py.is_empty name || Py.is_empty instructor);
    [by left; eexists|].
  case_bool_decide as Hin; [by left; eexists|].
  destruct (py_int v) as [n|[]]; [|by left; eexists].
  destruct (n <=? 0) eqn:Hn; [by left; eexists|].
  right. exists n. apply Z.leb_gt in Hn.
  split_and!; [by apply not_elem_of_dom|done|done|done].
Qed.

(** Every operation keeps the invariant, whatever state it starts in. *)
Lemma exec_preserves_inv (o : op) st :
  registry_inv st → registry_inv (exec o st).2.
Proof.
  intros Hinv. destruct o as [sid name|cid name ins v|sid cid|sid cid]; simpl.
  - destruct (register_student_cases st sid name) as [->|[->|[Hs ->]]];
      simpl; auto using inv_registered.
  - destruct (add_course_cases st cid name ins v)
      as [[m ->]|(n & Hc & _ & _ & ->)]; simpl; auto using inv_course_added.
  - destruct (enroll_student_outcome st sid cid); simpl; auto using inv_enrolled.
  - rewrite drop_course_cases.
    destruct (students st !! sid) as [s|] eqn:Hs; [|done].
    destruct (courses st !! cid) as [c|] eqn:Hc; [|done].
    case_bool_decide; simpl; auto using inv_dropped.
Qed.

Lemma reachable_inv st : reachable st → registry_inv st.
Proof.
  induction 1 as [d|st o _ IH]; [apply inv_init|by apply exec_preserves_inv].
Qed.

Lemma exec_both_or_neither (o : op) st : both_or_neither o st (exec o st).2.
Proof.
  destruct o as [sid name|cid name ins v|sid cid|sid cid]; simpl.
  - destruct (register_student_cases st sid name) as [->|[->|[Hs ->]]];
      simpl; [done|done|].
    split; [|done]. intros k s Hk. rewrite lookup_insert_ne; [done|congruence].
  - destruct (add_course_cases st cid name ins v)
      as [[m ->]|(n & Hc & _ & _ & ->)]; simpl; [done|].
    split; [done|]. intros k c Hk. rewrite lookup_insert_ne; [done|congruence].
  - destruct (enroll_student_outcome st sid cid) as [| | | | |s c Hs Hc];
      simpl; try by left.
    right. by exists s, c.
  - rewrite drop_course_cases.
    destruct (students st !! sid) as [s|] eqn:Hs; [|by left].
    destruct (courses st !! cid) as [c|] eqn:Hc; [|by left].
    case_bool_decide; simpl; [|by left].
    right. by exists s, c.
Qed.

Lemma capacity_init (d : string) : capacity (init d).
Proof. intros ck c. simpl. by rewrite lookup_empty. Qed.

Lemma size_add_le (X : gset string) (x : string) : (size (X ∪ {[ x ]}) ≤ S (size X))%nat.
Proof.
  rewrite size_union_alt.
  assert (size (({[ x ]} : gset string) ∖ X) ≤ 1)%nat; [|lia].
  rewrite <- (size_singleton (C := gset string) x).
  apply subseteq_size. set_solver.
Qed.

Lemma exec_preserves_capacity (o : op) st : capacity st → capacity (exec o st).2.
Proof.
  intros Hcap. destruct o as [sid name|cid name ins v|sid cid|sid cid]; simpl.
  - by destruct (register_student_cases st sid name) as [->|[->|[Hs ->]]].
  - destruct (add_course_cases st cid name ins v)
      as [[m ->]|(n & Hc & _ & Hn & ->)]; simpl; [done|].
    intros ck c Hl. simpl in Hl.
    apply lookup_insert_Some in Hl as [[<- <-]|[? Hl]]; [|by eapply Hcap].
    unfold Course.init; cbn [Course.enrolled_students Course.max_students].
    rewrite size_empty. lia.
  - destruct (enroll_student_outcome st sid cid) as [| | | | |s c Hs Hc Hreg Hfull];
      simpl; try done.
    intros ck c' Hl. simpl in Hl.
    apply lookup_insert_Some in Hl as [[<- <-]|[? Hl]]; [|by eapply Hcap].
    simpl. apply is_full_false in Hfull.
    pose proof (size_add_le (Course.enrolled_students c) sid). lia.
  - rewrite drop_course_cases.
    destruct (students st !! sid) as [s|] eqn:Hs; [|done].
    destruct (courses st !! cid) as [c|] eqn:Hc; [|done].
    case_bool_decide; simpl; [|done].
    intros ck c' Hl. simpl in Hl.
    apply lookup_insert_Some in Hl as [[<- <-]|[? Hl]]; [|by eapply Hcap].
    simpl. pose proof (Hcap _ _ Hc).
    assert (size (Course.enrolled_students c ∖ {[ sid ]})
            ≤ size (Course.enrolled_students c))%nat
      by (apply subseteq_size; set_solver).
    lia.
Qed.

Lemma reachable_run (ops : list op) st : reachable st → reachable (run ops st).
Proof.
  revert st. induction ops as [|o ops IH]; intros st Hr; [done|].
  simpl. apply IH. by constructor.
Qed.

End Invariants.

(** ** The invariants of the registry *)

(** C1. In every state reached from the empty registry, a student holds a
    course exactly when the course lists the student, and every id held on
    one side names an object of the other.  Each operation keeps this,
    and [enroll_student] and [drop_course] either change nothing or change
    the student's set and the course's set in the same call. *)
Theorem bidirectional_consistency `{SetIteration} :
  (∀ st, reachable st → keyed st ∧ bidirectional st ∧ closed st) ∧
  (∀ st o, keyed st ∧ bidirectional st ∧ closed st →
           keyed (exec o st).2 ∧ bidirectional (exec o st).2 ∧ closed (exec o st).2) ∧
  (∀ st o, both_or_neither o st (exec o st).2).
Proof.
  split_and!.
  - apply reachable_inv.
  - intros st o. apply exec_preserves_inv.
  - intros st o. apply exec_both_or_neither.
Qed.

Lemma bidirectional_consistency_witness :
  bidirectional enrolled_registry ∧
  bidirectional (exec (H := elements_iteration) (Drop "S001" "CS101") enrolled_registry).2.
Proof.
  pose proof (bidirectional_consistency (H := elements_iteration))
    as (Hreach & Hstep & _).
  assert (Hr : reachable (H := elements_iteration) enrolled_registry).
  { apply reachable_run, reachable_init. }
  split.
  - apply (Hreach _ Hr).
  - apply (Hstep enrolled_registry (Drop "S001" "CS101")), (Hreach _ Hr).
Defined.

(** C2. In every state reached from the empty registry no course lists
    more students than [max_students], and each operation keeps the
    bound. *)
Theorem capacity_invariant `{SetIteration} :
  (∀ st, reachable st → capacity st) ∧
  (∀ st o, capacity st → capacity (exec o st).2).
Proof.
  split.
  - induction 1 as [d|st o _ IH];
      [apply capacity_init|by apply exec_preserves_capacity].
  - intros st o. apply exec_preserves_capacity.
Qed.

Lemma capacity_invariant_witness :
  capacity tight_registry ∧
  capacity (exec (H := elements_iteration) (Enroll "S002" "CS301") tight_registry).2.
Proof.
  pose proof (capacity_invariant (H := elements_iteration)) as [Hreach Hstep].
  assert (Hc : capacity tight_registry).
  { apply Hreach, reachable_run, reachable_init. }
  split; [exact Hc | apply Hstep, Hc].
Defined.

(** ** Enrolling and dropping *)

(** Splits on the branch [enroll_student] takes and discards the branches
    the hypotheses rule out. *)
Ltac enroll_branches st sid cid :=
  destruct (enroll_student_outcome st sid cid) as
    [Hs'|s' Hs' Hc'|s' c' Hs' Hc' Hin'|s' c' Hs' Hc' Hin' Hfull'
    |s' c' ec' Hs' Hc' Hin' Hfull' Hcf'|s' c' Hs' Hc' Hin' Hfull' Hno'];
  simplify_eq; try done; try congruence.

(** C3. [enroll_student] checks, in this order: the student is there,
    the course is there, the student does not hold the course yet, the
    course has a free seat, no course the student holds conflicts with
    it.  The first check that fails decides the answer and the registry
    is returned as it was; the registry changes only when all five pass.
    Enrolling a second time answers that the student is already enrolled
    and changes nothing. *)
Theorem enroll_student_checks `{SetIteration} (st : t) (sid cid : string) :
  (students st !! sid = None →
     enroll_student st sid cid = ((false, MsgStudentNotFound sid), st)) ∧
  (∀ s, students st !! sid = Some s →
     (courses st !! cid = None →
        enroll_student st sid cid = ((false, MsgCourseNotFound cid), st)) ∧
     (∀ c, courses st !! cid = Some c →
        (cid ∈ Student.registered_courses s →
           enroll_student st sid cid
           = ((false, MsgAlreadyEnrolled (Course.name c)), st)) ∧
        (cid ∉ Student.registered_courses s → Course.is_full c = true →
           enroll_student st sid cid
           = ((false, MsgCourseFull (Course.name c)), st)) ∧
        (cid ∉ Student.registered_courses s → Course.is_full c = false →
         (∃ ec, conflicting st s c ec) →
           ∃ ec, conflicting st s c ec ∧
                 enroll_student st sid cid
                 = ((false, MsgScheduleConflict c ec), st)) ∧
        (cid ∉ Student.registered_courses s → Course.is_full c = false →
         (∀ ec, ¬ conflicting st s c ec) →
           enroll_student st sid cid
           = ((true, MsgEnrolled (Student.name s) (Course.name c)),
              enrolled_state st sid cid s c)))) ∧
  ((enroll_student st sid cid).1.1 = false → (enroll_student st sid cid).2 = st) ∧
  ((enroll_student st sid cid).1.1 = true →
     ∃ c, courses st !! cid = Some c ∧
          enroll_student (enroll_student st sid cid).2 sid cid
          = ((false, MsgAlreadyEnrolled (Course.name c)),
             (enroll_student st sid cid).2)).
Proof.
  split_and!.
  - intros Hs. enroll_branches st sid cid.
  - intros s Hs. split.
    + intros Hc. enroll_branches st sid cid.
    + intros c Hc. split_and!.
      * intros Hin. enroll_branches st sid cid.
      * intros Hin Hfull. enroll_branches st sid cid.
      * intros Hin Hfull [ec Hec]. enroll_branches st sid cid.
        -- by eexists.
        -- by destruct (Hno' ec).
      * intros Hin Hfull Hno. enroll_branches st sid cid.
        by destruct (Hno ec').
  - intros Hfail. enroll_branches st sid cid.
  - intros Hok. enroll_branches st sid cid.
    exists c'. split; [done|]. simpl.
    unfold enroll_student. simpl. rewrite !lookup_insert_eq.
    rewrite bool_decide_eq_true_2; [done|]. simpl. set_solver.
Qed.

Lemma enroll_student_checks_witness :
  enroll_student (H := elements_iteration) enrolled_registry "S001" "CS101"
  = ((false, MsgAlreadyEnrolled "Introduction to Programming"), enrolled_registry).
Proof.
  pose proof (enroll_student_checks (H := elements_iteration)
                enrolled_registry "S001" "CS101") as (_ & Hstudent & _).
  destruct (Hstudent (Student.add_course (Student.init "S001" "student") "CS101"))
    as [_ Hcourse]; [by vm_compute|].
  destruct (Hcourse
              (Course.set_enrolled
                 (Course.init "CS101" "Introduction to Programming" "Dr. Smith"
                    30 "" "" "")
                 {[ "S001" ]}))
    as [Hheld _]; [by vm_compute|].
  apply Hheld. by vm_compute.
Defined.

Section RoundTrip.

Lemma remove_add_course (s : Student.t) (cid : string) :
  cid ∉ Student.registered_courses s →
  Student.remove_course (Student.add_course s cid) cid = s.
Proof.
  intros Hnot. destruct s as [i n r]. unfold Student.remove_course. simpl in *.
  f_equal. set_solver.
Qed.

Lemma remove_add_student (c : Course.t) (sid : string) :
  sid ∉ Course.enrolled_students c →
  Course.set_enrolled
    (Course.set_enrolled c (Course.enrolled_students c ∪ {[ sid ]}))
    ((Course.enrolled_students c ∪ {[ sid ]}) ∖ {[ sid ]}) = c.
Proof.
  intros Hnot. destruct c. unfold Course.set_enrolled. simpl in *.
  f_equal. set_solver.
Qed.

Lemma drop_enrolled_state (st : t) (sid cid : string) (s : Student.t) (c : Course.t) :
  students st !! sid = Some s → courses st !! cid = Some c →
  cid ∉ Student.registered_courses s → sid ∉ Course.enrolled_students c →
  drop_course (enrolled_state st sid cid s c) sid cid
  = ((true, MsgDropped (Student.name s) (Course.name c)), st).
Proof.
  intros Hs Hc Hreg Henr. rewrite drop_course_cases. simpl.
  rewrite !lookup_insert_eq.
  rewrite bool_decide_eq_true_2 by (simpl; set_solver).
  simpl. f_equal. unfold dropped_state. simpl.
  rewrite !insert_insert_eq, remove_add_course, remove_add_student by done.
  rewrite !insert_id by done. by destruct st.
Qed.

End RoundTrip.

(** C6. When [enroll_student] succeeds in a state reached from the empty
    registry, [drop_course] for the same pair succeeds right after and
    gives back the registry as it was before the enrollment: the
    student's set and the course's set hold what they held. *)
Theorem enroll_drop_roundtrip `{SetIteration} (st st' : t) (sid cid : string)
    (m : message) :
  reachable st →
  enroll_student st sid cid = ((true, m), st') →
  (∃ m', drop_course st' sid cid = ((true, m'), st)) ∧
  (∀ s, students st !! sid = Some s →
     Student.registered_courses <$> students (drop_course st' sid cid).2 !! sid
     = Some (Student.registered_courses s)) ∧
  (∀ c, courses st !! cid = Some c →
     Course.enrolled_students <$> courses (drop_course st' sid cid).2 !! cid
     = Some (Course.enrolled_students c)).
Proof.
  intros Hreach Henroll.
  apply reachable_inv in Hreach as ([Hks Hkc] & Hbi & _).
  assert (Hdrop : ∃ m', drop_course st' sid cid = ((true, m'), st)).
  { destruct (enroll_student_outcome st sid cid)
      as [| | | | |s c Hs Hc Hreg Hfull Hno]; simplify_eq.
    eexists. apply drop_enrolled_state; try done.
    intros Hin. apply Hreg.
    rewrite <- (Hkc _ _ Hc). apply (Hbi _ _ _ _ Hs Hc).
    by rewrite (Hks _ _ Hs). }
  destruct Hdrop as [m' Hdrop]. split_and!.
  - by exists m'.
  - intros s Hs. by rewrite Hdrop; simpl; rewrite Hs.
  - intros c Hc. by rewrite Hdrop; simpl; rewrite Hc.
Qed.

Lemma enroll_drop_roundtrip_witness :
  ∃ m', drop_course enrolled_registry "S001" "CS101" = ((true, m'), sample_registry).
Proof.
  eapply (enroll_drop_roundtrip (H := elements_iteration)
            sample_registry enrolled_registry "S001" "CS101"
            (MsgEnrolled "student" "Introduction to Programming")).
  - apply reachable_run, reachable_init.
  - by vm_compute.
Defined.

(** ** Adding a course *)

(** C9. With an id that is free and with id, name and instructor filled
    in, [add_course] refuses a capacity that is no integer literal and a
    capacity that is zero or negative; it answers [false] with the
    message for the case and returns the registry as it was, so no course
    is created. *)
Theorem add_course_bad_capacity (st : t) (cid name instructor : string)
    (v : int_arg) :
  courses st !! cid = None →
  Py.is_empty cid = false → Py.is_empty name = false →
  Py.is_empty instructor = false →
  (py_int v = Raise ValueError →
     add_course st cid name instructor v = ((false, MsgMaxNotNumber), st)) ∧
  (∀ n, py_int v = Ok n → n ≤ 0 →
     add_course st cid name instructor v = ((false, MsgMaxNotPositive), st)).
Proof.
  intros Hfree Hcid Hname Hins. unfold add_course.
  rewrite Hcid, Hname, Hins. simpl.
  rewrite bool_decide_eq_false_2 by by apply not_elem_of_dom.
  split.
  - by intros ->.
  - intros n -> Hn. apply Z.leb_le in Hn. by rewrite Hn.
Qed.

Lemma add_course_bad_capacity_witness :
  add_course sample_registry "CS999" "Compilers" "Dr. Lee" (StrArg "many")
  = ((false, MsgMaxNotNumber), sample_registry) ∧
  add_course sample_registry "CS999" "Compilers" "Dr. Lee" (IntArg 0)
  = ((false, MsgMaxNotPositive), sample_registry) ∧
  add_course sample_registry "CS999" "Compilers" "Dr. Lee" (StrArg "-3")
  = ((false, MsgMaxNotPositive), sample_registry).
Proof.
  split_and!.
  - by apply (add_course_bad_capacity sample_registry "CS999" "Compilers" "Dr. Lee"
                (StrArg "many")).
  - apply (add_course_bad_capacity sample_registry "CS999" "Compilers" "Dr. Lee"
             (IntArg 0)) with (n := 0); try by vm_compute.
  - apply (add_course_bad_capacity sample_registry "CS999" "Compilers" "Dr. Lee"
             (StrArg "-3")) with (n := -3); try by vm_compute.
Defined.

(** * Further properties of the registry *)

Section Registry.

Context `{SetIteration}.
Implicit Types st : t.

Lemma reachable_capacity st : reachable st → capacity st.
Proof.
  induction 1 as [d|st o _ IH];
    [apply capacity_init|by apply exec_preserves_capacity].
Qed.

Lemma add_course_changes (s : Student.t) (cid : string) :
  cid ∉ Student.registered_courses s → Student.add_course s cid ≠ s.
Proof.
  intros Hnot Heq. apply (f_equal Student.registered_courses) in Heq.
  simpl in Heq. set_solver.
Qed.

Lemma remove_course_changes (s : Student.t) (cid : string) :
  cid ∈ Student.registered_courses s → Student.remove_course s cid ≠ s.
Proof.
  intros Hin Heq. apply (f_equal Student.registered_courses) in Heq.
  simpl in Heq. set_solver.
Qed.

End Registry.

(** X1. The flag an operation returns is [false] exactly when the
    registry it returns is the one it was given: a refused call changes
    nothing, an accepted call changes something. *)
Theorem flag_tells_change `{SetIteration} (o : op) (st : t) :
  (exec o st).1.1 = false ↔ (exec o st).2 = st.
Proof.
  destruct o as [sid name|cid name ins v|sid cid|sid cid]; simpl.
  - destruct (register_student_cases st sid name) as [->|[->|[Hs ->]]];
      simpl; [done|done|].
    split; [done|]. intros Heq. apply (f_equal (λ x, students x !! sid)) in Heq.
    simpl in Heq. rewrite lookup_insert_eq, Hs in Heq. done.
  - destruct (add_course_cases st cid name ins v)
      as [[m ->]|(n & Hc & _ & _ & ->)]; simpl; [done|].
    split; [done|]. intros Heq. apply (f_equal (λ x, courses x !! cid)) in Heq.
    simpl in Heq. rewrite lookup_insert_eq, Hc in Heq. done.
  - destruct (enroll_student_outcome st sid cid)
      as [| | | | |s c Hs Hc Hreg Hfull Hno]; simpl; try done.
    split; [done|]. intros Heq. apply (f_equal (λ x, students x !! sid)) in Heq.
    simpl in Heq. rewrite lookup_insert_eq, Hs in Heq.
    injection Heq as Heq. by apply add_course_changes in Heq.
  - rewrite drop_course_cases.
    destruct (students st !! sid) as [s|] eqn:Hs; [|done].
    destruct (courses st !! cid) as [c|] eqn:Hc; [|done].
    case_bool_decide as Hin; simpl; [|done].
    split; [done|]. intros Heq. apply (f_equal (λ x, students x !! sid)) in Heq.
    simpl in Heq. rewrite lookup_insert_eq, Hs in Heq.
    injection Heq as Heq. by apply remove_course_changes in Heq.
Qed.

Lemma flag_tells_change_witness :
  (exec (H := elements_iteration) (Enroll "S002" "CS301") tight_registry).2
  = tight_registry.
Proof.
  apply (flag_tells_change (H := elements_iteration)
           (Enroll "S002" "CS301") tight_registry).
  by vm_compute.
Defined.

(** X2. [drop_course] checks, in this order: the student is there, the
    course is there, the student's own set holds the course.  The first
    check that fails decides the answer and nothing changes.  Otherwise
    the id leaves both sets, and dropping once more answers that the
    student is not enrolled. *)
Theorem drop_course_checks (st : t) (sid cid : string) :
  (students st !! sid = None →
     drop_course st sid cid = ((false, MsgStudentNotFound sid), st)) ∧
  (∀ s, students st !! sid = Some s →
     (courses st !! cid = None →
        drop_course st sid cid = ((false, MsgCourseNotFound cid), st)) ∧
     (∀ c, courses st !! cid = Some c →
        (cid ∉ Student.registered_courses s →
           drop_course st sid cid
           = ((false, MsgNotEnrolled (Course.name c)), st)) ∧
        (cid ∈ Student.registered_courses s →
           drop_course st sid cid
           = ((true, MsgDropped (Student.name s) (Course.name c)),
              dropped_state st sid cid s c) ∧
           drop_course (dropped_state st sid cid s c) sid cid
           = ((false, MsgNotEnrolled (Course.name c)),
              dropped_state st sid cid s c)))).
Proof.
  split; [|intros s Hs; split; [|intros c Hc; split]].
  - intros Hs. by rewrite drop_course_cases, Hs.
  - intros Hc. by rewrite drop_course_cases, Hs, Hc.
  - intros Hnot. rewrite drop_course_cases, Hs, Hc.
    by rewrite bool_decide_eq_false_2.
  - intros Hin. split.
    + rewrite drop_course_cases, Hs, Hc. by rewrite bool_decide_eq_true_2.
    + rewrite drop_course_cases. simpl. rewrite !lookup_insert_eq.
      rewrite bool_decide_eq_false_2; [done|]. simpl. set_solver.
Qed.

Lemma drop_course_checks_witness :
  drop_course sample_registry "S001" "CS101"
  = ((false, MsgNotEnrolled "Introduction to Programming"), sample_registry).
Proof.
  pose proof (drop_course_checks sample_registry "S001" "CS101")
    as (_ & Hstudent).
  destruct (Hstudent (Student.init "S001" "student")) as [_ Hcourse];
    [by vm_compute|].
  destruct (Hcourse (Course.init "CS101" "Introduction to Programming"
                       "Dr. Smith" 30 "" "" "")) as [Hnot _]; [by vm_compute|].
  apply Hnot. by vm_compute.
Defined.

(** X3. [register_student] refuses an empty id or name first, then an id
    that is taken, and in both cases changes nothing, so a student who
    is there is never overwritten.  Otherwise the student is stored with
    no course, the courses are untouched, and registering the same id
    again is refused. *)
Theorem register_student_checks (st : t) (sid name : string) :
  (Py.is_empty sid || Py.is_empty name = true →
     register_student st sid name = ((false, MsgStudentFieldsEmpty), st)) ∧
  (Py.is_empty sid || Py.is_empty name = false →
     (∀ s, students st !! sid = Some s →
        register_student st sid name = ((false, MsgStudentExists sid), st)) ∧
     (students st !! sid = None →
        ∃ st',
          register_student st sid name
          = ((true, MsgStudentRegistered name sid), st') ∧
          students st' !! sid = Some (Student.mk sid name ∅) ∧
          (∀ k, k ≠ sid → students st' !! k = students st !! k) ∧
          courses st' = courses st ∧
          ∀ name', register_student st' sid name'
                   = ((false, if Py.is_empty name' then MsgStudentFieldsEmpty
                              else MsgStudentExists sid), st'))).
Proof.
  unfold register_student. split; [by intros ->|].
  intros Hfields. rewrite Hfields. split.
  - intros s Hs. rewrite bool_decide_eq_true_2; [done|].
    apply elem_of_dom. by exists s.
  - intros Hs. rewrite bool_decide_eq_false_2 by by apply not_elem_of_dom.
    eexists. split; [done|]. simpl. split_and!.
    + by rewrite lookup_insert_eq.
    + intros k Hk. by rewrite lookup_insert_ne.
    + done.
    + intros name'. apply orb_false_iff in Hfields as [-> _]. simpl.
      destruct (Py.is_empty name'); [done|].
      rewrite bool_decide_eq_true_2; [done|].
      apply elem_of_dom. rewrite lookup_insert_eq. by eexists.
Qed.

Lemma register_student_checks_witness :
  register_student sample_registry "S001" "someone else"
  = ((false, MsgStudentExists "S001"), sample_registry).
Proof.
  pose proof (register_student_checks sample_registry "S001" "someone else")
    as (_ & Hfilled).
  destruct Hfilled as [Htaken _]; [by vm_compute|].
  apply (Htaken (Student.init "S001" "student")). by vm_compute.
Defined.

(** X4. [add_course] looks at the three texts first and at the id next,
    before it looks at the capacity: with an empty id, name or
    instructor the answer is the one for empty fields whatever else is
    wrong, and an id that is taken is refused without touching the course
    stored under it.  A course that is accepted starts with no student,
    no days, no time and no location, and the students are untouched. *)
Theorem add_course_checks (st : t) (cid name instructor : string) (v : int_arg) :
  (Py.is_empty cid || Py.is_empty name || Py.is_empty instructor = true →
     add_course st cid name instructor v = ((false, MsgCourseFieldsEmpty), st)) ∧
  (Py.is_empty cid || Py.is_empty name || Py.is_empty instructor = false →
     (∀ c, courses st !! cid = Some c →
        add_course st cid name instructor v = ((false, MsgCourseExists cid), st)) ∧
     (∀ n, courses st !! cid = None → py_int v = Ok n → 0 < n →
        ∃ st',
          add_course st cid name instructor v
          = ((true, MsgCourseAdded name cid), st') ∧
          courses st' !! cid
          = Some (Course.mk cid name instructor ∅ n "" "" "") ∧
          (∀ k, k ≠ cid → courses st' !! k = courses st !! k) ∧
          students st' = students st)).
Proof.
  unfold add_course. split; [by intros ->|].
  intros Hfields. rewrite Hfields. split.
  - intros c Hc. rewrite bool_decide_eq_true_2; [done|].
    apply elem_of_dom. by exists c.
  - intros n Hc -> Hn. rewrite bool_decide_eq_false_2 by by apply not_elem_of_dom.
    rewrite (proj2 (Z.leb_gt n 0) Hn).
    eexists. split; [done|]. simpl. split_and!.
    + by rewrite lookup_insert_eq.
    + intros k Hk. by rewrite lookup_insert_ne.
    + done.
Qed.

Lemma add_course_checks_witness :
  add_course sample_registry "CS101" "Another name" "Dr. Lee" (StrArg "none")
  = ((false, MsgCourseExists "CS101"), sample_registry).
Proof.
  pose proof (add_course_checks sample_registry "CS101" "Another name" "Dr. Lee"
                (StrArg "none")) as (_ & Hfilled).
  destruct Hfilled as [Htaken _]; [by vm_compute|].
  apply (Htaken (Course.init "CS101" "Introduction to Programming"
                   "Dr. Smith" 30 "" "" "")).
  by vm_compute.
Defined.

Section Unscheduled.

Context `{SetIteration}.
Implicit Types st : t.

Lemma exec_preserves_unscheduled (o : op) st :
  unscheduled st → unscheduled (exec o st).2.
Proof.
  intros Hun. destruct o as [sid name|cid name ins v|sid cid|sid cid]; simpl.
  - by destruct (register_student_cases st sid name) as [->|[->|[Hs ->]]].
  - destruct (add_course_cases st cid name ins v)
      as [[m ->]|(n & Hc & _ & _ & ->)]; simpl; [done|].
    intros k c Hl. simpl in Hl.
    apply lookup_insert_Some in Hl as [[<- <-]|[? Hl]]; [done|by eapply Hun].
  - destruct (enroll_student_outcome st sid cid)
      as [| | | | |s c Hs Hc Hreg Hfull Hno]; simpl; try done.
    intros k c' Hl. simpl in Hl.
    apply lookup_insert_Some in Hl as [[<- <-]|[? Hl]]; [|by eapply Hun].
    apply (Hun _ _ Hc).
  - rewrite drop_course_cases.
    destruct (students st !! sid) as [s|] eqn:Hs; [|done].
    destruct (courses st !! cid) as [c|] eqn:Hc; [|done].
    case_bool_decide; simpl; [|done].
    intros k c' Hl. simpl in Hl.
    apply lookup_insert_Some in Hl as [[<- <-]|[? Hl]]; [|by eapply Hun].
    apply (Hun _ _ Hc).
Qed.

Lemma reachable_unscheduled st : reachable st → unscheduled st.
Proof.
  induction 1 as [d|st o _ IH]; [|by apply exec_preserves_unscheduled].
  intros k c Hl. simpl in Hl. by rewrite lookup_empty in Hl.
Qed.

Lemma no_days_no_conflict (c ec : Course.t) :
  Course.days c = "" → Course.has_schedule_conflict c ec = false.
Proof. intros Hd. unfold Course.has_schedule_conflict. by rewrite Hd. Qed.

Lemma unscheduled_no_conflict st (s : Student.t) (c ec : Course.t) (cid : string) :
  unscheduled st → courses st !! cid = Some c → ¬ conflicting st s c ec.
Proof.
  intros Hun Hc (e & _ & _ & Hcf).
  destruct (Hun _ _ Hc) as (Hd & _).
  by rewrite (no_days_no_conflict c ec Hd) in Hcf.
Qed.

End Unscheduled.

(** X5. [add_course] takes no days and no time, so in every state reached
    from the empty registry no course carries a schedule, and
    [enroll_student] never refuses an enrollment for a schedule conflict
    there: it succeeds exactly when the student and the course are
    there, the student does not hold the course and the course has a free
    seat. *)
Theorem reachable_never_conflicts `{SetIteration} (st : t) (sid cid : string) :
  reachable st →
  unscheduled st ∧
  (∀ c ec, ((enroll_student st sid cid).1) ≠ (false, MsgScheduleConflict c ec)) ∧
  ((enroll_student st sid cid).1.1 = true ↔
   ∃ s c, students st !! sid = Some s ∧ courses st !! cid = Some c ∧
          (cid ∉ Student.registered_courses s) ∧ Course.is_full c = false).
Proof.
  intros Hreach. apply reachable_unscheduled in Hreach as Hun.
  split_and!; [done|..].
  - intros c ec.
    destruct (enroll_student_outcome st sid cid)
      as [| | | |s c' ec' Hs Hc Hreg Hfull Hcf|]; simpl; try done.
    by destruct (unscheduled_no_conflict st s c' ec' cid Hun Hc).
  - split.
    + destruct (enroll_student_outcome st sid cid)
        as [| | | | |s c Hs Hc Hreg Hfull Hno]; simpl; try done.
      intros _. by exists s, c.
    + intros (s & c & Hs & Hc & Hreg & Hfull).
      destruct (enroll_student_outcome st sid cid)
        as [| | | |s' c' ec' Hs' Hc' Hreg' Hfull' Hcf|];
        simplify_eq; simpl; try done; try congruence.
      by destruct (unscheduled_no_conflict st s c ec' cid Hun Hc).
Qed.

Lemma reachable_never_conflicts_witness :
  unscheduled tight_registry ∧
  (∀ c ec, ((enroll_student (H := elements_iteration) tight_registry "S002" "CS301").1)
           ≠ (false, MsgScheduleConflict c ec)) ∧
  ((enroll_student (H := elements_iteration) tight_registry "S002" "CS301").1.1 = true ↔
   ∃ s c, students tight_registry !! "S002" = Some s ∧
          courses tight_registry !! "CS301" = Some c ∧
          ("CS301" ∉ Student.registered_courses s) ∧ Course.is_full c = false).
Proof.
  apply (reachable_never_conflicts (H := elements_iteration)
           tight_registry "S002" "CS301").
  apply reachable_run, reachable_init.
Defined.

Section DropEnroll.

Lemma add_remove_course (s : Student.t) (cid : string) :
  cid ∈ Student.registered_courses s →
  Student.add_course (Student.remove_course s cid) cid = s.
Proof.
  intros Hin. destruct s as [i n r]. unfold Student.add_course. simpl in *.
  f_equal. apply set_eq. intros x.
  rewrite elem_of_union, elem_of_difference, elem_of_singleton.
  destruct (decide (x = cid)) as [->|]; tauto.
Qed.

Lemma add_remove_student (c : Course.t) (sid : string) :
  sid ∈ Course.enrolled_students c →
  Course.set_enrolled
    (Course.set_enrolled c (Course.enrolled_students c ∖ {[ sid ]}))
    ((Course.enrolled_students c ∖ {[ sid ]}) ∪ {[ sid ]}) = c.
Proof.
  intros Hin. destruct c. unfold Course.set_enrolled. simpl in *.
  f_equal. apply set_eq. intros x.
  rewrite elem_of_union, elem_of_difference, elem_of_singleton.
  destruct (decide (x = sid)) as [->|]; tauto.
Qed.

Lemma size_remove_member (X : gset string) (x : string) :
  x ∈ X → S (size (X ∖ {[ x ]})) = size X.
Proof.
  intros Hin. rewrite (size_difference X {[ x ]}) by set_solver.
  rewrite size_singleton.
  assert (size X ≠ 0)%nat; [|lia].
  apply size_non_empty_iff. set_solver.
Qed.

Lemma size_add_fresh (X : gset string) (x : string) :
  x ∉ X → size (X ∪ {[ x ]}) = S (size X).
Proof.
  intros Hnot. rewrite size_union by set_solver. rewrite size_singleton. lia.
Qed.

End DropEnroll.

(** X6. When [drop_course] succeeds in a state reached from the empty
    registry, [enroll_student] for the same pair succeeds right after and
    gives back the registry as it was before the drop: the seat that was
    freed is there to take. *)
Theorem drop_enroll_roundtrip `{SetIteration} (st st' : t) (sid cid : string)
    (m : message) :
  reachable st →
  drop_course st sid cid = ((true, m), st') →
  ∃ m', enroll_student st' sid cid = ((true, m'), st).
Proof.
  intros Hreach Hdrop.
  pose proof (reachable_inv st Hreach) as ([Hks Hkc] & Hbi & _).
  pose proof (reachable_capacity st Hreach) as Hcap.
  assert (Hun' : unscheduled st').
  { replace st' with (exec (Drop sid cid) st).2 by (simpl; by rewrite Hdrop).
    by apply exec_preserves_unscheduled, reachable_unscheduled. }
  rewrite drop_course_cases in Hdrop.
  destruct (students st !! sid) as [s|] eqn:Hs; [|done].
  destruct (courses st !! cid) as [c|] eqn:Hc; [|done].
  case_bool_decide as Hin; [|done]. injection Hdrop as <- <-.
  assert (Hlisted : sid ∈ Course.enrolled_students c).
  { rewrite <- (Hks _ _ Hs). apply (Hbi _ _ _ _ Hs Hc). by rewrite (Hkc _ _ Hc). }
  pose proof (Hcap _ _ Hc) as Hle.
  pose proof (size_remove_member _ _ Hlisted) as Hsize.
  destruct (enroll_student_outcome (dropped_state st sid cid s c) sid cid)
    as [Hs'|s' Hs' Hc'|s' c' Hs' Hc' Hin'|s' c' Hs' Hc' Hin' Hfull'
       |s' c' ec' Hs' Hc' Hin' Hfull' Hcf'|s' c' Hs' Hc' Hin' Hfull' Hno'];
    simpl in Hs'; rewrite lookup_insert_eq in Hs'; try done;
    simpl in Hc'; rewrite lookup_insert_eq in Hc'; try done;
    simplify_eq.
  - simpl in Hin'. set_solver.
  - apply is_full_true in Hfull'. simpl in Hfull'. lia.
  - by destruct (unscheduled_no_conflict _ _ _ ec' cid Hun'
                   (lookup_insert_eq _ _ _) Hcf').
  - eexists. f_equal. unfold enrolled_state. simpl.
    rewrite !insert_insert_eq, add_remove_course, add_remove_student by done.
    rewrite !insert_id by done. by destruct st.
Qed.

Lemma drop_enroll_roundtrip_witness :
  ∃ m', enroll_student (H := elements_iteration) sample_registry "S001" "CS101"
        = ((true, m'), enrolled_registry).
Proof.
  eapply (drop_enroll_roundtrip (H := elements_iteration)
            enrolled_registry sample_registry "S001" "CS101"
            (MsgDropped "student" "Introduction to Programming")).
  - apply reachable_run, reachable_init.
  - by vm_compute.
Defined.

(** X7. No operation removes a student or a course, and none changes the
    id or the name of a student or the id, name, instructor, capacity,
    days, time or location of a course: only the two sets of ids ever
    change. *)
Theorem nothing_removed `{SetIteration} (o : op) (st : t) :
  (∀ k s, students st !! k = Some s →
     ∃ s', students (exec o st).2 !! k = Some s' ∧ same_student s s') ∧
  (∀ k c, courses st !! k = Some c →
     ∃ c', courses (exec o st).2 !! k = Some c' ∧ same_course c c').
Proof.
  assert (Hstay : ∀ st', st' = st →
    (∀ k s, students st !! k = Some s →
       ∃ s', students st' !! k = Some s' ∧ same_student s s') ∧
    (∀ k c, courses st !! k = Some c →
       ∃ c', courses st' !! k = Some c' ∧ same_course c c')).
  { intros st' ->. split; intros k x Hl; exists x; by repeat split. }
  destruct o as [sid name|cid name ins v|sid cid|sid cid]; simpl.
  - destruct (register_student_cases st sid name) as [->|[->|[Hs ->]]];
      simpl; [by apply Hstay..|].
    split; intros k x Hl; exists x; (split; [|by repeat split]); [|done].
    rewrite lookup_insert_ne; [done|congruence].
  - destruct (add_course_cases st cid name ins v)
      as [[m ->]|(n & Hc & _ & _ & ->)]; simpl; [by apply Hstay|].
    split; intros k x Hl; exists x; (split; [|by repeat split]); [done|].
    rewrite lookup_insert_ne; [done|congruence].
  - destruct (enroll_student_outcome st sid cid)
      as [| | | | |s c Hs Hc Hreg Hfull Hno]; simpl; try by apply Hstay.
    split; intros k x Hl.
    + destruct (decide (k = sid)) as [->|Hne].
      * rewrite lookup_insert_eq. eexists. split; [done|].
        rewrite Hs in Hl. injection Hl as <-. by repeat split.
      * rewrite lookup_insert_ne by done. exists x. by repeat split.
    + destruct (decide (k = cid)) as [->|Hne].
      * rewrite lookup_insert_eq. eexists. split; [done|].
        rewrite Hc in Hl. injection Hl as <-. by repeat split.
      * rewrite lookup_insert_ne by done. exists x. by repeat split.
  - rewrite drop_course_cases.
    destruct (students st !! sid) as [s|] eqn:Hs; [|by apply Hstay].
    destruct (courses st !! cid) as [c|] eqn:Hc; [|by apply Hstay].
    case_bool_decide; simpl; [|by apply Hstay].
    split; intros k x Hl.
    + destruct (decide (k = sid)) as [->|Hne].
      * rewrite lookup_insert_eq. eexists. split; [done|].
        rewrite Hs in Hl. injection Hl as <-. by repeat split.
      * rewrite lookup_insert_ne by done. exists x. by repeat split.
    + destruct (decide (k = cid)) as [->|Hne].
      * rewrite lookup_insert_eq. eexists. split; [done|].
        rewrite Hc in Hl. injection Hl as <-. by repeat split.
      * rewrite lookup_insert_ne by done. exists x. by repeat split.
Qed.

Lemma nothing_removed_witness :
  ∃ c', courses (exec (H := elements_iteration) (Drop "S001" "CS101")
                   enrolled_registry).2 !! "CS101" = Some c' ∧
        same_course
          (Course.set_enrolled
             (Course.init "CS101" "Introduction to Programming" "Dr. Smith"
                30 "" "" "")
             {[ "S001" ]}) c'.
Proof.
  apply (nothing_removed (H := elements_iteration)
           (Drop "S001" "CS101") enrolled_registry).
  by vm_compute.
Defined.

(** X8. An operation touches only what it names: [enroll_student] and
    [drop_course] leave every other student and every other course as
    they were, [register_student] leaves all courses and every other
    student, [add_course] leaves all students and every other course. *)
Theorem others_untouched `{SetIteration} (o : op) (st : t) :
  match o with
  | Register sid _ =>
      courses (exec o st).2 = courses st ∧
      ∀ k, k ≠ sid → students (exec o st).2 !! k = students st !! k
  | AddCourse cid _ _ _ =>
      students (exec o st).2 = students st ∧
      ∀ k, k ≠ cid → courses (exec o st).2 !! k = courses st !! k
  | Enroll sid cid | Drop sid cid =>
      (∀ k, k ≠ sid → students (exec o st).2 !! k = students st !! k) ∧
      (∀ k, k ≠ cid → courses (exec o st).2 !! k = courses st !! k)
  end.
Proof.
  destruct o as [sid name|cid name ins v|sid cid|sid cid]; simpl.
  - destruct (register_student_cases st sid name) as [->|[->|[Hs ->]]];
      simpl; try done.
    split; [done|]. intros k Hk. by rewrite lookup_insert_ne.
  - destruct (add_course_cases st cid name ins v)
      as [[m ->]|(n & Hc & _ & _ & ->)]; simpl; try done.
    split; [done|]. intros k Hk. by rewrite lookup_insert_ne.
  - destruct (enroll_student_outcome st sid cid)
      as [| | | | |s c Hs Hc Hreg Hfull Hno]; simpl; try done.
    split; intros k Hk; by rewrite lookup_insert_ne.
  - rewrite drop_course_cases.
    destruct (students st !! sid) as [s|] eqn:Hs; [|done].
    destruct (courses st !! cid) as [c|] eqn:Hc; [|done].
    case_bool_decide; simpl; [|done].
    split; intros k Hk; by rewrite lookup_insert_ne.
Qed.

(** X9. Seat accounting.  When [enroll_student] succeeds in a state
    reached from the empty registry, the student holds one course more,
    the course lists one student more and has one free seat less, and the
    number of free seats stays between zero and the capacity. *)
Theorem enroll_takes_one_seat `{SetIteration} (st st' : t) (sid cid : string)
    (m : message) :
  reachable st →
  enroll_student st sid cid = ((true, m), st') →
  ∃ s c s' c',
    students st !! sid = Some s ∧ courses st !! cid = Some c ∧
    students st' !! sid = Some s' ∧ courses st' !! cid = Some c' ∧
    Student.get_course_count s' = Student.get_course_count s + 1 ∧
    Course.get_enrollment_count c' = Course.get_enrollment_count c + 1 ∧
    Course.get_available_seats c' = Course.get_available_seats c - 1 ∧
    0 ≤ Course.get_available_seats c' < Course.max_students c'.
Proof.
  intros Hreach Henroll.
  pose proof (reachable_inv st Hreach) as ([Hks Hkc] & Hbi & _).
  destruct (enroll_student_outcome st sid cid)
    as [| | | | |s c Hs Hc Hreg Hfull Hno]; simplify_eq.
  assert (Hnot : sid ∉ Course.enrolled_students c).
  { intros Hin. apply Hreg. rewrite <- (Hkc _ _ Hc).
    apply (Hbi _ _ _ _ Hs Hc). by rewrite (Hks _ _ Hs). }
  apply is_full_false in Hfull.
  exists s, c. eexists; eexists. simpl. rewrite !lookup_insert_eq.
  split_and!; try done;
    unfold Student.get_course_count, Course.get_enrollment_count,
      Course.get_available_seats; simpl;
    rewrite size_add_fresh by done; lia.
Qed.

Lemma enroll_takes_one_seat_witness :
  ∃ s c s' c',
    students sample_registry !! "S001" = Some s ∧
    courses sample_registry !! "CS101" = Some c ∧
    students enrolled_registry !! "S001" = Some s' ∧
    courses enrolled_registry !! "CS101" = Some c' ∧
    Student.get_course_count s' = Student.get_course_count s + 1 ∧
    Course.get_enrollment_count c' = Course.get_enrollment_count c + 1 ∧
    Course.get_available_seats c' = Course.get_available_seats c - 1 ∧
    0 ≤ Course.get_available_seats c' < Course.max_students c'.
Proof.
  eapply (enroll_takes_one_seat (H := elements_iteration)
            sample_registry enrolled_registry "S001" "CS101"
            (MsgEnrolled "student" "Introduction to Programming")).
  - apply reachable_run, reachable_init.
  - by vm_compute.
Defined.

(** * Further properties of courses *)

(** X10. [has_schedule_conflict] answers [true] exactly when the two day
    strings have a character in common and both time strings parse to
    ranges of which each starts before the other ends.  In every other
    case (a course without days or time, no character in common, a
    time that does not parse, ranges that do not overlap) it answers
    [false]. *)
Theorem conflict_exactly (a b : Course.t) :
  Course.has_schedule_conflict a b = true ↔
  (∃ ch, ch ∈ Py.char_set (Course.days a) ∧ ch ∈ Py.char_set (Course.days b)) ∧
  (∃ s1 e1 s2 e2,
     Course._parse_time_range (Course.time a) = Ok (s1, e1) ∧
     Course._parse_time_range (Course.time b) = Ok (s2, e2) ∧
     s1 < e2 ∧ s2 < e1).
Proof.
  split.
  - unfold Course.has_schedule_conflict.
    destruct (_ || _); [done|].
    destruct (Course._has_common_days a (Course.days b)) eqn:Hdays; [|done].
    simpl. unfold Course._times_overlap. intros Hov. split.
    + unfold Course._has_common_days in Hdays.
      apply bool_decide_eq_true in Hdays.
      apply size_pos_elem_of in Hdays as [ch Hch].
      exists ch. set_solver.
    + destruct (Course._parse_time_range (Course.time a)) as [[s1 e1]|]; [|done].
      destruct (Course._parse_time_range (Course.time b)) as [[s2 e2]|]; [|done].
      simpl in Hov. apply andb_true_iff in Hov as [H1 H2].
      apply Z.ltb_lt in H1, H2. by exists s1, e1, s2, e2.
  - intros [[ch [Ha Hb]] (s1 & e1 & s2 & e2 & H1 & H2 & Hlt1 & Hlt2)].
    rewrite (conflict_parsed a b ch s1 e1 s2 e2) by done.
    apply andb_true_iff. by rewrite !Z.ltb_lt.
Qed.

Section ParsedTimes.

Lemma lstrip_forall (p sp : ascii → bool) (s : string) :
  str_forall p s = true → str_forall p (Py.lstrip sp s) = true.
Proof.
  induction s as [|c s IH]; simpl; [done|].
  intros Hs. destruct (sp c); [|done].
  apply andb_true_iff in Hs as [_ Hs]. auto.
Qed.

Lemma rstrip_forall (p sp : ascii → bool) (s : string) :
  str_forall p s = true → str_forall p (Py.rstrip sp s) = true.
Proof.
  induction s as [|c s IH]; simpl; [done|].
  intros Hs. apply andb_true_iff in Hs as [Hc Hs]. specialize (IH Hs).
  destruct (Py.rstrip sp s).
  - destruct (sp c); simpl; [done|]. by rewrite Hc.
  - simpl in *. by rewrite Hc, IH.
Qed.

Lemma split_forall (p : ascii → bool) (sep : ascii) (s : string) :
  str_forall p s = true → Forall (λ x, str_forall p x = true) (Py.split sep s).
Proof.
  induction s as [|c s IH]; simpl; [by repeat constructor|].
  intros Hs. apply andb_true_iff in Hs as [Hc Hs]. specialize (IH Hs).
  destruct (Ascii.eqb c sep); [by constructor|].
  destruct (Py.split sep s) as [|h t]; [by repeat constructor; simpl; rewrite Hc|].
  inversion IH; subst. constructor; [|done]. simpl. by rewrite Hc.
Qed.

Lemma split_parts_plain (sep : ascii) (s : string) :
  Forall (λ x, str_forall (λ c, negb (Ascii.eqb c sep)) x = true) (Py.split sep s).
Proof.
  induction s as [|c s IH]; simpl; [by repeat constructor|].
  destruct (Ascii.eqb c sep) eqn:Hc; [by constructor|].
  destruct (Py.split sep s) as [|h t]; [by repeat constructor; simpl; rewrite Hc|].
  inversion IH; subst. constructor; [|done]. simpl. by rewrite Hc.
Qed.

Lemma digit_value_nonneg (c : ascii) (d : Z) : Py.digit_value c = Some d → 0 ≤ d.
Proof. unfold Py.digit_value. case_match; [|done]. intros [= <-]. lia. Qed.

Lemma digits_nonneg (s : string) (prev : Py.prev_char) (acc count z : Z) :
  0 ≤ acc → Py.digits prev acc count s = Some z → 0 ≤ z.
Proof.
  revert prev acc count. induction s as [|c s IH]; intros prev acc count Hacc; simpl.
  - destruct prev; try done. case_match; [done|]. by intros [= <-].
  - destruct (Py.digit_value c) as [d|] eqn:Hd.
    + apply IH. apply digit_value_nonneg in Hd. lia.
    + destruct (Ascii.eqb c "_"); [|done]. destruct prev; try done. by apply IH.
Qed.

Lemma int_of_str_nonneg (s : string) (z : Z) :
  str_forall no_dash s = true → Py.int_of_str s = Ok z → 0 ≤ z.
Proof.
  intros Hs. unfold Py.int_of_str.
  pose proof (rstrip_forall no_dash Py.is_int_space _
                (lstrip_forall no_dash Py.is_int_space s Hs)) as Hbody.
  destruct (Py.rstrip Py.is_int_space (Py.lstrip Py.is_int_space s))
    as [|c body] eqn:Hb; [done|].
  simpl in Hbody. apply andb_true_iff in Hbody as [Hc _].
  assert (Hplain : ∀ r, match Py.digits Py.PStart 0 0 r with
                        | Some z0 => Ok z0
                        | None => Raise ValueError
                        end = Ok z → 0 ≤ z).
  { intros r. destruct (Py.digits Py.PStart 0 0 r) eqn:Hd; [|done].
    intros [= <-]. by eapply digits_nonneg in Hd. }
  destruct c as [[] [] [] [] [] [] [] []]; try done; apply Hplain.
Qed.

Lemma time_to_minutes_nonneg (t : string) (z : Z) :
  str_forall no_dash t = true → Course._time_to_minutes t = Ok z → 0 ≤ z.
Proof.
  intros Ht. unfold Course._time_to_minutes.
  pose proof (split_forall no_dash ":" t Ht) as Hparts.
  destruct (Py.split ":" t) as [|h [|m [|]]]; try done.
  inversion Hparts as [|? ? Hh Hrest]; subst.
  inversion Hrest as [|? ? Hm _]; subst.
  destruct (Py.int_of_str h) as [hour|] eqn:Hhour; [|done].
  destruct (Py.int_of_str m) as [minute|] eqn:Hminute; [|done].
  intros [= <-].
  apply int_of_str_nonneg in Hhour, Hminute; try done. lia.
Qed.

End ParsedTimes.

(** X11. A time range that parses never has a negative bound: the dash
    is the separator of the range, so no part that reaches [int] carries
    a minus sign. *)
Theorem parsed_times_nonnegative (time_range : string) (a b : Z) :
  Course._parse_time_range time_range = Ok (a, b) → 0 ≤ a ∧ 0 ≤ b.
Proof.
  unfold Course._parse_time_range.
  pose proof (split_parts_plain "-" time_range) as Hparts.
  destruct (Py.split "-" time_range) as [|x [|y [|]]]; try done.
  inversion Hparts as [|? ? Hx Hrest]; subst.
  inversion Hrest as [|? ? Hy _]; subst.
  assert (Hstrip : ∀ u, str_forall no_dash u = true →
                        str_forall no_dash (Py.strip u) = true).
  { intros u Hu. by apply rstrip_forall, lstrip_forall. }
  destruct (Course._time_to_minutes (Py.strip x)) as [sm|] eqn:Hsm; [|done].
  destruct (Course._time_to_minutes (Py.strip y)) as [em|] eqn:Hem; [|done].
  intros [= <- <-].
  apply time_to_minutes_nonneg in Hsm, Hem; auto.
Qed.

Lemma parsed_times_nonnegative_witness : 0 ≤ 540 ∧ 0 ≤ 615.
Proof. apply (parsed_times_nonnegative "9:00-10:15" 540 615). reflexivity. Defined.

Section Buckets.

Lemma contains_th_char (days : string) :
  contains_th days = true → "T"%char ∈ Py.char_set days.
Proof.
  induction days as [|c r IH]; simpl; [done|].
  intros Hth.
  assert (Hcases : (c = "T"%char) ∨ contains_th r = true).
  { destruct c as [[] [] [] [] [] [] [] []]; try (by right);
      destruct r as [|c' r']; try (by right); by left. }
  destruct Hcases as [->|Hr]; [set_solver|].
  apply elem_of_union. right. auto.
Qed.

(** [remove_th] only removes characters.  The statement covers a string
    and the string without its first character, which is what the
    recursion of [remove_th] asks for. *)
Lemma remove_th_chars (n : nat) (days : string) (ch : ascii) :
  (String.length days ≤ n)%nat →
  In ch (list_ascii_of_string (remove_th days)) → ch ∈ Py.char_set days.
Proof.
  revert days. induction n as [|n IH]; intros days Hlen.
  - destruct days; [done|simpl in Hlen; lia].
  - destruct days as [|c r]; [done|]. simpl in Hlen.
    assert (Hskip : ∀ r', r = String "h" r' →
              In ch (list_ascii_of_string (remove_th r')) →
              ch ∈ Py.char_set (String c r)).
    { intros r' -> Hin. simpl. apply elem_of_union. right.
      apply elem_of_union. right. apply IH; [simpl in Hlen; lia|done]. }
    assert (Hkeep : In ch (list_ascii_of_string (String c (remove_th r))) →
              ch ∈ Py.char_set (String c r)).
    { simpl. intros [->|Hin]; [set_solver|].
      apply elem_of_union. right. apply IH; [lia|done]. }
    destruct c as [[] [] [] [] [] [] [] []]; try exact Hkeep.
    destruct r as [|c' r']; [exact Hkeep|].
    destruct c' as [[] [] [] [] [] [] [] []]; try exact Hkeep.
    simpl. apply (Hskip r' eq_refl).
Qed.

Lemma day_buckets_inv (days k : string) :
  k ∈ day_buckets days →
  (k = "Th" ∧ contains_th days = true) ∨
  (∃ ch, k = String ch EmptyString ∧ ch ∈ Py.char_set days).
Proof.
  unfold day_buckets. intros Hk. apply elem_of_app in Hk as [Hk|Hk].
  - left. destruct (contains_th days); [|by apply elem_of_nil in Hk].
    apply list_elem_of_singleton in Hk. done.
  - right. apply list_elem_of_In, in_flat_map in Hk as (ch & Hch & Hk).
    exists ch. split.
    + case_bool_decide; [|done]. by destruct Hk as [<-|[]].
    + destruct (contains_th days).
      * by apply (remove_th_chars (String.length days)).
      * clear Hk. induction days as [|c r IH]; [done|].
        simpl in *. destruct Hch as [->|Hch]; [set_solver|].
        apply elem_of_union. right. auto.
Qed.

End Buckets.

(** X12. Two courses that the weekly schedule files under a common day
    always pass the day test of the conflict check: the day test may let
    through a pair that shares no day, but it never stops a pair that
    shares one. *)
Theorem shared_bucket_common_days (a b : Course.t) (k : string) :
  k ∈ day_buckets (Course.days a) → k ∈ day_buckets (Course.days b) →
  Course._has_common_days a (Course.days b) = true.
Proof.
  intros Ha Hb.
  apply day_buckets_inv in Ha as [[-> Ha]|(ch & -> & Ha)];
    apply day_buckets_inv in Hb as [[Hk Hb]|(ch' & Hk & Hb)]; try done.
  - apply (common_days_intro a _ "T"%char); by apply contains_th_char.
  - injection Hk as <-. by apply (common_days_intro a _ ch).
Qed.

Lemma shared_bucket_common_days_witness :
  Course._has_common_days early_course (Course.days late_course) = true.
Proof.
  apply (shared_bucket_common_days early_course late_course "M");
    vm_compute; set_solver.
Defined.

(** * The authentication system *)

Example default_admin_login :
  (AuthenticationSystem.login (H := toy_hash)
     (AuthenticationSystem.init (H := toy_hash) ".") "admin" "admin123").1.1
  = (true, MsgWelcome "admin").
Proof. by vm_compute. Qed.

Example default_student_wrong_password :
  (AuthenticationSystem.login (H := toy_hash)
     (AuthenticationSystem.init (H := toy_hash) ".") "student" "admin123").1
  = (false, MsgInvalidLogin, None).
Proof. by vm_compute. Qed.

Example register_taken_student_id :
  (AuthenticationSystem.register_user (H := toy_hash) sample_auth
     "bob" "secret1" STUDENT (Some "S002")).1
  = (false, MsgStudentIdTaken (Some "S002")).
Proof. by vm_compute. Qed.

Section Auth.

Context `{PasswordHash}.
Implicit Types a : AuthenticationSystem.t.

Lemma student_id_taken_spec (users : gmap string User.t) (sid : option string) :
  AuthenticationSystem.student_id_taken users sid = true ↔
  ∃ k u, users !! k = Some u ∧ User.student_id u = sid.
Proof.
  unfold AuthenticationSystem.student_id_taken. rewrite existsb_exists. split.
  - intros (u & Hin & Heq). apply bool_decide_eq_true in Heq.
    apply list_elem_of_In, list_elem_of_fmap in Hin as ([k u'] & -> & Hin).
    apply elem_of_map_to_list in Hin. by exists k, u'.
  - intros (k & u & Hl & Heq). exists u. split.
    + apply list_elem_of_In, list_elem_of_fmap. exists (k, u).
      split; [done|]. by apply elem_of_map_to_list.
    + by apply bool_decide_eq_true.
Qed.

Lemma student_id_free_spec (users : gmap string User.t) (sid : option string) :
  AuthenticationSystem.student_id_taken users sid = false ↔
  ∀ k u, users !! k = Some u → User.student_id u ≠ sid.
Proof.
  rewrite <- not_true_iff_false, student_id_taken_spec. split.
  - intros Hno k u Hl Heq. apply Hno. by exists k, u.
  - intros Hall (k & u & Hl & Heq). by apply (Hall k u).
Qed.

Lemma check_own_password (u : User.t) (password : string) :
  User.password_hash u = _hash_password password →
  User.check_password u password = true.
Proof. intros Hh. unfold User.check_password. by apply bool_decide_eq_true. Qed.

End Auth.

(** X13. [register_user] checks, in this order: name and password given,
    name free, a student id given when the role is student, a password
    of six characters or more, the student id not held by an account.
    The first check that fails decides the answer and nothing changes,
    so an account is never overwritten.  When all pass the account is
    stored with the hash of the password and no other account changes. *)
Theorem register_user_checks `{PasswordHash} (a : AuthenticationSystem.t)
    (username password : string) (role : UserRole) (sid : option string) :
  let r := AuthenticationSystem.register_user a username password role sid in
  (Py.is_empty username || Py.is_empty password = true →
     r = ((false, MsgCredentialsEmpty), a)) ∧
  (Py.is_empty username || Py.is_empty password = false →
     (∀ u, AuthenticationSystem.users a !! username = Some u →
        r = ((false, MsgUsernameExists), a)) ∧
     (AuthenticationSystem.users a !! username = None →
        (role = STUDENT → truthy sid = false →
           r = ((false, MsgStudentIdRequired), a)) ∧
        ((role = STUDENT → truthy sid = true) →
           ((String.length password < 6)%nat →
              r = ((false, MsgPasswordShort), a)) ∧
           ((6 ≤ String.length password)%nat →
              (truthy sid = true →
               (∃ k u, AuthenticationSystem.users a !! k = Some u ∧
                       User.student_id u = sid) →
                 r = ((false, MsgStudentIdTaken sid), a)) ∧
              ((truthy sid = true →
                ∀ k u, AuthenticationSystem.users a !! k = Some u →
                       User.student_id u ≠ sid) →
                 r = ((true, MsgUserRegistered username),
                      AuthenticationSystem.set_users a
                        (<[username :=
                             User.mk username (_hash_password password) role sid]>
                           (AuthenticationSystem.users a)))))))).
Proof.
  simpl. unfold AuthenticationSystem.register_user.
  split; [by intros ->|]. intros ->. split.
  - intros u Hu. rewrite bool_decide_eq_true_2; [done|].
    apply elem_of_dom. by exists u.
  - intros Hfree. rewrite bool_decide_eq_false_2 by by apply not_elem_of_dom.
    split.
    + intros -> ->. by rewrite bool_decide_eq_true_2.
    + intros Hrole.
      assert (bool_decide (role = STUDENT) && negb (truthy sid) = false) as ->.
      { case_bool_decide as Hr; [|done]. by rewrite (Hrole Hr). }
      split.
      * intros Hlen. apply Nat.ltb_lt in Hlen. by rewrite Hlen.
      * intros Hlen. apply Nat.ltb_ge in Hlen. rewrite Hlen. split.
        -- intros -> Htaken. apply student_id_taken_spec in Htaken.
           by rewrite Htaken.
        -- intros Hnone. destruct (truthy sid); [|done].
           by rewrite (proj2 (student_id_free_spec _ _) (Hnone eq_refl)).
Qed.

Lemma register_user_checks_witness :
  AuthenticationSystem.register_user (H := toy_hash) sample_auth
    "bob" "short" STUDENT (Some "S003")
  = ((false, MsgPasswordShort), sample_auth).
Proof.
  pose proof (register_user_checks (H := toy_hash) sample_auth
                "bob" "short" STUDENT (Some "S003")) as (_ & Hfilled).
  destruct Hfilled as [_ Hfree]; [by vm_compute|].
  destruct Hfree as [_ Hid]; [by vm_compute|].
  destruct Hid as [Hshort _]; [by vm_compute|].
  apply Hshort. vm_compute. lia.
Defined.

(** X14. An account that [register_user] has just accepted can log in
    with the name and password it was registered with: [login] succeeds,
    hands back the account as registered and makes it the current
    user. *)
Theorem register_then_login `{PasswordHash} (a a' : AuthenticationSystem.t)
    (username password : string) (role : UserRole) (sid : option string)
    (m : auth_message) :
  AuthenticationSystem.register_user a username password role sid = ((true, m), a') →
  AuthenticationSystem.login a' username password
  = ((true, MsgWelcome username,
      Some (User.mk username (_hash_password password) role sid)),
     AuthenticationSystem.set_current_user a' (Some username)) ∧
  AuthenticationSystem.is_logged_in
    (AuthenticationSystem.login a' username password).2 = true.
Proof.
  unfold AuthenticationSystem.register_user.
  destruct (Py.is_empty username || Py.is_empty password) eqn:Hfields; [done|].
  repeat (case_match; [done|]). intros [= <- <-].
  unfold AuthenticationSystem.login. rewrite Hfields. simpl.
  rewrite lookup_insert_eq.
  rewrite check_own_password by done. simpl. split; [done|].
  done.
Qed.

Lemma register_then_login_witness :
  AuthenticationSystem.login (H := toy_hash) sample_auth "ada" "lovelace"
  = ((true, MsgWelcome "ada",
      Some (User.mk "ada" (_hash_password (PasswordHash := toy_hash) "lovelace")
              STUDENT (Some "S002"))),
     AuthenticationSystem.set_current_user sample_auth (Some "ada")) ∧
  AuthenticationSystem.is_logged_in
    (AuthenticationSystem.login (H := toy_hash) sample_auth "ada" "lovelace").2 = true.
Proof.
  apply (register_then_login (H := toy_hash)
           (AuthenticationSystem.init (H := toy_hash) ".") sample_auth
           "ada" "lovelace" STUDENT (Some "S002") (MsgUserRegistered "ada")).
  by vm_compute.
Defined.

Section AuthInvariant.

Context `{PasswordHash}.
Implicit Types a : AuthenticationSystem.t.

Lemma auth_inv_init (d : string) : auth_inv (AuthenticationSystem.init d).
Proof.
  unfold AuthenticationSystem.init. rewrite bool_decide_eq_true_2 by done.
  unfold AuthenticationSystem._create_default_accounts, auth_inv. simpl.
  split_and!.
  - intros k u Hl.
    apply lookup_insert_Some in Hl as [[<- <-]|[_ Hl]]; [done|].
    apply lookup_insert_Some in Hl as [[<- <-]|[_ Hl]]; [done|].
    by rewrite lookup_empty in Hl.
  - intros k1 u1 k2 u2 Hl1 Hl2 Ht Heq.
    apply lookup_insert_Some in Hl1 as [[<- <-]|[_ Hl1]];
      apply lookup_insert_Some in Hl2 as [[<- <-]|[_ Hl2]]; try done.
    + apply lookup_insert_Some in Hl2 as [[<- <-]|[_ Hl2]]; [done|].
      by rewrite lookup_empty in Hl2.
    + apply lookup_insert_Some in Hl1 as [[<- <-]|[_ Hl1]]; [done|].
      by rewrite lookup_empty in Hl1.
    + apply lookup_insert_Some in Hl1 as [[<- <-]|[_ Hl1]]; [done|].
      by rewrite lookup_empty in Hl1.
  - intros k u Hl.
    apply lookup_insert_Some in Hl as [[<- <-]|[_ Hl]]; [done|].
    apply lookup_insert_Some in Hl as [[<- <-]|[_ Hl]]; [done|].
    by rewrite lookup_empty in Hl.
  - done.
Qed.

Lemma auth_inv_register a (username password : string) (role : UserRole)
    (sid : option string) :
  auth_inv a →
  auth_inv (AuthenticationSystem.register_user a username password role sid).2.
Proof.
  intros (Hkey & Huniq & Hstud & Hcur).
  unfold AuthenticationSystem.register_user.
  destruct (_ || _); [done|].
  case_bool_decide as Hdom; [done|]. apply not_elem_of_dom in Hdom.
  destruct (bool_decide (role = STUDENT) && negb (truthy sid)) eqn:Hrole; [done|].
  destruct (_ <? _)%nat; [done|].
  destruct (truthy sid && AuthenticationSystem.student_id_taken _ sid) eqn:Htaken;
    [done|].
  unfold auth_inv. simpl. split_and!.
  - intros k u Hl. apply lookup_insert_Some in Hl as [[<- <-]|[_ Hl]]; eauto.
  - assert (Hfresh : ∀ k u, AuthenticationSystem.users a !! k = Some u →
              truthy sid = true → User.student_id u ≠ sid).
    { intros k u Hl Ht. rewrite Ht in Htaken. simpl in Htaken.
      by apply (proj1 (student_id_free_spec _ _) Htaken k u). }
    intros k1 u1 k2 u2 Hl1 Hl2 Ht Heq.
    apply lookup_insert_Some in Hl1 as [[<- <-]|[Hne1 Hl1]];
      apply lookup_insert_Some in Hl2 as [[<- <-]|[Hne2 Hl2]]; simpl in *.
    + done.
    + by destruct (Hfresh _ _ Hl2 Ht).
    + rewrite Heq in Ht. by destruct (Hfresh _ _ Hl1 Ht).
    + eauto.
  - intros k u Hl. apply lookup_insert_Some in Hl as [[<- <-]|[_ Hl]]; [|eauto].
    simpl. intros ->. rewrite bool_decide_eq_true_2 in Hrole by done.
    simpl in Hrole. by apply negb_false_iff in Hrole.
  - intros k Hk. rewrite lookup_insert_is_Some'. right. auto.
Qed.

Lemma auth_inv_login a (username password : string) :
  auth_inv a → auth_inv (AuthenticationSystem.login a username password).2.
Proof.
  intros (Hkey & Huniq & Hstud & Hcur).
  unfold AuthenticationSystem.login.
  destruct (_ || _); [done|].
  destruct (AuthenticationSystem.users a !! username) as [u|] eqn:Hu; [|done].
  destruct (negb _); [done|].
  unfold auth_inv. simpl. split_and!; try done.
  intros k [= <-]. by exists u.
Qed.

Lemma auth_inv_change a (username old new : string) :
  auth_inv a → auth_inv (AuthenticationSystem.change_password a username old new).2.
Proof.
  intros (Hkey & Huniq & Hstud & Hcur).
  unfold AuthenticationSystem.change_password.
  destruct (AuthenticationSystem.users a !! username) as [u|] eqn:Hu; [|done].
  destruct (negb _); [done|]. destruct (_ <? _)%nat; [done|].
  unfold auth_inv. simpl. split_and!.
  - intros k u' Hl. apply lookup_insert_Some in Hl as [[<- <-]|[_ Hl]];
      simpl; eauto.
  - intros k1 u1 k2 u2 Hl1 Hl2 Ht Heq.
    apply lookup_insert_Some in Hl1 as [[<- <-]|[Hne1 Hl1]];
      apply lookup_insert_Some in Hl2 as [[<- <-]|[Hne2 Hl2]];
      simpl in *; eauto.
  - intros k u' Hl. apply lookup_insert_Some in Hl as [[<- <-]|[_ Hl]];
      simpl; eauto.
  - intros k Hk. rewrite lookup_insert_is_Some'. right. auto.
Qed.

Lemma auth_exec_preserves_inv (o : auth_op) a : auth_inv a → auth_inv (auth_exec o a).
Proof.
  intros Hinv. destruct o; simpl;
    auto using auth_inv_register, auth_inv_login, auth_inv_change.
  destruct Hinv as (? & ? & ? & ?). by unfold auth_inv.
Qed.

End AuthInvariant.

(** X15. In every state the authentication system reaches from its
    default accounts by registering, logging in, logging out and changing
    passwords, each account is stored under its own name, no student id
    belongs to two accounts, every student account has a student id, and
    the current user, if any, has an account.  Each operation keeps
    this from any state that has it. *)
Theorem student_ids_unique `{PasswordHash} :
  (∀ a, auth_reachable a → auth_inv a) ∧
  (∀ a o, auth_inv a → auth_inv (auth_exec o a)).
Proof.
  split.
  - induction 1 as [d|a o _ IH];
      [apply auth_inv_init|by apply auth_exec_preserves_inv].
  - intros a o. apply auth_exec_preserves_inv.
Qed.

Lemma student_ids_unique_witness :
  auth_inv sample_auth ∧
  auth_inv (auth_exec (H := toy_hash)
              (RegisterUser "bob" "secret1" STUDENT (Some "S002")) sample_auth).
Proof.
  pose proof (student_ids_unique (H := toy_hash)) as [Hreach Hstep].
  assert (Hs : auth_inv sample_auth).
  { apply Hreach.
    apply (auth_reachable_exec (H := toy_hash) _
             (RegisterUser "ada" "lovelace" STUDENT (Some "S002"))).
    apply auth_reachable_init. }
  split; [exact Hs | apply Hstep, Hs].
Defined.

(** X16. [change_password] refuses a name without an account, then a
    wrong current password, then a new password of fewer than six
    characters, and changes nothing in these cases.  Otherwise only the
    hash of that account changes: the other accounts and the current user
    stay, and the account logs in with the new password. *)
Theorem change_password_checks `{PasswordHash} (a : AuthenticationSystem.t)
    (username old new : string) :
  let r := AuthenticationSystem.change_password a username old new in
  (AuthenticationSystem.users a !! username = None →
     r = ((false, MsgUserNotFound), a)) ∧
  (∀ user, AuthenticationSystem.users a !! username = Some user →
     (User.check_password user old = false →
        r = ((false, MsgOldPasswordWrong), a)) ∧
     (User.check_password user old = true →
        ((String.length new < 6)%nat → r = ((false, MsgNewPasswordShort), a)) ∧
        ((6 ≤ String.length new)%nat →
           r = ((true, MsgPasswordChanged),
                AuthenticationSystem.set_users a
                  (<[username := User.set_password_hash user (_hash_password new)]>
                     (AuthenticationSystem.users a))) ∧
           AuthenticationSystem.current_user r.2
           = AuthenticationSystem.current_user a ∧
           (∀ k, k ≠ username →
              AuthenticationSystem.users r.2 !! k
              = AuthenticationSystem.users a !! k) ∧
           (Py.is_empty username = false →
              (AuthenticationSystem.login r.2 username new).1.1
              = (true, MsgWelcome username))))).
Proof.
  simpl. unfold AuthenticationSystem.change_password.
  split; [by intros ->|]. intros user ->. split; [by intros ->|].
  intros ->. simpl. split.
  - intros Hlen. apply Nat.ltb_lt in Hlen. by rewrite Hlen.
  - intros Hlen. pose proof Hlen as Hge. apply Nat.ltb_ge in Hlen.
    rewrite Hlen. simpl. split_and!; try done.
    + intros k Hk. by rewrite lookup_insert_ne.
    + intros Hname. unfold AuthenticationSystem.login. rewrite Hname.
      assert (Py.is_empty new = false) as -> by (destruct new; simpl in *; [lia|done]).
      simpl. rewrite lookup_insert_eq.
      by rewrite check_own_password.
Qed.

Lemma change_password_checks_witness :
  AuthenticationSystem.change_password (H := toy_hash) sample_auth
    "ada" "byron" "analytical"
  = ((false, MsgOldPasswordWrong), sample_auth).
Proof.
  pose proof (change_password_checks (H := toy_hash) sample_auth
                "ada" "byron" "analytical") as (_ & Hfound).
  destruct (Hfound (User.mk "ada" (_hash_password (PasswordHash := toy_hash) "lovelace")
                      STUDENT (Some "S002"))) as [Hwrong _]; [by vm_compute|].
  apply Hwrong. by vm_compute.
Defined.

(** X17. [login] never changes an account.  A login that fails leaves the
    system as it was, so whoever was logged in stays logged in.  A login
    that succeeds was given the name of an account whose stored hash is
    the hash of the password; that account becomes the current user,
    and it is an admin or a student, never both.  After [logout] nobody
    is logged in and the accounts are as before. *)
Theorem login_session `{PasswordHash} (a : AuthenticationSystem.t)
    (username password : string) :
  let r := AuthenticationSystem.login a username password in
  AuthenticationSystem.users r.2 = AuthenticationSystem.users a ∧
  (r.1.1.1 = false → r.2 = a ∧ r.1.2 = None) ∧
  (r.1.1.1 = true →
     ∃ user,
       AuthenticationSystem.users a !! username = Some user ∧
       User.password_hash user = _hash_password password ∧
       r.1.2 = Some user ∧
       AuthenticationSystem.current_user r.2 = Some username ∧
       AuthenticationSystem.get_current_user r.2 = Some user ∧
       AuthenticationSystem.is_logged_in r.2 = true ∧
       AuthenticationSystem.is_admin r.2
       = negb (AuthenticationSystem.is_student r.2)) ∧
  AuthenticationSystem.users (AuthenticationSystem.logout a)
  = AuthenticationSystem.users a ∧
  AuthenticationSystem.is_logged_in (AuthenticationSystem.logout a) = false ∧
  AuthenticationSystem.is_admin (AuthenticationSystem.logout a) = false ∧
  AuthenticationSystem.is_student (AuthenticationSystem.logout a) = false.
Proof.
  simpl. unfold AuthenticationSystem.login.
  destruct (Py.is_empty username || Py.is_empty password); [by split_and!|].
  destruct (AuthenticationSystem.users a !! username) as [user|] eqn:Hu;
    [|by split_and!].
  unfold User.check_password. case_bool_decide as Hhash; simpl; [|by split_and!].
  split_and!; try done.
  intros _. exists user.
  unfold AuthenticationSystem.is_logged_in, AuthenticationSystem.is_admin,
    AuthenticationSystem.is_student, AuthenticationSystem.get_current_user.
  simpl. rewrite Hu.
  split_and!; try done;
    first [by apply bool_decide_eq_true | by destruct (User.role user)].
Qed.

Lemma login_session_witness :
  AuthenticationSystem.login (H := toy_hash) sample_auth "ada" "byron"
  = ((false, MsgInvalidLogin, None), sample_auth).
Proof.
  pose proof (login_session (H := toy_hash) sample_auth "ada" "byron")
    as (_ & Hfail & _).
  destruct Hfail as [Hsame Hnone]; [by vm_compute|].
  destruct (AuthenticationSystem.login (H := toy_hash) sample_auth "ada" "byron")
    as [[[flag msg] user] a'] eqn:Hlogin.
  simpl in Hsame, Hnone. subst.
  apply (f_equal (λ x, x.1.1)) in Hlogin as Hflag.
  vm_compute in Hflag. by injection Hflag as <- <-.
Defined.

(** * Saving and loading *)

Example join_three : py_join ";" ["a"; "b"; "c"] = "a;b;c".
Proof. reflexivity. Qed.

Example str_thirty : py_str 30 = Ok "30".
Proof. reflexivity. Qed.

Example str_negative : py_str (-12) = Ok "-12".
Proof. reflexivity. Qed.

Example str_zero : py_str 0 = Ok "0".
Proof. reflexivity. Qed.

Section Fields.

Context `{SetIteration}.

Lemma split_join (parts : list string) :
  parts ≠ [] →
  Forall (λ x, str_forall no_semicolon x = true) parts →
  Py.split ";" (py_join ";" parts) = parts.
Proof.
  induction parts as [|x rest IH]; [done|]. intros _ Hall.
  inversion Hall as [|? ? Hx Hrest]; subst.
  destruct rest as [|y rest].
  - simpl. by apply split_plain.
  - change (py_join ";" (x :: y :: rest))
      with (x ++ String ";"%char (py_join ";" (y :: rest)))%string.
    rewrite split_at by done. f_equal. by apply IH.
Qed.

Lemma join_nonempty (parts : list string) :
  parts ≠ [] → Forall (λ x, Py.is_empty x = false) parts →
  Py.is_empty (py_join ";" parts) = false.
Proof.
  destruct parts as [|x rest]; [done|]. intros _ Hall.
  inversion Hall as [|? ? Hx _]; subst.
  destruct x; [done|]. by destruct rest.
Qed.

Lemma list_to_set_iterate (X : gset string) : list_to_set (iterate X) = X.
Proof.
  apply set_eq. intros x. by rewrite elem_of_list_to_set, elem_of_iterate.
Qed.

Lemma ids_field_roundtrip (X : gset string) :
  (∀ x, x ∈ X → plain_id x) →
  ids_of_field (py_join ";" (iterate X)) = X.
Proof.
  intros Hplain. unfold ids_of_field.
  destruct (iterate X) as [|x0 rest] eqn:Hit.
  - simpl. apply set_eq. intros x. rewrite <- (elem_of_iterate X), Hit.
    split; [set_solver|by intros ?%elem_of_nil].
  - assert (Hall : Forall plain_id (x0 :: rest)).
    { apply Forall_forall. intros x Hx. apply Hplain, elem_of_iterate.
      by rewrite Hit. }
    rewrite join_nonempty; [|done|by eapply Forall_impl; [done|intros ? []]].
    rewrite split_join; [|done|by eapply Forall_impl; [done|intros ? []]].
    rewrite <- Hit. apply list_to_set_iterate.
Qed.

Lemma ids_of_field_plain (field x : string) :
  x ∈ ids_of_field field → str_forall no_semicolon x = true.
Proof.
  unfold ids_of_field. destruct (Py.is_empty field); [set_solver|].
  rewrite elem_of_list_to_set. intros Hx.
  pose proof (split_parts_plain ";" field) as Hparts.
  rewrite Forall_forall in Hparts. by apply Hparts.
Qed.

End Fields.

Section Printing.

Lemma uint_string_digits (u : uint) :
  str_forall is_digit (NilEmpty.string_of_uint u) = true.
Proof. induction u; simpl; done. Qed.

Lemma uint_string_length (u : uint) :
  String.length (NilEmpty.string_of_uint u) = nb_digits u.
Proof. induction u; simpl; congruence. Qed.

Lemma uint_string_acc (u : uint) (acc : positive) :
  decimal (Z.pos acc) (NilEmpty.string_of_uint u)
  = Z.pos (Pos.of_uint_acc u acc).
Proof.
  revert acc. induction u as [|u IH|u IH|u IH|u IH|u IH|u IH|u IH|u IH|u IH|u IH];
    intros acc; simpl; [done|..]; rewrite <- IH; f_equal; lia.
Qed.

Lemma uint_string_value (u : uint) :
  decimal 0 (NilEmpty.string_of_uint u) = Z.of_N (Pos.of_uint u).
Proof.
  induction u as [|u IH|u IH|u IH|u IH|u IH|u IH|u IH|u IH|u IH|u IH];
    simpl; [done|done|..]; apply uint_string_acc.
Qed.

Lemma digits_numeral (s : string) :
  numeral s → Py.digits Py.PStart 0 0 s = Some (decimal 0 s).
Proof.
  intros (Hne & Hall & Hlen). destruct s as [|c s]; [done|].
  simpl in Hall. apply andb_true_iff in Hall as [Hc Hs].
  simpl. unfold is_digit in Hc.
  destruct (Py.digit_value c) as [d|]; [|done]. simpl.
  rewrite (digits_run _ _ _ Hs).
  simpl in Hlen. rewrite (proj2 (Z.ltb_ge _ _)); [done|lia].
Qed.

Lemma int_of_minus (s : string) :
  numeral s → Py.int_of_str (String "-" s) = Ok (- decimal 0 s).
Proof.
  intros Hs. unfold Py.int_of_str.
  assert (Hnosp : str_forall (λ c, negb (Py.is_int_space c)) (String "-" s) = true).
  { simpl. eapply str_forall_impl; [|apply Hs]. intros c Hc.
    apply digit_plain in Hc as (_ & -> & _). done. }
  rewrite (lstrip_keeps _ _ Hnosp), (rstrip_keeps _ _ Hnosp).
  by rewrite (digits_numeral s Hs).
Qed.

Lemma int_of_py_str (n : Z) (s : string) :
  py_str n = Ok s → Py.int_of_str s = Ok n.
Proof.
  unfold py_str. rewrite <- (DecimalZ.of_to n) at 3.
  assert (Hnum : ∀ u, u ≠ Nil → Z.of_nat (nb_digits u) ≤ Py.max_str_digits →
            numeral (NilEmpty.string_of_uint u)).
  { intros u Hu Hlen. split_and!.
    - by destruct u.
    - apply uint_string_digits.
    - by rewrite uint_string_length. }
  assert (Hzero : ∀ u, u ≠ Nil → NilZero.string_of_uint u = NilEmpty.string_of_uint u).
  { intros u Hu. by destruct u. }
  assert (Hnil : ∀ p, Pos.to_uint p ≠ Nil).
  { intros p. apply DecimalPos.Unsigned.to_uint_nonnil. }
  assert (Hu : match Z.to_int n with Pos u | Neg u => u ≠ Nil end).
  { destruct n; simpl; [done|apply Hnil..]. }
  destruct (Z.to_int n) as [u|u]; simpl NilZero.string_of_int;
    case_match eqn:Hlen; try done; apply Z.ltb_ge in Hlen;
    intros [= <-]; rewrite (Hzero u Hu).
  - rewrite (int_of_numeral _ (Hnum u Hu Hlen)). f_equal.
    apply uint_string_value.
  - rewrite (int_of_minus _ (Hnum u Hu Hlen)). f_equal.
    simpl. by rewrite uint_string_value.
Qed.

End Printing.

Section Tables.

Context `{SetIteration}.

Lemma student_row_roundtrip (s : Student.t) :
  (∀ x, x ∈ Student.registered_courses s → plain_id x) →
  student_of_row (student_to_row s) = s.
Proof.
  intros Hplain. pose proof (ids_field_roundtrip _ Hplain) as Hids.
  unfold student_of_row, student_to_row, ids_of_field in *. simpl.
  destruct s as [i n r]. simpl in *.
  destruct (Py.is_empty _); unfold Student.init; simpl; by rewrite Hids.
Qed.

Lemma course_row_roundtrip (c : Course.t) (row : course_row) :
  (∀ x, x ∈ Course.enrolled_students c → plain_id x) →
  course_to_row c = Ok row → course_of_row row = Ok c.
Proof.
  intros Hplain. pose proof (ids_field_roundtrip _ Hplain) as Hids.
  unfold course_to_row, course_of_row, ids_of_field in *.
  destruct (py_str (Course.max_students c)) as [ms|] eqn:Hms; [|done].
  simpl. intros [= <-]. simpl.
  rewrite (int_of_py_str _ _ Hms). simpl. f_equal.
  destruct c. simpl in *.
  destruct (Py.is_empty _); unfold Course.init, Course.set_enrolled; simpl;
    by rewrite Hids.
Qed.

Lemma load_saved_students (vs : list Student.t) (m : gmap string Student.t) :
  Forall (λ s, ∀ x, x ∈ Student.registered_courses s → plain_id x) vs →
  load_students (save_students vs) m
  = foldl (λ m s, <[Student.student_id s := s]> m) m vs.
Proof.
  revert m. induction vs as [|s vs IH]; intros m Hall; [done|].
  inversion Hall as [|? ? Hs Hrest]; subst. simpl.
  rewrite (student_row_roundtrip s Hs). by apply IH.
Qed.

Lemma load_saved_courses (vs : list Course.t) (m : gmap string Course.t) :
  Forall (λ c, (∀ x, x ∈ Course.enrolled_students c → plain_id x) ∧
               py_str (Course.max_students c) ≠ Raise ValueError) vs →
  load_courses (save_courses vs) m
  = foldl (λ m c, <[Course.course_id c := c]> m) m vs.
Proof.
  revert m. induction vs as [|c vs IH]; intros m Hall; [done|].
  inversion Hall as [|? ? [Hc Hstr] Hrest]; subst. simpl.
  destruct (course_to_row c) as [row|e] eqn:Hrow.
  - simpl. rewrite (course_row_roundtrip c row Hc Hrow). by apply IH.
  - unfold course_to_row in Hrow.
    destruct (py_str (Course.max_students c)) as [|[]]; done.
Qed.

End Tables.

Section Dictionaries.

Context {A : Type}.

(** Storing the values of a dictionary, each under its own key and in
    any order, builds the dictionary again. *)
Lemma foldl_insert_values (key : A → string) (M : gmap string A) (vs : list A) :
  (∀ k v, M !! k = Some v → key v = k) →
  vs ≡ₚ (map_to_list M).*2 →
  foldl (λ m v, <[key v := v]> m) ∅ vs = M.
Proof.
  intros Hkey Hperm.
  assert (Hfold : ∀ l : list A,
            foldl (λ m v, <[key v := v]> m) (∅ : gmap string A) l
            = list_to_map ((λ v, (key v, v)) <$> reverse l)).
  { intros l. rewrite <- (reverse_involutive l) at 1.
    generalize (reverse l). clear. intros l.
    induction l as [|v l IH]; [done|].
    rewrite reverse_cons, foldl_app. simpl. by rewrite IH. }
  rewrite Hfold.
  assert (Hpairs : (λ v, (key v, v)) <$> (map_to_list M).*2 = map_to_list M).
  { rewrite <- list_fmap_compose. rewrite <- (list_fmap_id (map_to_list M)) at 2.
    apply list_fmap_ext. intros i [k v] Hi. simpl.
    apply list_elem_of_lookup_2, elem_of_map_to_list in Hi. by rewrite (Hkey k v). }
  assert (Hp : (λ v, (key v, v)) <$> reverse vs ≡ₚ map_to_list M).
  { rewrite <- Hpairs. apply fmap_Permutation.
    by rewrite reverse_Permutation. }
  etrans; [|apply (list_to_map_to_list M)].
  apply list_to_map_proper; [|done].
  rewrite Hp. apply NoDup_fst_map_to_list.
Qed.

End Dictionaries.

(** X18. A row read back gives the object it was written for.  A student
    whose course ids are not empty and hold no semicolon is rebuilt from
    its row as it was; so is a course whose student ids are such and
    whose capacity [str] can write, the capacity going through [str] and
    [int]. *)
Theorem row_roundtrip `{SetIteration} :
  (∀ s : Student.t,
     (∀ x, x ∈ Student.registered_courses s → plain_id x) →
     student_of_row (student_to_row s) = s) ∧
  (∀ (c : Course.t) (row : course_row),
     (∀ x, x ∈ Course.enrolled_students c → plain_id x) →
     course_to_row c = Ok row → course_of_row row = Ok c).
Proof. split; [apply student_row_roundtrip|apply course_row_roundtrip]. Qed.

Lemma row_roundtrip_witness :
  course_of_row
    (CourseRow "CS301" "Database Systems" "Dr. Garcia" "1" "S001" "" "" "")
  = Ok full_course.
Proof.
  apply (row_roundtrip (H := elements_iteration)).
  - intros x Hx. change (x ∈ ({[ "S001" ]} : gset string)) in Hx.
    apply elem_of_singleton in Hx as ->. by split.
  - by vm_compute.
Defined.

(** X19. Written and read back in any order of the rows, a registry that
    stores each object under its own id, whose ids are not empty and
    hold no semicolon and whose capacities [str] can write, is the
    registry it was. *)
Theorem save_load_roundtrip `{SetIteration} (st : t)
    (student_values : list Student.t) (course_values : list Course.t) :
  keyed st → writable st →
  student_values ≡ₚ (map_to_list (students st)).*2 →
  course_values ≡ₚ (map_to_list (courses st)).*2 →
  reload st student_values course_values = st.
Proof.
  intros [Hks Hkc] (Hws & Hwc & Hwm) Hsv Hcv.
  unfold reload. destruct st as [d ss cs]. simpl in *. f_equal.
  - rewrite load_saved_students.
    + by apply foldl_insert_values.
    + apply Forall_forall. intros s Hs x Hx. rewrite Hsv in Hs.
      apply list_elem_of_fmap in Hs as ([k s'] & -> & Hs).
      apply elem_of_map_to_list in Hs. by eapply Hws.
  - rewrite load_saved_courses.
    + by apply foldl_insert_values.
    + apply Forall_forall. intros c Hc. rewrite Hcv in Hc.
      apply list_elem_of_fmap in Hc as ([k c'] & -> & Hc).
      apply elem_of_map_to_list in Hc. split; [intros x Hx|]; eauto.
Qed.

Lemma save_load_roundtrip_witness :
  reload (H := elements_iteration) enrolled_registry
    (map_to_list (students enrolled_registry)).*2
    (map_to_list (courses enrolled_registry)).*2
  = enrolled_registry.
Proof.
  apply (save_load_roundtrip (H := elements_iteration)); [| |done|done].
  - apply (reachable_inv (H := elements_iteration)), reachable_run, reachable_init.
  - assert (Hss : students enrolled_registry
                  = {[ "S001" := Student.mk "S001" "student" {[ "CS101" ]} ]})
      by by vm_compute.
    assert (Hcs : courses enrolled_registry
                  = {[ "CS101" := Course.mk "CS101" "Introduction to Programming"
                                    "Dr. Smith" {[ "S001" ]} 30 "" "" "" ]})
      by by vm_compute.
    unfold writable. rewrite Hss, Hcs. split_and!.
    + intros k s x Hs Hx. apply lookup_singleton_Some in Hs as [<- <-].
      simpl in Hx. apply elem_of_singleton in Hx as ->. by split.
    + intros k c x Hc Hx. apply lookup_singleton_Some in Hc as [<- <-].
      simpl in Hx. apply elem_of_singleton in Hx as ->. by split.
    + intros k c Hc. by apply lookup_singleton_Some in Hc as [<- <-].
Defined.

Section Semicolons.

Context `{SetIteration}.

Lemma iterate_empty : iterate ∅ = [].
Proof.
  apply Permutation_nil_r. rewrite (iterate_perm ∅). by rewrite elements_empty.
Qed.

Lemma student_of_row_plain (row : student_row) (x : string) :
  x ∈ Student.registered_courses (student_of_row row) →
  str_forall no_semicolon x = true.
Proof.
  unfold student_of_row. intros Hx. apply (ids_of_field_plain (row_registered_courses row)).
  unfold ids_of_field. by destruct (Py.is_empty _).
Qed.

Lemma course_of_row_plain (row : course_row) (c : Course.t) (x : string) :
  course_of_row row = Ok c → x ∈ Course.enrolled_students c →
  str_forall no_semicolon x = true.
Proof.
  unfold course_of_row.
  destruct (Py.int_of_str _); [|done]. simpl. intros [= <-] Hx.
  apply (ids_of_field_plain (row_enrolled_students row)).
  unfold ids_of_field. by destruct (Py.is_empty _).
Qed.

(** What [Register "S001"], [AddCourse cid] and [Enroll "S001" cid] leave
    in the empty registry. *)
Lemma enroll_in_fresh_course (cid : string) :
  Py.is_empty cid = false →
  students
    (run [Register "S001" "student"; AddCourse cid "Course" "Teacher" (IntArg 30);
          Enroll "S001" cid] (init ".")) !! "S001"
  = Some (Student.mk "S001" "student" (∅ ∪ {[ cid ]})).
Proof.
  intros Hcid.
  assert (Hreg : (register_student (init ".") "S001" "student").2
                 = EnrollmentSystem.mk "."
                     {[ "S001" := Student.init "S001" "student" ]} ∅)
    by by vm_compute.
  unfold run. cbn [foldl exec]. rewrite Hreg.
  assert (Hadd : (add_course
                    (EnrollmentSystem.mk "."
                       {[ "S001" := Student.init "S001" "student" ]} ∅)
                    cid "Course" "Teacher" (IntArg 30)).2
                 = EnrollmentSystem.mk "."
                     {[ "S001" := Student.init "S001" "student" ]}
                     (<[cid := Course.init cid "Course" "Teacher" 30 "" "" ""]> ∅)).
  { unfold add_course. rewrite Hcid. simpl.
    by rewrite bool_decide_eq_false_2 by set_solver. }
  rewrite Hadd.
  destruct (enroll_student_outcome
              (EnrollmentSystem.mk "."
                 {[ "S001" := Student.init "S001" "student" ]}
                 (<[cid := Course.init cid "Course" "Teacher" 30 "" "" ""]> ∅))
              "S001" cid)
    as [Hs|s Hs Hc|s c Hs Hc Hin|s c Hs Hc Hin Hfull
       |s c ec Hs Hc Hin Hfull Hcf|s c Hs Hc Hin Hfull Hno];
    simpl in Hs; rewrite lookup_singleton_eq in Hs; try done;
    simpl in Hc; rewrite lookup_insert_eq in Hc; try done;
    simplify_eq.
  - simpl in Hin. set_solver.
  - match goal with
    | Hx : conflicting _ _ _ _ |- _ => destruct Hx as (e & He & _)
    end.
    simpl in He. set_solver.
  - simpl. by rewrite lookup_insert_eq.
Qed.

End Semicolons.

(** X20. An id with a semicolon in it does not come back from the files:
    no id of a student or a course read from a row holds a semicolon.
    The registry takes such an id all the same: a course whose id holds
    a semicolon can be added and enrolled in from the empty registry, and
    the student written and read back no longer holds it. *)
Theorem semicolon_id_lost `{SetIteration} (cid : string) :
  Py.is_empty cid = false → str_forall no_semicolon cid = false →
  (∀ row, cid ∉ Student.registered_courses (student_of_row row)) ∧
  (∀ row c, course_of_row row = Ok c → cid ∉ Course.enrolled_students c) ∧
  ∃ st s, reachable st ∧ students st !! "S001" = Some s ∧
          cid ∈ Student.registered_courses s ∧
          student_of_row (student_to_row s) ≠ s.
Proof.
  intros Hcid Hsemi.
  assert (Hrow : ∀ row, cid ∉ Student.registered_courses (student_of_row row)).
  { intros row Hin. apply student_of_row_plain in Hin. congruence. }
  split_and!; [done|..].
  - intros row c Hc Hin. apply (course_of_row_plain row c cid Hc) in Hin. congruence.
  - eexists _, _. split_and!.
    + apply (reachable_run
               [Register "S001" "student";
                AddCourse cid "Course" "Teacher" (IntArg 30); Enroll "S001" cid]),
        (reachable_init ".").
    + by apply enroll_in_fresh_course.
    + simpl. set_solver.
    + intros Heq. apply (Hrow (student_to_row
                                 (Student.mk "S001" "student" (∅ ∪ {[ cid ]})))).
      rewrite Heq. simpl. set_solver.
Qed.

Lemma semicolon_id_lost_witness :
  "CS;101" ∉ Student.registered_courses
               (student_of_row (StudentRow "S001" "student" "CS;101")).
Proof.
  by apply (semicolon_id_lost (H := elements_iteration) "CS;101").
Defined.

(** X21. A row whose capacity cell [int] cannot read stops the loading
    of the courses: the rows before it are loaded, the rows after it are
    dropped.  The same on the way out: a course whose capacity [str]
    cannot write stops the writing of the courses, and the rows of the
    courses after it are missing from the file. *)
Theorem bad_row_stops_the_loop `{SetIteration} :
  (∀ (rows1 rows2 : list course_row) (bad : course_row) (m : gmap string Course.t),
     Py.int_of_str (row_max_students bad) = Raise ValueError →
     load_courses (rows1 ++ bad :: rows2) m = load_courses rows1 m) ∧
  (∀ (vs1 vs2 : list Course.t) (c : Course.t),
     py_str (Course.max_students c) = Raise ValueError →
     save_courses (vs1 ++ c :: vs2) = save_courses vs1).
Proof.
  split.
  - intros rows1 rows2 bad m Hbad. revert m.
    induction rows1 as [|row rows1 IH]; intros m; simpl.
    + unfold course_of_row. by rewrite Hbad.
    + destruct (course_of_row row); [apply IH|done].
  - intros vs1 vs2 c Hbad.
    induction vs1 as [|v vs1 IH]; simpl.
    + unfold course_to_row. by rewrite Hbad.
    + destruct (course_to_row v); [by rewrite IH|done].
Qed.

Lemma bad_row_stops_the_loop_witness :
  load_courses
    ([CourseRow "CS301" "Database Systems" "Dr. Garcia" "1" "S001" "" "" ""]
     ++ CourseRow "CS101" "Introduction to Programming" "Dr. Smith" "thirty"
          "" "" "" ""
        :: [CourseRow "PHY101" "Physics I" "Prof. Davis" "30" "" "" "" ""]) ∅
  = load_courses
      [CourseRow "CS301" "Database Systems" "Dr. Garcia" "1" "S001" "" "" ""] ∅.
Proof.
  by apply (proj1 (bad_row_stops_the_loop (H := elements_iteration))).
Defined.

Section Pairs.

Context `{SetIteration}.

Lemma elem_of_save_enrollments (vs : list Student.t) (sid cid : string) :
  (sid, cid) ∈ save_enrollments vs ↔
  ∃ s, s ∈ vs ∧ Student.student_id s = sid ∧ cid ∈ Student.registered_courses s.
Proof.
  unfold save_enrollments. rewrite list_elem_of_In, in_flat_map. split.
  - intros (s & Hs & Hp). exists s.
    apply list_elem_of_In, list_elem_of_fmap in Hp as (c & [= <- <-] & Hc).
    apply elem_of_iterate in Hc. by rewrite list_elem_of_In.
  - intros (s & Hs & <- & Hc). exists s. split; [by apply list_elem_of_In|].
    apply list_elem_of_In, list_elem_of_fmap. exists cid.
    by rewrite elem_of_iterate.
Qed.

Lemma NoDup_iterate (X : gset string) : NoDup (iterate X).
Proof. rewrite (iterate_perm X). apply NoDup_elements. Qed.

Lemma NoDup_save_enrollments (vs : list Student.t) :
  NoDup (Student.student_id <$> vs) → NoDup (save_enrollments vs).
Proof.
  unfold save_enrollments. induction vs as [|s vs IH]; simpl; [constructor|].
  intros Hnd. apply NoDup_cons in Hnd as [Hs Hnd].
  apply NoDup_app. split_and!.
  - apply NoDup_fmap_2; [|apply NoDup_iterate]. by intros ? ? [= ->].
  - intros [sid cid] Hp Hrest.
    apply list_elem_of_fmap in Hp as (c & [= -> ->] & _).
    apply (elem_of_save_enrollments vs) in Hrest as (s' & Hs' & Hid & _).
    apply Hs. rewrite <- Hid. by apply list_elem_of_fmap_2.
  - by apply IH.
Qed.

End Pairs.

(** X22. The enrollments file of a registry that keeps its invariant
    holds one row for each enrollment and no row twice: the pair of a
    student id and a course id is written exactly when the student holds
    the course, which is exactly when the course lists the student. *)
Theorem enrollment_pairs `{SetIteration} (st : t) (values : list Student.t) :
  registry_inv st →
  values ≡ₚ (map_to_list (students st)).*2 →
  NoDup (save_enrollments values) ∧
  ∀ sid cid,
    ((sid, cid) ∈ save_enrollments values ↔
     ∃ s, students st !! sid = Some s ∧ cid ∈ Student.registered_courses s) ∧
    ((sid, cid) ∈ save_enrollments values ↔
     ∃ c, courses st !! cid = Some c ∧ sid ∈ Course.enrolled_students c).
Proof.
  intros ([Hks Hkc] & Hbi & [Hcs Hcc]) Hperm.
  assert (Hvals : ∀ s, s ∈ values ↔ students st !! Student.student_id s = Some s).
  { intros s. rewrite Hperm, list_elem_of_fmap. split.
    - intros ([k s'] & -> & Hl). apply elem_of_map_to_list in Hl.
      simpl. by rewrite (Hks _ _ Hl).
    - intros Hl. exists (Student.student_id s, s). split; [done|].
      by apply elem_of_map_to_list. }
  assert (Hstud : ∀ sid cid,
            (sid, cid) ∈ save_enrollments values ↔
            ∃ s, students st !! sid = Some s ∧ cid ∈ Student.registered_courses s).
  { intros sid cid. rewrite elem_of_save_enrollments. split.
    - intros (s & Hs & <- & Hc). exists s. split; [by apply Hvals|done].
    - intros (s & Hs & Hc). exists s. pose proof (Hks _ _ Hs) as <-.
      split_and!; [by apply Hvals|done|done]. }
  split.
  - apply NoDup_save_enrollments. rewrite Hperm.
    assert (Heq : Student.student_id <$> (map_to_list (students st)).*2
                  = (map_to_list (students st)).*1).
    { rewrite <- list_fmap_compose. apply list_fmap_ext. intros i [k v] Hi. simpl.
      apply list_elem_of_lookup_2, elem_of_map_to_list in Hi. by apply Hks. }
    rewrite Heq. apply NoDup_fst_map_to_list.
  - intros sid cid. split; [apply Hstud|]. rewrite Hstud. split.
    + intros (s & Hs & Hc). destruct (Hcs _ _ _ Hs Hc) as [c Hl].
      exists c. split; [done|]. rewrite <- (Hks _ _ Hs).
      apply (Hbi _ _ _ _ Hs Hl). by rewrite (Hkc _ _ Hl).
    + intros (c & Hl & Hin). destruct (Hcc _ _ _ Hl Hin) as [s Hs].
      exists s. split; [done|]. rewrite <- (Hkc _ _ Hl).
      apply (Hbi _ _ _ _ Hs Hl). by rewrite (Hks _ _ Hs).
Qed.

Lemma enrollment_pairs_witness :
  NoDup (save_enrollments (H := elements_iteration)
           (map_to_list (students enrolled_registry)).*2).
Proof.
  apply (enrollment_pairs (H := elements_iteration) enrolled_registry); [|done].
  apply (reachable_inv (H := elements_iteration)), reachable_run, reachable_init.
Defined.

(** * The weekly schedule *)

Example monday_by_text :
  match get_formatted_schedule (H := elements_iteration) busy_registry "S001" with
  | ScheduleWeek _ _ total week =>
      (total, (λ d : string * list Course.t, (d.1, Course.time <$> d.2)) <$> week)
  | ScheduleAnswer _ => (0%nat, [])
  end
  = (3%nat,
     [("M", ["10:00-11:00"; "9:00-10:15"]); ("T", []);
      ("W", ["10:00-11:00"; "9:00-10:15"]); ("Th", ["9:00-10:15"]);
      ("F", ["9:00-10:15"])]).
Proof. by vm_compute. Qed.

Section Week.

Context `{SetIteration}.
Implicit Types st : t.

Lemma elem_of_scheduled_courses st (s : Student.t) (c : Course.t) :
  c ∈ scheduled_courses st s ↔
  (∃ cid, cid ∈ Student.registered_courses s ∧ courses st !! cid = Some c) ∧
  Py.is_empty (Course.days c) = false ∧ Py.is_empty (Course.time c) = false.
Proof.
  unfold scheduled_courses. rewrite list_elem_of_In, in_flat_map. split.
  - intros (cid & Hcid & Hc).
    apply list_elem_of_In, elem_of_iterate in Hcid.
    destruct (courses st !! cid) as [c'|] eqn:Hl; [|done].
    destruct (Py.is_empty (Course.days c')) eqn:Hd; [done|].
    destruct (Py.is_empty (Course.time c')) eqn:Ht; [done|].
    destruct Hc as [<-|[]]. split; [by exists cid|done].
  - intros [(cid & Hcid & Hl) [Hd Ht]]. exists cid.
    split; [by apply list_elem_of_In, elem_of_iterate|].
    rewrite Hl, Hd, Ht. by left.
Qed.

Lemma elem_of_schedule_by_day (scheduled : list Course.t) (day : string)
    (c : Course.t) :
  c ∈ schedule_by_day scheduled day ↔
  c ∈ scheduled ∧ day ∈ day_buckets (Course.days c).
Proof.
  unfold schedule_by_day. rewrite list_elem_of_In, in_flat_map. split.
  - intros (c' & Hc' & Hin). apply in_flat_map in Hin as (key & Hkey & Hin).
    destruct (String.eqb_spec key day) as [->|]; [|done].
    destruct Hin as [<-|[]]. by rewrite !list_elem_of_In.
  - intros [Hc Hday]. exists c. split; [by apply list_elem_of_In|].
    apply in_flat_map. exists day. split; [by apply list_elem_of_In|].
    rewrite String.eqb_refl. by left.
Qed.

Lemma insert_by_time_perm (c : Course.t) (l : list Course.t) :
  insert_by_time c l ≡ₚ c :: l.
Proof.
  induction l as [|o l IH]; simpl; [done|].
  destruct (str_lt _ _); [done|]. rewrite IH. apply Permutation_swap.
Qed.

Lemma sorted_by_time_perm (l : list Course.t) : sorted_by_time l ≡ₚ l.
Proof.
  unfold sorted_by_time.
  assert (Hgen : ∀ acc, foldl (λ sorted course, insert_by_time course sorted) acc l
                        ≡ₚ acc ++ l).
  { induction l as [|c l IH]; intros acc; simpl; [by rewrite app_nil_r|].
    rewrite IH, insert_by_time_perm. by rewrite <- Permutation_middle. }
  apply (Hgen []).
Qed.

Lemma str_lt_asym (a b : string) : str_lt a b = true → str_lt b a = false.
Proof.
  revert b. induction a as [|x a IH]; intros [|y b]; simpl; try done.
  destruct (Nat.ltb_spec (Py.code x) (Py.code y)),
           (Nat.ltb_spec (Py.code y) (Py.code x)); try done; try lia.
  apply IH.
Qed.

Lemma str_le_trans (a b c : string) :
  str_lt b a = false → str_lt c b = false → str_lt c a = false.
Proof.
  revert b c. induction a as [|x a IH]; intros [|y b] [|z c]; simpl; try done.
  destruct (Nat.ltb_spec (Py.code y) (Py.code x)),
           (Nat.ltb_spec (Py.code x) (Py.code y)),
           (Nat.ltb_spec (Py.code z) (Py.code y)),
           (Nat.ltb_spec (Py.code y) (Py.code z)),
           (Nat.ltb_spec (Py.code z) (Py.code x)),
           (Nat.ltb_spec (Py.code x) (Py.code z)); try done; try lia.
  apply IH.
Qed.

Lemma insert_by_time_sorted (c : Course.t) (l : list Course.t) :
  StronglySorted time_le l → StronglySorted time_le (insert_by_time c l).
Proof.
  induction 1 as [|o l Hl IH Ho]; simpl; [by repeat constructor|].
  destruct (str_lt (Course.time c) (Course.time o)) eqn:Hlt.
  - constructor; [by constructor|].
    apply str_lt_asym in Hlt. constructor; [done|].
    eapply Forall_impl; [done|]. intros o' Ho'. unfold time_le in *.
    by eapply str_le_trans.
  - constructor; [done|]. rewrite insert_by_time_perm. by constructor.
Qed.

Lemma sorted_by_time_sorted (l : list Course.t) :
  StronglySorted time_le (sorted_by_time l).
Proof.
  unfold sorted_by_time.
  assert (Hgen : ∀ acc, StronglySorted time_le acc →
            StronglySorted time_le
              (foldl (λ sorted course, insert_by_time course sorted) acc l)).
  { induction l as [|c l IH]; intros acc Hacc; simpl; [done|].
    by apply IH, insert_by_time_sorted. }
  apply Hgen. constructor.
Qed.

End Week.

(** X23. What the weekly schedule shows.  For a student who is not
    there, who holds no course, or none of whose courses has both days
    and time, [get_formatted_schedule] gives its short answer.  Otherwise
    it gives the five days in order, counts the courses that have a
    schedule, and lists a course under a day exactly when the student
    holds it, it is in the registry with days and time, and the day is
    one of the keys of its day string; courses without a schedule are
    left out. *)
Theorem week_lists_scheduled_courses `{SetIteration} (st : t) (sid : string) :
  (students st !! sid = None →
     get_formatted_schedule st sid = ScheduleAnswer "Student not found.") ∧
  (∀ s, students st !! sid = Some s →
     (Student.registered_courses s = ∅ →
        get_formatted_schedule st sid = ScheduleAnswer "No courses enrolled.") ∧
     (Student.registered_courses s ≠ ∅ → scheduled_courses st s = [] →
        get_formatted_schedule st sid
        = ScheduleAnswer "No courses with schedule information.") ∧
     (Student.registered_courses s ≠ ∅ → scheduled_courses st s ≠ [] →
        ∃ week,
          get_formatted_schedule st sid
          = ScheduleWeek (Student.name s) sid
              (length (scheduled_courses st s)) week ∧
          week.*1 = ["M"; "T"; "W"; "Th"; "F"] ∧
          ∀ day listed c, (day, listed) ∈ week →
            (c ∈ listed ↔
             (∃ cid, cid ∈ Student.registered_courses s ∧
                     courses st !! cid = Some c) ∧
             Py.is_empty (Course.days c) = false ∧
             Py.is_empty (Course.time c) = false ∧
             day ∈ day_buckets (Course.days c)))).
Proof.
  unfold get_formatted_schedule. split; [by intros ->|].
  intros s ->. split_and!.
  - intros Hreg. by rewrite bool_decide_eq_true_2.
  - intros Hreg Hnone. rewrite bool_decide_eq_false_2 by done. by rewrite Hnone.
  - intros Hreg Hsome. rewrite bool_decide_eq_false_2 by done.
    destruct (scheduled_courses st s) as [|c0 rest] eqn:Hsched; [done|].
    rewrite <- Hsched. eexists. split; [done|]. split; [done|].
    intros day listed c Hin.
    apply list_elem_of_fmap in Hin as (day' & Heq & _).
    injection Heq as -> ->.
    rewrite sorted_by_time_perm, elem_of_schedule_by_day.
    rewrite elem_of_scheduled_courses. tauto.
Qed.

Lemma week_lists_scheduled_courses_witness :
  get_formatted_schedule (H := elements_iteration) enrolled_registry "S001"
  = ScheduleAnswer "No courses with schedule information.".
Proof.
  pose proof (week_lists_scheduled_courses (H := elements_iteration)
                enrolled_registry "S001") as (_ & Hthere).
  destruct (Hthere (Student.mk "S001" "student" {[ "CS101" ]}))
    as (_ & Hnone & _); [by vm_compute|].
  apply Hnone; [|by vm_compute].
  intros Hempty. apply (f_equal size) in Hempty. by vm_compute in Hempty.
Defined.

Section Stable.

Implicit Types l : list Course.t.

Lemma filter_time_none (t : string) l :
  Forall (λ o, Course.time o ≠ t) l → filter (λ o, Course.time o = t) l = [].
Proof.
  induction 1 as [|o l Ho _ IH]; [done|]. by rewrite filter_cons_False.
Qed.

Lemma insert_by_time_filter (t : string) (c : Course.t) l :
  StronglySorted time_le l →
  filter (λ o, Course.time o = t) (insert_by_time c l)
  = (filter (λ o, Course.time o = t) l
     ++ (if decide (Course.time c = t) then [c] else []))%list.
Proof.
  induction 1 as [|o l Hl IH Ho]; simpl.
  - rewrite filter_cons, filter_nil. by case_decide.
  - destruct (str_lt (Course.time c) (Course.time o)) eqn:Hlt.
    + rewrite (filter_cons _ c). destruct (decide (Course.time c = t)) as [Hc|Hc].
      * assert (Hnone : filter (λ o0, Course.time o0 = t) (o :: l) = []).
        { apply filter_time_none, Forall_cons. split.
          - intros Ho'. rewrite <- Hc in Ho'. rewrite Ho' in Hlt.
            by rewrite (str_lt_asym _ _ Hlt) in Hlt.
          - eapply Forall_impl; [done|]. intros o' Hle Ho'.
            unfold time_le in Hle. rewrite <- Hc in Ho'. rewrite Ho' in Hle.
            congruence. }
        by rewrite Hnone.
      * by rewrite app_nil_r.
    + rewrite !(filter_cons _ o), IH.
      by destruct (decide (Course.time o = t)).
Qed.

Lemma sorted_by_time_filter (t : string) l :
  filter (λ o, Course.time o = t) (sorted_by_time l)
  = filter (λ o, Course.time o = t) l.
Proof.
  unfold sorted_by_time.
  assert (Hgen : ∀ acc, StronglySorted time_le acc →
            filter (λ o, Course.time o = t)
              (foldl (λ sorted course, insert_by_time course sorted) acc l)
            = (filter (λ o, Course.time o = t) acc
               ++ filter (λ o, Course.time o = t) l)%list).
  { induction l as [|c l IH]; intros acc Hacc; simpl.
    - by rewrite filter_nil, app_nil_r.
    - rewrite IH by by apply insert_by_time_sorted.
      rewrite insert_by_time_filter by done.
      rewrite (filter_cons _ c), <- app_assoc.
      by destruct (decide (Course.time c = t)). }
  rewrite Hgen by constructor. by rewrite filter_nil.
Qed.

End Stable.

(** X24. The rows of a day are the courses filed under the day, each as
    often as it was filed, in the order of their time texts: no row
    comes before a row whose time text is smaller, and courses with the
    same time text stay in the order in which they were filed.  The
    order is the order of the texts, not of the clock. *)
Theorem day_rows_sorted (courses_of_day : list Course.t) :
  sorted_by_time courses_of_day ≡ₚ courses_of_day ∧
  StronglySorted time_le (sorted_by_time courses_of_day) ∧
  (∀ t, filter (λ c, Course.time c = t) (sorted_by_time courses_of_day)
        = filter (λ c, Course.time c = t) courses_of_day) ∧
  ∀ i j c1 c2, (i < j)%nat →
    sorted_by_time courses_of_day !! i = Some c1 →
    sorted_by_time courses_of_day !! j = Some c2 →
    str_lt (Course.time c2) (Course.time c1) = false.
Proof.
  pose proof (sorted_by_time_sorted courses_of_day) as Hsorted.
  split_and!; [apply sorted_by_time_perm|done|
               intros t; apply sorted_by_time_filter|].
  intros i j c1 c2 Hij H1 H2.
  pose proof (StronglySorted_app_1_elem_of time_le
                (take j (sorted_by_time courses_of_day))
                (drop j (sorted_by_time courses_of_day)) c1 c2) as Happ.
  rewrite take_drop in Happ. apply Happ; [done|..].
  - apply list_elem_of_lookup. exists i. rewrite lookup_take_lt; done.
  - apply list_elem_of_lookup. exists 0%nat. rewrite lookup_drop.
    by rewrite Nat.add_0_r.
Qed.

Lemma day_rows_sorted_witness :
  str_lt "9:00-10:15" "10:00-11:00" = false.
Proof.
  destruct (day_rows_sorted [early_course; seminar_course]) as (_ & _ & _ & Hrows).
  apply (Hrows 0%nat 1%nat seminar_course early_course); [lia|done|done].
Defined.

Section UserRows.

Lemma user_row_roundtrip (u : User.t) :
  user_of_row (user_to_row u) = without_empty_id u.
Proof.
  destruct u as [name h role sid]. unfold user_of_row, user_to_row, without_empty_id.
  simpl. f_equal.
  - by destruct role.
  - destruct sid as [[|c s]|]; done.
Qed.

Lemma load_saved_users (vs : list User.t) (m : gmap string User.t) :
  load_users (user_to_row <$> vs) m
  = foldl (λ m u, <[User.username u := u]> m) m (without_empty_id <$> vs).
Proof.
  revert m. induction vs as [|u vs IH]; intros m; [done|].
  simpl. rewrite user_row_roundtrip. apply IH.
Qed.

End UserRows.

(** X25. Accounts written by [save_users] and read back by [load_users],
    in any order of the rows, are the accounts that were there, with
    name, hash, role and student id, except that a student id that is
    the empty text comes back as no student id. *)
Theorem users_roundtrip (users : gmap string User.t) (values : list User.t) :
  (∀ k u, users !! k = Some u → User.username u = k) →
  values ≡ₚ (map_to_list users).*2 →
  load_users (user_to_row <$> values) ∅ = without_empty_id <$> users.
Proof.
  intros Hkey Hperm. rewrite load_saved_users.
  apply (foldl_insert_values User.username).
  - intros k u Hu. apply lookup_fmap_Some in Hu as (u' & <- & Hu'). simpl. eauto.
  - rewrite Hperm, map_to_list_fmap, <- !list_fmap_compose.
    assert (Heq : (without_empty_id ∘ snd) <$> map_to_list users
                  = (snd ∘ prod_map id without_empty_id) <$> map_to_list users).
    { apply list_fmap_ext. by intros i [k u] _. }
    by rewrite Heq.
Qed.

Lemma users_roundtrip_witness :
  load_users
    (user_to_row <$> (map_to_list (AuthenticationSystem.users sample_auth)).*2) ∅
  = without_empty_id <$> AuthenticationSystem.users sample_auth.
Proof.
  apply users_roundtrip; [|done].
  pose proof (auth_inv_init (H := toy_hash) ".") as Hinit.
  apply (auth_inv_register (H := toy_hash) _ "ada" "lovelace" STUDENT (Some "S002"))
    in Hinit.
  apply Hinit.
Defined.

Section Keys.

Context `{SetIteration}.
Implicit Types st : t.

Lemma load_students_keyed (rows : list student_row) (m : gmap string Student.t) :
  (∀ k s, m !! k = Some s → Student.student_id s = k) →
  ∀ k s, load_students rows m !! k = Some s → Student.student_id s = k.
Proof.
  revert m. induction rows as [|row rows IH]; intros m Hm; [done|].
  simpl. apply IH. intros k s Hl.
  apply lookup_insert_Some in Hl as [[<- <-]|[_ Hl]]; eauto.
Qed.

Lemma load_courses_keyed (rows : list course_row) (m : gmap string Course.t) :
  (∀ k c, m !! k = Some c → Course.course_id c = k) →
  ∀ k c, load_courses rows m !! k = Some c → Course.course_id c = k.
Proof.
  revert m. induction rows as [|row rows IH]; intros m Hm; [done|].
  simpl. destruct (course_of_row row) as [c0|]; [|done].
  apply IH. intros k c Hl.
  apply lookup_insert_Some in Hl as [[<- <-]|[_ Hl]]; eauto.
Qed.

Lemma exec_preserves_keyed (o : op) st : keyed st → keyed (exec o st).2.
Proof.
  intros [Hks Hkc]. destruct o as [sid name|cid name ins v|sid cid|sid cid]; simpl.
  - destruct (register_student_cases st sid name) as [->|[->|[Hs ->]]];
      simpl; try done.
    split; [|done]. intros k s Hl. simpl in Hl.
    apply lookup_insert_Some in Hl as [[<- <-]|[_ Hl]]; eauto.
  - destruct (add_course_cases st cid name ins v)
      as [[m ->]|(n & Hc & _ & _ & ->)]; simpl; try done.
    split; [done|]. intros k c Hl. simpl in Hl.
    apply lookup_insert_Some in Hl as [[<- <-]|[_ Hl]]; eauto.
  - destruct (enroll_student_outcome st sid cid)
      as [| | | | |s c Hs Hc Hreg Hfull Hno]; simpl; try done.
    split; intros k x Hl; simpl in Hl;
      apply lookup_insert_Some in Hl as [[<- <-]|[_ Hl]]; simpl; eauto.
  - rewrite drop_course_cases.
    destruct (students st !! sid) as [s|] eqn:Hs; [|done].
    destruct (courses st !! cid) as [c|] eqn:Hc; [|done].
    case_bool_decide; simpl; [|done].
    split; intros k x Hl; simpl in Hl;
      apply lookup_insert_Some in Hl as [[<- <-]|[_ Hl]]; simpl; eauto.
Qed.

End Keys.

(** X26. Whatever the rows of the files are, [load_data] stores every
    student and every course under its own id, and every run of the four
    operations from the loaded registry keeps it so. *)
Theorem always_keyed `{SetIteration} (data_directory : string)
    (course_rows : list course_row) (student_rows : list student_row)
    (ops : list op) :
  keyed (load_data data_directory course_rows student_rows) ∧
  keyed (run ops (load_data data_directory course_rows student_rows)).
Proof.
  assert (Hload : keyed (load_data data_directory course_rows student_rows)).
  { split; simpl.
    - by apply load_students_keyed.
    - by apply load_courses_keyed. }
  split; [done|]. revert Hload.
  generalize (load_data data_directory course_rows student_rows).
  induction ops as [|o ops IH]; intros st Hst; [done|].
  simpl. by apply IH, exec_preserves_keyed.
Qed.
